(** * pdf_to_word_with_toc: scanned PDF to Word document with a table of contents

    A shallow embedding of [src/pdf_to_word_with_toc.py].  The script is a
    linear pipeline over three external capabilities (pdf2image, pytesseract
    and python-docx).  The embedding keeps the shape of the script:

    - the effects of the script (file system, the [logging] root logger and
      what it writes, Python exceptions) are threaded through a small state
      and exception monad [M];
    - the external capabilities whose results the script cannot determine
      (rasterisation, OCR, faults of the operating system) are variables of
      the section [Pipeline];
    - the calls into [pathlib], [logging] and python-docx are modelled at the
      level of their documented interface, with the exceptions they raise on
      the arguments the script can hand them.

    Limits of the model: paths are POSIX paths; a Python string is the
    sequence of its UTF-8 bytes; a log record is its level and its message
    (the time stamp of the format is left out); the file system is a map
    from path strings to files, so that two strings name the same file only
    when they are equal (no links, no [..] resolved, no current directory):
    no theorem below concludes, from a write at one path, that the file
    under another name is left as it was. *)

From stdpp Require Import gmap strings list fin_maps pretty.
From Stdlib Require Import ZArith Lia Ascii.

Open Scope Z_scope.

(** ** Python exceptions and results *)

(** An instance of Python's [Exception]: its class name and [str(e)]. *)
Record Exn := mkExn { exn_class : string; exn_str : string }.

Inductive Result (A : Type) : Type :=
| Returned (a : A)
| Raised (e : Exn).
Arguments Returned {A} a.
Arguments Raised {A} e.

(** [and_then r k]: go on with [k] when [r] returned. *)
Definition and_then {A B} (r : Result A) (k : A -> Result B) : Result B :=
  match r with
  | Returned a => k a
  | Raised e => Raised e
  end.

Definition ValueError (msg : string) : Exn := mkExn "ValueError" msg.

(** ** Strings: the few [str] methods the script relies on *)

Module Str.

(** [sep.join(l)] *)
Fixpoint join (sep : string) (l : list string) : string :=
  match l with
  | [] => ""
  | [x] => x
  | x :: l' => x +:+ sep +:+ join sep l'
  end.

(** [s.split(c)] for a one-character separator; [cur] holds the characters
    of the current field in reverse. *)
Fixpoint split_go (c : ascii) (cur : string) (s : string) : list string :=
  match s with
  | EmptyString => [String.rev cur]
  | String a s' =>
      if Ascii.eqb a c then String.rev cur :: split_go c "" s'
      else split_go c (String a cur) s'
  end.

Definition split (c : ascii) (s : string) : list string := split_go c "" s.

(** [s.rfind(c)]: the index of the last occurrence of [c], or [-1]. *)
Fixpoint rfind (c : ascii) (s : string) : Z :=
  match s with
  | EmptyString => -1
  | String a s' =>
      let r := rfind c s' in
      if 0 <=? r then r + 1
      else if Ascii.eqb a c then 0 else -1
  end.

(** [s[:i]] for [0 <= i]. *)
Definition prefix (i : Z) (s : string) : string :=
  String.substring 0 (Z.to_nat i) s.

Definition len (s : string) : Z := Z.of_nat (String.length s).

Definition eqb (a b : string) : bool := bool_decide (a = b).

(** [len(s)]: the number of characters, a character being one byte or a
    lead byte with its continuation bytes (the bytes [10xxxxxx]). *)
Definition continuation (a : ascii) : bool :=
  let n := Ascii.N_of_ascii a in ((128 <=? n) && (n <? 192))%N.

Fixpoint chars (s : string) : Z :=
  match s with
  | EmptyString => 0
  | String a s' => (if continuation a then 0 else 1) + chars s'
  end.

(** [s] with every carriage return turned into a line feed. *)
Fixpoint cr_as_lf (s : string) : string :=
  match s with
  | EmptyString => EmptyString
  | String a s' => String (if Ascii.eqb a "013" then "010"%char else a) (cr_as_lf s')
  end.

(** A byte of ordinary text: no control character, and neither of the lead
    bytes [ED] and [EF]. *)
Definition tame_byte (a : ascii) : bool :=
  let n := Ascii.N_of_ascii a in
  ((32 <=? n) && negb (n =? 237) && negb (n =? 239))%N.

Fixpoint tame (s : string) : bool :=
  match s with
  | EmptyString => true
  | String a s' => tame_byte a && tame s'
  end.

(** [c in s] *)
Fixpoint contains (c : ascii) (s : string) : bool :=
  match s with
  | EmptyString => false
  | String a s' => Ascii.eqb a c || contains c s'
  end.

End Str.

(** ** pathlib: [PurePosixPath] *)

(** A parsed path: its root (["" ], ["/"] or ["//"]) and its components.
    Parsing drops empty components and ["."], keeps [".."]. *)
Record Path := mkPath { root : string; tail : list string }.

Module Pathlib.

(** [posixpath.splitroot]: exactly two leading slashes are kept, three or
    more collapse to one. *)
Definition splitroot (s : string) : string * string :=
  match s with
  | String "/" (String "/" (String "/" r)) => ("/", String "/" (String "/" r))
  | String "/" (String "/" r) => ("//", r)
  | String "/" r => ("/", r)
  | _ => ("", s)
  end.

Definition keep_component (x : string) : bool :=
  negb (Str.eqb x "") && negb (Str.eqb x ".").

(** [Path(s)] *)
Definition of_string (s : string) : Path :=
  let '(r, rel) := splitroot s in
  mkPath r (List.filter keep_component (Str.split "/" rel)).

(** [str(p)] *)
Definition str (p : Path) : string :=
  match root p, tail p with
  | "", [] => "."
  | r, t => r +:+ Str.join "/" t
  end.

(** [p.name]: the last component, [''] when there is none. *)
Definition name (p : Path) : string := List.last (tail p) "".

(** [p.stem]: the name without its last suffix. *)
Definition stem (p : Path) : string :=
  let n := name p in
  let i := Str.rfind "." n in
  if (0 <? i) && (i <? Str.len n - 1) then Str.prefix i n else n.

(** [p / key] for a string [key]: an absolute [key] replaces [p]. *)
Definition joinpath (p : Path) (key : string) : Path :=
  let q := of_string key in
  if Str.eqb (root q) "" then mkPath (root p) (tail p ++ tail q) else q.

(** [p.parent] *)
Definition parent (p : Path) : Path := mkPath (root p) (removelast (tail p)).

(** The path itself and its ancestors with at least one component, nearest
    the root first: for [a/b/c], the paths [a], [a/b], [a/b/c]. *)
Definition lineage (p : Path) : list Path :=
  List.map (fun k => mkPath (root p) (take k (tail p)))
           (seq 1 (length (tail p))).

End Pathlib.

(** ** python-docx: the document object *)

(** An XML element made with [OxmlElement]: tag, attributes, children. *)
#[warnings="-register-all"]
Inductive Element : Type :=
| Elem (tag : string) (attrib : list (string * string)) (children : list Element).

Inductive BreakType := WD_BREAK_LINE | WD_BREAK_PAGE | WD_BREAK_COLUMN.

(** What a run holds, in order: stretches of text, tabs and breaks. *)
Inductive RunItem :=
| RText (t : string)
| RTab
| RBreak (b : BreakType).

(** The children of a paragraph: runs, and elements appended to [p._p]. *)
Inductive Inline :=
| IRun (items : list RunItem)
| IElem (e : Element).

Record Paragraph := mkParagraph {
  style : option string;        (* paragraph style name, [None]: the default *)
  alignment : option Z;         (* [WD_ALIGN_PARAGRAPH] value, [None]: inherited *)
  content : list Inline
}.

Record CoreProperties := mkCore { title : string; author : string }.

Record Document := mkDocument {
  core_properties : CoreProperties;
  body : list Paragraph
}.

Module Docx.

(** [Document()]: the default template, with an empty body. *)
Definition new : Document := mkDocument (mkCore "" "python-docx") [].

(** *** What lxml takes as the text of an element *)

(** A byte below [0x80] must be a tab, a line feed, a carriage return or
    at least a space. *)
Definition xml_char (a : ascii) : bool :=
  let n := Ascii.N_of_ascii a in
  ((32 <=? n) || (n =? 9) || (n =? 10) || (n =? 13))%N.

(** The three bytes at a position encode U+FFFE or U+FFFF ([EF BF BE],
    [EF BF BF]) or a surrogate ([ED A0 80] to [ED BF BF]). *)
Definition forbidden_at (a : ascii) (s : string) : bool :=
  match s with
  | String b (String c _) =>
      let next3 := (Ascii.N_of_ascii a * 65536 + Ascii.N_of_ascii b * 256
                    + Ascii.N_of_ascii c)%N in
      ((next3 =? 15712190) || (next3 =? 15712191)
       || ((15573120 <=? next3) && (next3 <=? 15581119)))%N
  | _ => false
  end.

Fixpoint xml_compatible (s : string) : bool :=
  match s with
  | EmptyString => true
  | String a s' => xml_char a && negb (forbidden_at a s') && xml_compatible s'
  end.

Definition not_xml_compatible : Exn :=
  ValueError "All strings must be XML compatible: Unicode or ASCII, no NULL bytes or control characters".

(** *** Core properties *)

(** A core property holds at most 255 characters. *)
Definition too_long (v : string) : Exn :=
  ValueError ("exceeded 255 char limit for property, got:"
              +:+ String "010" (String "010" "'") +:+ v +:+ "'").

(** The values a core property takes. *)
Definition fits_property (v : string) : bool :=
  (Str.chars v <=? 255) && xml_compatible v.

(** [doc.core_properties.title = t] *)
Definition set_title (t : string) (d : Document) : Result Document :=
  if 255 <? Str.chars t then Raised (too_long t)
  else if xml_compatible t
       then Returned (mkDocument (mkCore t (author (core_properties d))) (body d))
       else Raised not_xml_compatible.

(** [doc.core_properties.author = a] *)
Definition set_author (a : string) (d : Document) : Result Document :=
  if 255 <? Str.chars a then Raised (too_long a)
  else if xml_compatible a
       then Returned (mkDocument (mkCore (title (core_properties d)) a) (body d))
       else Raised not_xml_compatible.

(** *** Paragraphs *)

(** [run.text = text]: a tab becomes a tab element, a line feed or a
    carriage return a line break, and the characters between them a
    stretch of text; [bfr] holds the characters of the current stretch in
    reverse. *)
Definition flush (bfr : string) : list RunItem :=
  match bfr with
  | EmptyString => []
  | _ => [RText (String.rev bfr)]
  end.

Fixpoint run_items_go (bfr : string) (s : string) : list RunItem :=
  match s with
  | EmptyString => flush bfr
  | String a s' =>
      if Ascii.eqb a "009" then flush bfr ++ RTab :: run_items_go "" s'
      else if Ascii.eqb a "010" || Ascii.eqb a "013"
           then flush bfr ++ RBreak WD_BREAK_LINE :: run_items_go "" s'
           else run_items_go (String a bfr) s'
  end.

Definition run_items (text : string) : list RunItem := run_items_go "" text.

(** [doc.add_paragraph()], the call without a text: appends an empty
    paragraph and returns it.  The paragraph object is modelled by its
    index in the body. *)
Definition add_empty_paragraph (sty : option string) (d : Document)
  : Document * nat :=
  (mkDocument (core_properties d) (body d ++ [mkParagraph sty None []]),
   length (body d)).

(** [doc.add_paragraph(text, style)]: appends a paragraph, with one run
    when [text] is not empty, and returns it; a text that lxml does not
    take raises [ValueError].  (lxml is handed the stretches between the
    tabs and the ends of line, one by one; it takes them all exactly when
    it takes the whole text, the characters that separate them being
    characters that it takes and none of the forbidden sequences holding
    one.) *)
Definition add_paragraph (text : string) (sty : option string) (d : Document)
  : Result (Document * nat) :=
  if Str.eqb text "" then Returned (add_empty_paragraph sty d)
  else if xml_compatible text
       then Returned
              (mkDocument (core_properties d)
                          (body d ++ [mkParagraph sty None [IRun (run_items text)]]),
               length (body d))
       else Raised not_xml_compatible.

Definition heading_style (level : Z) : string :=
  if level =? 0 then "Title" else "Heading " +:+ pretty level.

(** [doc.add_heading(text, level)] *)
Definition add_heading (text : string) (level : Z) (d : Document)
  : Result (Document * nat) :=
  if (0 <=? level) && (level <=? 9)
  then add_paragraph text (Some (heading_style level)) d
  else Raised (ValueError ("level must be in range 0-9, got " +:+ pretty level)).

(** Update in place of the paragraph object [h]. *)
Definition update (h : nat) (f : Paragraph -> Paragraph) (d : Document)
  : Document :=
  mkDocument (core_properties d) (alter f h (body d)).

(** [p.alignment = a] *)
Definition set_alignment (h : nat) (a : Z) : Document -> Document :=
  update h (fun p => mkParagraph (style p) (Some a) (content p)).

(** [p._p.append(e)] *)
Definition append_element (h : nat) (e : Element) : Document -> Document :=
  update h (fun p => mkParagraph (style p) (alignment p) (content p ++ [IElem e])).

(** [p.add_run().add_break(b)] *)
Definition add_break_run (h : nat) (b : BreakType) : Document -> Document :=
  update h (fun p => mkParagraph (style p) (alignment p) (content p ++ [IRun [RBreak b]])).

(** [doc.add_page_break()] *)
Definition add_page_break (d : Document) : Document * nat :=
  let '(d, p) := add_empty_paragraph None d in
  (add_break_run p WD_BREAK_PAGE d, p).

(** [e.set(k, v)] on an element. *)
Definition set (k v : string) (e : Element) : Element :=
  match e with
  | Elem t a c => Elem t (List.filter (fun kv => negb (Str.eqb (fst kv) k)) a ++ [(k, v)]) c
  end.

(** [OxmlElement(tag)] *)
Definition OxmlElement (tag : string) : Element := Elem tag [] [].

(** [run.text]: a stretch of text reads as itself, a tab as a tab, a line
    break as a line feed, a page or column break as nothing. *)
Definition item_text (i : RunItem) : string :=
  match i with
  | RText t => t
  | RTab => String "009" ""
  | RBreak WD_BREAK_LINE => String "010" ""
  | RBreak _ => ""
  end.

Definition run_text (items : list RunItem) : string :=
  List.fold_right (fun i acc => item_text i +:+ acc) "" items.

(** [p.text]: the text of the runs. *)
Definition inline_text (i : Inline) : string :=
  match i with
  | IRun items => run_text items
  | IElem _ => ""
  end.

Definition text (p : Paragraph) : string :=
  List.fold_right (fun i acc => inline_text i +:+ acc) "" (content p).

End Docx.

(** ** The world the script runs in *)

Inductive Node :=
| Dir
| DocxFile (d : Document)      (* a file written by [doc.save] *)
| DataFile (data : string).    (* any other file *)

(** The file system, keyed by [str] of the path. *)
Abbreviation FS := (gmap string Node).

Inductive Level := DEBUG | INFO | WARNING | ERROR | CRITICAL.

Definition levelno (l : Level) : Z :=
  match l with
  | DEBUG => 10 | INFO => 20 | WARNING => 30 | ERROR => 40 | CRITICAL => 50
  end.

Record World := mkWorld {
  fs : FS;
  root_logger : option Level;          (* [None]: the root logger has no handler yet *)
  stderr : list (Level * string)       (* the records the handler has written *)
}.

(** A computation: reads and updates the world, returns or raises. *)
Definition M (A : Type) : Type := World -> World * Result A.

Definition ret {A} (a : A) : M A := fun w => (w, Returned a).

Definition raise {A} (e : Exn) : M A := fun w => (w, Raised e).

(** A call that does not touch the world. *)
Definition lift {A} (r : Result A) : M A := fun w => (w, r).

Definition bind {A B} (m : M A) (k : A -> M B) : M B :=
  fun w =>
    match m w with
    | (w', Returned a) => k a w'
    | (w', Raised e) => (w', Raised e)
    end.

(** [try: body / except Exception as e: handler e] *)
Definition try_except {A} (body : M A) (handler : Exn -> M A) : M A :=
  fun w =>
    match body w with
    | (w', Returned a) => (w', Returned a)
    | (w', Raised e) => handler e w'
    end.

Declare Scope py_scope.
Delimit Scope py_scope with py.
Notation "x <- m ;; k" := (bind m (fun x => k))
  (at level 100, m at next level, right associativity) : py_scope.
Notation "m ;;; k" := (bind m (fun _ => k))
  (at level 100, right associativity) : py_scope.
Open Scope py_scope.

(** [for x in l: f x], stopping at the first exception. *)
Fixpoint for_each {A} (l : list A) (f : A -> M unit) : M unit :=
  match l with
  | [] => ret tt
  | x :: l' => f x ;;; for_each l' f
  end.


(** ** logging *)

Module Logging.

(** The world after [logging.basicConfig(level=l)]: nothing changes when
    the root logger already has a handler. *)
Definition configure (l : Level) (w : World) : World :=
  match root_logger w with
  | Some _ => w
  | None => mkWorld (fs w) (Some l) (stderr w)
  end.

Definition basicConfig (l : Level) : M unit :=
  fun w => (configure l w, Returned tt).

(** The world after [logging.log(l, msg)] on the root logger; an
    unconfigured root logger is first given a handler at the default
    level, [WARNING].  The record is written when its level reaches the
    level of the root logger. *)
Definition emit (l : Level) (msg : string) (w : World) : World :=
  let w := configure WARNING w in
  match root_logger w with
  | Some threshold =>
      if levelno threshold <=? levelno l
      then mkWorld (fs w) (root_logger w) (stderr w ++ [(l, msg)])
      else w
  | None => w
  end.

Definition log (l : Level) (msg : string) : M unit :=
  fun w => (emit l msg w, Returned tt).

(** The level of the root logger once a record reaches it. *)
Definition threshold (w : World) : Level := default WARNING (root_logger w).

(** A record of level [l] is written. *)
Definition audible (l : Level) (w : World) : bool :=
  levelno (threshold w) <=? levelno l.

Definition info := log INFO.
Definition error := log ERROR.


(** Two worlds with the same files and the same records written, whose root
    loggers have the same level, or the levels [DEBUG] and [INFO]. *)
Definition alike (w1 w2 : World) : Prop :=
  fs w1 = fs w2
  /\ stderr w1 = stderr w2
  /\ (root_logger w1 = root_logger w2
      \/ (root_logger w1 = Some DEBUG /\ root_logger w2 = Some INFO)).

(** A computation that cannot tell such worlds apart. *)
Definition level_blind {A} (m : M A) : Prop :=
  forall w1 w2, alike w1 w2 -> alike (m w1).1 (m w2).1 /\ (m w1).2 = (m w2).2.

(** A computation that leaves the level of a configured root logger. *)
Definition keeps_level {A} (m : M A) : Prop :=
  forall w th, root_logger w = Some th -> root_logger (m w).1 = Some th.

End Logging.

(** [for x in l: s = f x s], stopping at the first exception: a loop whose
    body updates a local object [s]. *)
Fixpoint for_fold {A S} (l : list A) (f : A -> S -> M S) (s : S) : M S :=
  match l with
  | [] => ret s
  | x :: l' => s' <- f x s ;; for_fold l' f s'
  end.

(** [enumerate(l, start)] *)
Fixpoint enumerate {A} (l : list A) (start : Z) : list (Z * A) :=
  match l with
  | [] => []
  | x :: l' => (start, x) :: enumerate l' (start + 1)
  end.

(** The value of [WD_ALIGN_PARAGRAPH.CENTER]. *)
Definition WD_ALIGN_CENTER : Z := 1.

(** The parsed command line of the script. *)
Record Args := mkArgs {
  pdfs : list string;        (* positional, one or more *)
  output_dir : string;       (* -o, default "." *)
  arg_dpi : Z;               (* -d, default 300 *)
  arg_lang : string;         (* -l, default "spa" *)
  quiet : bool               (* -q *)
}.

(** How a save fails: the path cannot be opened for writing (missing
    directory, permissions, ...) and nothing changes, or the writing stops
    half-way (full disk, ...) and leaves a truncated file. *)
Inductive SaveFault :=
| Refused (e : Exn)
| Broken (e : Exn) (left_over : string).

Definition fault_exn (f : SaveFault) : Exn :=
  match f with
  | Refused e => e
  | Broken e _ => e
  end.

(** ** The script *)

Section Pipeline.

(** A rasterised page (a PIL image). *)
Variable PageImage : Type.

(** [pdf2image.convert_from_path(path, dpi=dpi)]: reads the file system. *)
Variable convert_from_path : FS -> string -> Z -> Result (list PageImage).

(** [pytesseract.image_to_string(page, lang=lang)] *)
Variable image_to_string : PageImage -> string -> Result string.

(** The operating system failing a [stat] for another reason than a path
    that is not there (name too long, search permission denied, ...). *)
Variable stat_fault : FS -> string -> option Exn.

(** The operating system failing a save: the path is not opened for
    writing, or the writing stops half-way. *)
Variable save_fault : FS -> string -> option SaveFault.

(** The operating system refusing to create a directory that is absent
    (permissions, read-only file system, ...). *)
Variable mkdir_fault : FS -> string -> option Exn.

(** *** Calls that touch the world *)

(** [p.exists()]; the current directory and the roots always exist. *)
Definition exists_in (f : FS) (p : Path) : bool :=
  match tail p with
  | [] => true
  | _ => bool_decide (is_Some (f !! Pathlib.str p))
  end.

(** [p.exists()]: [False] when the path is not there, the error of [stat]
    when it fails otherwise. *)
Definition Path_exists (p : Path) : M bool :=
  fun w =>
    match stat_fault (fs w) (Pathlib.str p) with
    | Some e => (w, Raised e)
    | None => (w, Returned (exists_in (fs w) p))
    end.

Definition is_dir (f : FS) (p : Path) : bool :=
  match tail p with
  | [] => true
  | _ => match f !! Pathlib.str p with Some Dir => true | _ => false end
  end.

(** One step of [asked.mkdir(parents=True, exist_ok=True)]: [p], the
    directory [asked] for or one of its ancestors ([last]: [p] is [asked]),
    is kept when it is a directory, created when it is absent, and an error
    when it is a file; the error names the directory asked for. *)
Definition mkdir_step (asked : string) (last : bool) (p : Path) : M unit :=
  fun w =>
    let s := Pathlib.str p in
    match fs w !! s with
    | Some Dir => (w, Returned tt)
    | Some _ =>
        (w, Raised (if last
                    then mkExn "FileExistsError" ("[Errno 17] File exists: '" +:+ asked +:+ "'")
                    else mkExn "NotADirectoryError" ("[Errno 20] Not a directory: '" +:+ asked +:+ "'")))
    | None =>
        match mkdir_fault (fs w) s with
        | Some e => (w, Raised e)
        | None => (mkWorld (<[s := Dir]> (fs w)) (root_logger w) (stderr w), Returned tt)
        end
    end.

Fixpoint mkdir_walk (asked : string) (ps : list Path) : M unit :=
  match ps with
  | [] => ret tt
  | [p] => mkdir_step asked true p
  | p :: ps' => mkdir_step asked false p ;;; mkdir_walk asked ps'
  end.

(** [p.mkdir(parents=True, exist_ok=True)] *)
Definition Path_mkdir (p : Path) : M unit :=
  mkdir_walk (Pathlib.str p) (Pathlib.lineage p).

Definition pdf2image_convert_from_path (path : string) (dpi : Z)
  : M (list PageImage) :=
  fun w => (w, convert_from_path (fs w) path dpi).

Definition pytesseract_image_to_string (page : PageImage) (lang : string)
  : M string :=
  fun w => (w, image_to_string page lang).

(** OCR returns [texts] on [pages], page by page. *)
Definition transcribed (lang : string) (pages : list PageImage)
    (texts : list string) : Prop :=
  Forall2 (fun page t => image_to_string page lang = Returned t) pages texts.

(** The world once [doc] is stored at [path], replacing what was there. *)
Definition written (doc : Document) (path : string) (w : World) : World :=
  mkWorld (<[Pathlib.str (Pathlib.of_string path) := DocxFile doc]> (fs w))
          (root_logger w) (stderr w).

(** The world once a save at [path] stopped half-way. *)
Definition truncated (left_over : string) (path : string) (w : World) : World :=
  mkWorld (<[Pathlib.str (Pathlib.of_string path) := DataFile left_over]> (fs w))
          (root_logger w) (stderr w).

(** The world a failed save at [path] leaves. *)
Definition after_fault (f : SaveFault) (path : string) (w : World) : World :=
  match f with
  | Refused _ => w
  | Broken _ left_over => truncated left_over path w
  end.

(** [doc.save(path)]: the file is opened for writing, then written. *)
Definition Document_save (doc : Document) (path : string) : M unit :=
  fun w =>
    match save_fault (fs w) path with
    | Some f => (after_fault f path w, Raised (fault_exn f))
    | None => (written doc path w, Returned tt)
    end.

(** *** [add_table_of_contents], lines 11-18 *)

Definition add_table_of_contents (doc : Document) : Document :=
  let '(doc, p) := Docx.add_empty_paragraph None doc in
  let fld := Docx.OxmlElement "w:fldSimple" in
  let fld := Docx.set "w:instr" "TOC \h \z \u" fld in
  Docx.append_element p fld doc.

(** *** [pdf_to_word_with_toc], lines 21-69 *)

(** The body of the loop over the pages, lines 55-63. *)
Definition page_body (lang : string) (total : Z) (ip : Z * PageImage)
    (doc : Document) : M Document :=
  let '(i, page) := ip in
  Logging.info ("🔍 Procesando página " +:+ pretty i +:+ "/" +:+ pretty total +:+ "...") ;;;
  text <- pytesseract_image_to_string page lang ;;
  let doc := if 1 <? i then fst (Docx.add_page_break doc) else doc in
  dh <- lift (Docx.add_heading ("Página " +:+ pretty i) 1 doc) ;;
  let '(doc, hdr) := dh in
  let doc := Docx.set_alignment hdr 1 doc in
  dp <- lift (Docx.add_paragraph text None doc) ;;
  ret (fst dp).

(** Lines 43-63: rasterise, create the document, fill it page by page. *)
Definition build_document (pdf_file : Path) (dpi : Z) (lang : string)
  : M Document :=
  Logging.info ("📄 Convirtiendo " +:+ Pathlib.name pdf_file
                +:+ " a imágenes (DPI=" +:+ pretty dpi +:+ ")...") ;;;
  pages <- pdf2image_convert_from_path (Pathlib.str pdf_file) dpi ;;
  let doc := Docx.new in
  doc <- lift (Docx.set_title ("Conversión de " +:+ Pathlib.name pdf_file) doc) ;;
  doc <- lift (Docx.set_author "pdf_to_word_with_toc" doc) ;;
  dh <- lift (Docx.add_heading "Tabla de Contenidos" 1 doc) ;;
  let doc := add_table_of_contents (fst dh) in
  for_fold (enumerate pages 1) (page_body lang (Z.of_nat (length pages))) doc.

(** Lines 65-69: save, with the only [try] of the script. *)
Definition save_document (doc : Document) (output_path : string) : M unit :=
  try_except
    (Document_save doc output_path ;;;
     Logging.info ("✅ Guardado: " +:+ output_path))
    (fun e =>
       Logging.error ("❌ Error al guardar " +:+ output_path +:+ ": " +:+ exn_str e)).

Definition pdf_to_word_with_toc (pdf_path output_path : string) (dpi : Z)
    (lang : string) (verbose : bool) : M unit :=
  let level := if verbose then DEBUG else INFO in
  Logging.basicConfig level ;;;
  let pdf_file := Pathlib.of_string pdf_path in
  found <- Path_exists pdf_file ;;
  if negb found then
    Logging.error ("El PDF no existe: " +:+ Pathlib.str pdf_file)
  else
    doc <- build_document pdf_file dpi lang ;;
    save_document doc output_path.

(** *** The batch driver, lines 71-96 *)

(** Lines 86-87: the output path of one input. *)
Definition output_path_for (out_dir : Path) (pdf_path : string) : string :=
  let stem := Pathlib.stem (Pathlib.of_string pdf_path) in
  Pathlib.str (Pathlib.joinpath out_dir (stem +:+ ".docx")).

Definition convert_one (args : Args) (out_dir : Path) (pdf_path : string)
  : M unit :=
  pdf_to_word_with_toc pdf_path (output_path_for out_dir pdf_path)
                       (arg_dpi args) (arg_lang args) (negb (quiet args)).

Definition main (args : Args) : M unit :=
  let out_dir := Pathlib.of_string (output_dir args) in
  Path_mkdir out_dir ;;;
  for_each (pdfs args) (convert_one args out_dir) ;;;
  Logging.info "Proceso completado para todos los PDFs.".

End Pipeline.

(** ** Reading a document back *)

(** What a reader of the produced document sees; none of these definitions
    refers to the way the script builds the document. *)
Module Reader.

(** The outline level of a paragraph: [k] for the style [Heading k]. *)
Definition heading_level (p : Paragraph) : option Z :=
  List.find (fun k => bool_decide (style p = Some (Docx.heading_style k)))
            [1; 2; 3; 4; 5; 6; 7; 8; 9].

Definition is_heading (p : Paragraph) : bool :=
  match heading_level p with Some _ => true | None => false end.

Definition is_page_break_item (i : RunItem) : bool :=
  match i with
  | RBreak WD_BREAK_PAGE => true
  | _ => false
  end.

Definition is_page_break_run (i : Inline) : bool :=
  match i with
  | IRun items => existsb is_page_break_item items
  | IElem _ => false
  end.

(** A paragraph that breaks the page. *)
Definition is_page_break (p : Paragraph) : bool :=
  existsb is_page_break_run (content p).

(** The instruction of a field, when the element is a simple field. *)
Definition field_instr (i : Inline) : option string :=
  match i with
  | IElem (Elem tag attrib _) =>
      if Str.eqb tag "w:fldSimple"
      then snd <$> List.find (fun kv => Str.eqb (fst kv) "w:instr") attrib
      else None
  | IRun _ => None
  end.

(** The field instructions a paragraph carries. *)
Definition fields (p : Paragraph) : list string :=
  omap field_instr (content p).

Definition is_toc_instr (instr : string) : bool :=
  Str.eqb (Str.prefix 3 instr) "TOC".

(** A paragraph that holds a table-of-contents field. *)
Definition has_toc_field (p : Paragraph) : bool :=
  existsb is_toc_instr (fields p).

(** The sections of a body: every heading that is followed by a paragraph
    opens one, made of the text of the heading and of the text of that
    paragraph. *)
Fixpoint sections (ps : list Paragraph) : list (string * string) :=
  match ps with
  | [] => []
  | h :: rest =>
      match is_heading h, rest with
      | true, b :: _ => (Docx.text h, Docx.text b) :: sections rest
      | _, _ => sections rest
      end
  end.

(** The entries a word processor lists when it resolves a [TOC] field with
    the switch [\u]: the paragraphs with an outline level between 1 and 9,
    in document order.  The built-in heading styles carry their outline
    level. *)
Definition toc_lists (p : Paragraph) : bool :=
  match heading_level p with
  | Some k => (1 <=? k) && (k <=? 9)
  | None => false
  end.

Definition toc_entries (ps : list Paragraph) : list string :=
  Docx.text <$> List.filter toc_lists ps.

(** The document stored at a path, if any. *)
Definition document_at (f : FS) (path : string) : option Document :=
  match f !! Pathlib.str (Pathlib.of_string path) with
  | Some (DocxFile d) => Some d
  | _ => None
  end.

End Reader.

(** ** The layout of the produced document *)

Module Layout.

Definition toc_heading : Paragraph :=
  mkParagraph (Some "Heading 1") None [IRun [RText "Tabla de Contenidos"]].

Definition toc_field : Element :=
  Elem "w:fldSimple" [("w:instr", "TOC \h \z \u")] [].

Definition toc_paragraph : Paragraph :=
  mkParagraph None None [IElem toc_field].

Definition page_break : Paragraph :=
  mkParagraph None None [IRun [RBreak WD_BREAK_PAGE]].

(** The document [d] extended with the paragraphs [ps]. *)
Definition extend (d : Document) (ps : list Paragraph) : Document :=
  mkDocument (core_properties d) (body d ++ ps).

Definition page_label (i : Z) : string := "Página " +:+ pretty i.

Definition page_heading (i : Z) : Paragraph :=
  mkParagraph (Some "Heading 1") (Some WD_ALIGN_CENTER) [IRun [RText (page_label i)]].

Definition text_paragraph (t : string) : Paragraph :=
  mkParagraph None None (if Str.eqb t "" then [] else [IRun (Docx.run_items t)]).

(** The paragraphs of page [i], whose text is [t]. *)
Definition page_section (i : Z) (t : string) : list Paragraph :=
  (if 1 <? i then [page_break] else []) ++ [page_heading i; text_paragraph t].

Definition page_sections (its : list (Z * string)) : list Paragraph :=
  its ≫= (fun it => page_section (fst it) (snd it)).

(** The whole document, for a source file named [name] whose pages read
    [texts]: the table of contents, then one section per page. *)
Definition doc_title (name : string) : string := "Conversión de " +:+ name.

Definition assembled (name : string) (texts : list string) : Document :=
  mkDocument (mkCore (doc_title name) "pdf_to_word_with_toc")
             ([toc_heading; toc_paragraph] ++ page_sections (enumerate texts 1)).

(** The line that announces the rasterisation. *)
Definition converting (name : string) (dpi : Z) : string :=
  "📄 Convirtiendo " +:+ name +:+ " a imágenes (DPI=" +:+ pretty dpi +:+ ")...".

Definition missing (pdf_file : Path) : string :=
  "El PDF no existe: " +:+ Pathlib.str pdf_file.

Definition saved (output_path : string) : string :=
  "✅ Guardado: " +:+ output_path.

Definition save_failed (output_path : string) (e : Exn) : string :=
  "❌ Error al guardar " +:+ output_path +:+ ": " +:+ exn_str e.


(** The progress line of page [i] of [total]. *)
Definition progress (total i : Z) : string :=
  "🔍 Procesando página " +:+ pretty i +:+ "/" +:+ pretty total +:+ "...".

(** The world after the progress lines of the pages [idx]. *)
Definition progress_logged (total : Z) (idx : list Z) (w : World) : World :=
  List.fold_left (fun w i => Logging.emit INFO (progress total i) w) idx w.


(** The world after a conversion that reached the end of the loop over
    its [n] pages: the announcement, then the progress lines. *)
Definition built_world (pdf_file : Path) (dpi : Z) (n : nat) (w : World) : World :=
  progress_logged (Z.of_nat n)
    ((fun k => 1 + Z.of_nat k) <$> seq 0 n)
    (Logging.emit INFO (converting (Pathlib.name pdf_file) dpi) w).

End Layout.

(** ** A concrete run *)

(** A small world to run the script in: a page image is modelled by the text
    on it, a PDF by its pages separated by [|]. *)
Module Demo.

Definition ocr (page : string) (lang : string) : Result string :=
  if Str.eqb page "<smudge>"
  then Raised (mkExn "TesseractError" "(1, 'Error during processing.')")
  else Returned page.

Definition rasterise (f : FS) (path : string) (dpi : Z) : Result (list string) :=
  match f !! path with
  | Some (DataFile "") => Returned []
  | Some (DataFile "<corrupt>") =>
      Raised (mkExn "PDFPageCountError" "Unable to get page count.")
  | Some (DataFile s) => Returned (Str.split "|" s)
  | _ => Raised (mkExn "PDFPageCountError" "Unable to get page count.")
  end.

Definition no_fault (f : FS) (path : string) : option Exn := None.

(** [stat] fails on a path with a component of more than 255 bytes. *)
Definition stat_fault (f : FS) (path : string) : option Exn :=
  if existsb (fun c => 255 <? Str.len c) (Str.split "/" path)
  then Some (mkExn "OSError" ("[Errno 36] File name too long: '" +:+ path +:+ "'"))
  else None.

(** A save is refused below [/readonly], into a directory that is not
    there and onto a directory; below [/full] it stops half-way. *)
Definition save_fault (f : FS) (path : string) : option SaveFault :=
  let p := Pathlib.of_string path in
  if Str.eqb (Str.prefix 10 path) "/readonly/"
  then Some (Refused (mkExn "PermissionError"
                        ("[Errno 13] Permission denied: '" +:+ path +:+ "'")))
  else if negb (is_dir f (Pathlib.parent p))
  then Some (Refused (mkExn "FileNotFoundError"
                        ("[Errno 2] No such file or directory: '" +:+ path +:+ "'")))
  else if is_dir f p
  then Some (Refused (mkExn "IsADirectoryError"
                        ("[Errno 21] Is a directory: '" +:+ path +:+ "'")))
  else if Str.eqb (Str.prefix 6 path) "/full/"
  then Some (Broken (mkExn "OSError" "[Errno 28] No space left on device") "PK")
  else None.

(** [n] times the letter [a]. *)
Fixpoint letters (n : nat) : string :=
  match n with
  | O => ""
  | S n' => String "a" (letters n')
  end.

(** A file name of 254 characters, and one of 304. *)
Definition long_name : string := letters 250 +:+ ".pdf".
Definition overlong_name : string := letters 300 +:+ ".pdf".

(** A page that ends with a form feed, as the OCR engine ends its pages,
    and a page with a carriage return. *)
Definition form_feed_page : string := "Alpha" +:+ String "012" "".
Definition carriage_return_page : string := "One" +:+ String "013" "Two".

Definition disk : FS :=
  <["in/a.pdf" := DataFile "Alpha|Beta|Gamma"]>
    (<["in/c.pdf" := DataFile "Delta||Zeta"]>
       (<["in/bad.pdf" := DataFile "<corrupt>"]>
          (<["in/blur.pdf" := DataFile "Eta|<smudge>|Iota"]>
             (<["in/ff.pdf" := DataFile (form_feed_page +:+ "|Beta")]>
                (<["in/cr.pdf" := DataFile carriage_return_page]>
                   (<["in" := Dir]>
                      (<["out" := Dir]>
                         (<["/readonly" := Dir]>
                            (<["/full" := Dir]> ∅))))))))).

(** A fresh process: the root logger has no handler. *)
Definition fresh : World := mkWorld disk None [].

Definition run (args : Args) : World * Result unit :=
  main string rasterise ocr stat_fault save_fault no_fault args fresh.

Definition convert (pdf_path output_path : string) (verbose : bool)
  : World * Result unit :=
  pdf_to_word_with_toc string rasterise ocr stat_fault save_fault
                       pdf_path output_path 300 "spa" verbose fresh.

Definition build (pdf_path : string) : World * Result Document :=
  build_document string rasterise ocr (Pathlib.of_string pdf_path) 300 "spa"
                 (Logging.configure DEBUG fresh).

(** A batch whose second input is missing, and one whose second input is
    corrupt. *)
Definition batch_missing : Args :=
  mkArgs ["in/a.pdf"; "in/b.pdf"; "in/c.pdf"] "out/x" 300 "spa" false.

Definition batch_corrupt : Args :=
  mkArgs ["in/a.pdf"; "in/bad.pdf"; "in/c.pdf"] "out" 300 "spa" false.

(** A batch whose second input has a page that OCR cannot read. *)
Definition batch_blurred : Args :=
  mkArgs ["in/a.pdf"; "in/blur.pdf"; "in/c.pdf"] "out" 300 "spa" false.

(** A batch whose first input is missing under a name that [stat] does not
    take, and one whose first input has a page ending with a form feed. *)
Definition batch_overlong : Args :=
  mkArgs ["in/" +:+ overlong_name; "in/a.pdf"] "out" 300 "spa" false.

Definition batch_form_feed : Args :=
  mkArgs ["in/ff.pdf"; "in/a.pdf"] "out" 300 "spa" false.

(** The world once the output directory of [args] is made. *)
Definition made (args : Args) : World :=
  (Path_mkdir no_fault (Pathlib.of_string (output_dir args)) fresh).1.

(** The world once, after that, [inputs] are converted. *)
Definition converted (args : Args) (inputs : list string) : World :=
  (for_each inputs
     (convert_one string rasterise ocr stat_fault save_fault args
                  (Pathlib.of_string (output_dir args)))
     (made args)).1.

(** The same disk with three more files: a PDF without pages, a PDF that
    shares its stem with [in/a.pdf], and a PDF named like a document. *)
Definition shelf : FS :=
  <["in/empty.pdf" := DataFile ""]>
    (<["old/a.pdf" := DataFile "Omega"]>
       (<["in/scan.docx" := DataFile "One|Two"]> disk)).

Definition fresh_shelf : World := mkWorld shelf None [].

(** The same disk with a PDF whose name has 254 characters. *)
Definition attic : FS := <["in/" +:+ long_name := DataFile "Alpha"]> disk.

Definition convert_in_attic (pdf_path output_path : string) : World * Result unit :=
  pdf_to_word_with_toc string rasterise ocr stat_fault save_fault
                       pdf_path output_path 300 "spa" true (mkWorld attic None []).

Definition convert_on_shelf (pdf_path output_path : string) : World * Result unit :=
  pdf_to_word_with_toc string rasterise ocr stat_fault save_fault
                       pdf_path output_path 300 "spa" true fresh_shelf.

(** A batch with two inputs of the same stem. *)
Definition batch_of_namesakes : Args :=
  mkArgs ["in/a.pdf"; "old/a.pdf"] "out" 300 "spa" false.

(** The world once the first input of [batch_of_namesakes] is converted. *)
Definition after_first_namesake : World :=
  (convert_one string rasterise ocr stat_fault save_fault batch_of_namesakes
               (Pathlib.of_string "out") "in/a.pdf" fresh_shelf).1.

(** A batch into the directory of its inputs, a batch none of whose inputs
    is there, and a batch whose output directory is a file. *)
Definition batch_in_place : Args :=
  mkArgs ["in/scan.docx"] "in" 300 "spa" false.

Definition batch_of_ghosts : Args :=
  mkArgs ["in/b.pdf"; "nowhere/z.pdf"] "out" 300 "spa" false.

Definition batch_into_a_file : Args :=
  mkArgs ["in/a.pdf"] "in/c.pdf" 300 "spa" false.

End Demo.

(** ** What a run leaves behind *)

Module Trace.

(** Records of level [INFO] get written in [w]: the root logger has no
    handler yet, or its level is at most [INFO]. *)
Definition info_written (w : World) : Prop :=
  forall th, root_logger w = Some th -> levelno th <= levelno INFO.

(** The progress records of the pages 1 to [n] of [total]. *)
Definition progress_records (total : Z) (n : nat) : list (Level * string) :=
  (fun k => (INFO, Layout.progress total (Z.of_nat k))) <$> seq 1 n.

(** The error records of inputs that are not there. *)
Definition missing_records (inputs : list string) : list (Level * string) :=
  (fun pdf_path => (ERROR, Layout.missing (Pathlib.of_string pdf_path))) <$> inputs.

(** The key under which the file system holds a path given as a string. *)
Definition key (path : string) : string :=
  Pathlib.str (Pathlib.of_string path).

(** A computation that takes nothing away: every path that was there is
    still there, and the records written are still written, in front of
    the new ones. *)
Definition additive {A} (m : M A) : Prop :=
  forall w,
    (forall path, is_Some (fs w !! path) -> is_Some (fs (m w).1 !! path))
    /\ stderr w `prefix_of` stderr (m w).1.

(** Two computations that, run from worlds that are alike, end the same
    way in worlds that are alike. *)
Definition in_step {A} (m1 m2 : M A) : Prop :=
  forall w1 w2,
    Logging.alike w1 w2 ->
    Logging.alike (m1 w1).1 (m2 w2).1 /\ (m1 w1).2 = (m2 w2).2.

End Trace.

(** * Properties *)

(** ** The monad *)

Lemma bind_returned {A B} (m : M A) (k : A -> M B) w w' a :
  m w = (w', Returned a) -> bind m k w = k a w'.
Proof. intros H. unfold bind. by rewrite H. Qed.

Lemma bind_raised {A B} (m : M A) (k : A -> M B) w w' e :
  m w = (w', Raised e) -> bind m k w = (w', Raised e).
Proof. intros H. unfold bind. by rewrite H. Qed.

Lemma for_each_app {A} (f : A -> M unit) (l1 l2 : list A) w :
  for_each (l1 ++ l2) f w = bind (for_each l1 f) (fun _ => for_each l2 f) w.
Proof.
  revert w. induction l1 as [|x l1 IH]; intros w; simpl; [done|].
  unfold bind. destruct (f x w) as [w1 [[]|e]]; [|done].
  rewrite IH. done.
Qed.

(** ** Strings *)

Lemma string_app_empty_r (s : string) : s +:+ "" = s.
Proof.
  induction s as [|a s IH]; [done|].
  change (String a s +:+ "") with (String a (s +:+ "")). by rewrite IH.
Qed.

Lemma append_cons (a : ascii) (s t : string) :
  String a s +:+ t = String a (s +:+ t).
Proof. done. Qed.

Lemma append_assoc (s t u : string) : (s +:+ t) +:+ u = s +:+ (t +:+ u).
Proof.
  induction s as [|a s IH]; [done|].
  by rewrite !append_cons, IH.
Qed.

Lemma rev_app_append (s t : string) :
  String.rev_app s t = String.rev_app s "" +:+ t.
Proof.
  revert t. induction s as [|a s IH]; intros t; simpl; [done|].
  rewrite IH, (IH (String a "")), append_assoc. done.
Qed.

Lemma rev_app_empty (s t : string) : String.rev_app s t = "" -> s = "" /\ t = "".
Proof.
  revert t. induction s as [|a s IH]; intros t; simpl; [done|].
  intros H. by destruct (IH _ H).
Qed.

Lemma tame_append (s t : string) :
  Str.tame (s +:+ t) = Str.tame s && Str.tame t.
Proof.
  induction s as [|a s IH]; [done|].
  rewrite append_cons. simpl. by rewrite IH, andb_assoc.
Qed.

Lemma tame_pretty_N_go (x : N) (s : string) :
  Str.tame s = true -> Str.tame (pretty_N_go x s) = true.
Proof.
  revert s. induction (N.lt_wf_0 x) as [x _ IH]; intros s Hs.
  assert (x = 0 \/ 0 < x)%N as [->|Hx] by lia.
  - by rewrite pretty_N_go_0.
  - rewrite pretty_N_go_step by done. apply IH.
    + by apply N.div_lt.
    + simpl. rewrite Hs, andb_true_r.
      unfold pretty_N_char. by repeat case_match.
Qed.

Lemma tame_pretty_N (x : N) : Str.tame (pretty x) = true.
Proof.
  unfold pretty, pretty_N. case_decide; [done|].
  by apply tame_pretty_N_go.
Qed.

Lemma tame_pretty_Z (i : Z) : Str.tame (pretty i) = true.
Proof.
  destruct i as [|p|p]; [done|..].
  - apply (tame_pretty_N (N.pos p)).
  - change (pretty (Z.neg p)) with ("-" +:+ pretty (N.pos p)).
    rewrite tame_append. by rewrite (tame_pretty_N (N.pos p)).
Qed.

Lemma tame_page_label (i : Z) : Str.tame (Layout.page_label i) = true.
Proof.
  unfold Layout.page_label. rewrite tame_append.
  by rewrite tame_pretty_Z.
Qed.

(** ** python-docx *)

(** Ordinary text is text that lxml takes. *)
Lemma tame_xml_compatible (s : string) :
  Str.tame s = true -> Docx.xml_compatible s = true.
Proof.
  induction s as [|a s IH]; [done|].
  simpl. intros [Ha Hs]%andb_true_iff. rewrite (IH Hs), andb_true_r.
  unfold Str.tame_byte in Ha. cbv zeta in Ha.
  apply andb_true_iff in Ha as [[H32 H237]%andb_true_iff H239].
  apply andb_true_iff. split.
  - unfold Docx.xml_char. cbv zeta. by rewrite H32.
  - apply negb_true_iff. unfold Docx.forbidden_at.
    destruct s as [|b [|c s]]; [done..|]. cbv zeta.
    pose proof (N_ascii_bounded a). pose proof (N_ascii_bounded b).
    pose proof (N_ascii_bounded c).
    apply negb_true_iff, N.eqb_neq in H237, H239.
    apply N.leb_le in H32.
    repeat (apply orb_false_iff; split).
    + apply N.eqb_neq. lia.
    + apply N.eqb_neq. lia.
    + apply andb_false_iff.
      destruct (N.leb_spec 15573120
                  (N_of_ascii a * 65536 + N_of_ascii b * 256 + N_of_ascii c));
        [right | by left].
      apply N.leb_gt. lia.
Qed.

(** Ordinary text is stored as one stretch. *)
Lemma run_items_go_tame (bfr s : string) :
  Str.tame s = true ->
  Docx.run_items_go bfr s = Docx.flush (String.rev_app s bfr).
Proof.
  revert bfr. induction s as [|a s IH]; intros bfr; [done|].
  simpl. intros [Ha Hs]%andb_true_iff.
  assert (Ascii.eqb a "009" = false /\ Ascii.eqb a "010" = false
          /\ Ascii.eqb a "013" = false) as (-> & -> & ->).
  { unfold Str.tame_byte in Ha. cbv zeta in Ha.
    apply andb_true_iff in Ha as [[H32%N.leb_le _]%andb_true_iff _].
    repeat split; apply Ascii.eqb_neq; intros ->; vm_compute in H32; by apply H32. }
  simpl. by rewrite IH.
Qed.

Lemma rev_app_rev_app s t u :
  String.rev_app (String.rev_app s t) u = String.rev_app t (s +:+ u).
Proof.
  revert t u. induction s as [|a s IH]; intros t u; [done|].
  simpl. by rewrite IH.
Qed.

Lemma rev_rev s : String.rev (String.rev s) = s.
Proof. unfold String.rev. rewrite rev_app_rev_app. simpl. apply string_app_empty_r. Qed.

Lemma run_items_tame (s : string) :
  Str.tame s = true -> s <> "" -> Docx.run_items s = [RText s].
Proof.
  intros Hs Hne. unfold Docx.run_items. rewrite run_items_go_tame by done.
  unfold Docx.flush.
  destruct (String.rev_app s "") as [|a r] eqn:Hr.
  - by destruct (rev_app_empty _ _ Hr).
  - rewrite <- Hr. change (String.rev_app s "") with (String.rev s).
    by rewrite rev_rev.
Qed.

Lemma run_text_app (xs ys : list RunItem) :
  Docx.run_text (xs ++ ys) = Docx.run_text xs +:+ Docx.run_text ys.
Proof.
  induction xs as [|x xs IH]; [done|].
  simpl. unfold Docx.run_text in *. simpl. by rewrite IH, append_assoc.
Qed.

Lemma run_text_flush (bfr : string) :
  Docx.run_text (Docx.flush bfr) = String.rev bfr.
Proof.
  destruct bfr as [|a bfr]; [done|].
  unfold Docx.flush, Docx.run_text. simpl. apply string_app_empty_r.
Qed.

(** Reading a run back gives the text it was made of, with a line feed
    for every carriage return. *)
Lemma run_text_run_items_go (bfr s : string) :
  Docx.run_text (Docx.run_items_go bfr s)
  = String.rev bfr +:+ Str.cr_as_lf s.
Proof.
  revert bfr. induction s as [|a s IH]; intros bfr.
  - simpl. by rewrite run_text_flush, string_app_empty_r.
  - simpl. destruct (Ascii.eqb a "009") eqn:Htab.
    { apply Ascii.eqb_eq in Htab as ->. simpl.
      rewrite run_text_app, run_text_flush.
      change (Docx.run_text (RTab :: ?l)) with (String "009" "" +:+ Docx.run_text l).
      by rewrite IH. }
    destruct (Ascii.eqb a "010") eqn:Hlf.
    { apply Ascii.eqb_eq in Hlf as ->. simpl.
      rewrite run_text_app, run_text_flush.
      change (Docx.run_text (RBreak WD_BREAK_LINE :: ?l))
        with (String "010" "" +:+ Docx.run_text l).
      by rewrite IH. }
    destruct (Ascii.eqb a "013") eqn:Hcr.
    { simpl. rewrite run_text_app, run_text_flush.
      change (Docx.run_text (RBreak WD_BREAK_LINE :: ?l))
        with (String "010" "" +:+ Docx.run_text l).
      by rewrite IH. }
    simpl. rewrite IH. unfold String.rev. simpl.
    rewrite (rev_app_append bfr (String a "")), append_assoc. done.
Qed.

Lemma run_text_run_items (s : string) :
  Docx.run_text (Docx.run_items s) = Str.cr_as_lf s.
Proof. apply run_text_run_items_go. Qed.


Lemma add_paragraph_returned t sty d :
  Docx.xml_compatible t = true ->
  Docx.add_paragraph t sty d
  = Returned
      (mkDocument (core_properties d)
         (body d ++ [mkParagraph sty None
                       (if Str.eqb t "" then [] else [IRun (Docx.run_items t)])]),
       length (body d)).
Proof.
  intros Ht. unfold Docx.add_paragraph, Docx.add_empty_paragraph. rewrite Ht.
  by destruct (Str.eqb t "").
Qed.

Lemma add_paragraph_raised t sty d :
  Docx.xml_compatible t = false ->
  Docx.add_paragraph t sty d = Raised Docx.not_xml_compatible.
Proof.
  intros Ht. unfold Docx.add_paragraph. rewrite Ht.
  destruct (Str.eqb t "") eqn:E; [|done].
  unfold Str.eqb in E. apply bool_decide_eq_true in E as ->. done.
Qed.

Lemma update_fresh f d p :
  Docx.update (length (body d)) f (mkDocument (core_properties d) (body d ++ [p]))
  = mkDocument (core_properties d) (body d ++ [f p]).
Proof.
  unfold Docx.update. simpl. f_equal.
  replace (length (body d)) with (length (body d) + 0)%nat by lia.
  by rewrite alter_app_r.
Qed.

Lemma add_page_break_body d :
  fst (Docx.add_page_break d)
  = mkDocument (core_properties d) (body d ++ [Layout.page_break]).
Proof.
  unfold Docx.add_page_break, Docx.add_empty_paragraph, Docx.add_break_run. simpl.
  by rewrite update_fresh.
Qed.

Lemma add_table_of_contents_body d :
  add_table_of_contents d
  = mkDocument (core_properties d) (body d ++ [Layout.toc_paragraph]).
Proof.
  unfold add_table_of_contents, Docx.add_empty_paragraph, Docx.append_element. simpl.
  by rewrite update_fresh.
Qed.

Lemma page_label_nonempty i : Layout.page_label i <> "".
Proof. done. Qed.

Lemma add_page_heading i d :
  Docx.add_heading (Layout.page_label i) 1 d
  = Returned
      (mkDocument (core_properties d)
         (body d ++ [mkParagraph (Some "Heading 1") None
                       [IRun [RText (Layout.page_label i)]]]),
       length (body d)).
Proof.
  unfold Docx.add_heading. simpl.
  rewrite add_paragraph_returned by (apply tame_xml_compatible, tame_page_label).
  rewrite run_items_tame by (apply tame_page_label || apply page_label_nonempty).
  done.
Qed.

Lemma add_page_heading_body i d :
  Docx.set_alignment (length (body d)) 1
    (mkDocument (core_properties d)
       (body d ++ [mkParagraph (Some "Heading 1") None
                     [IRun [RText (Layout.page_label i)]]]))
  = mkDocument (core_properties d) (body d ++ [Layout.page_heading i]).
Proof. unfold Docx.set_alignment. by rewrite update_fresh. Qed.

Lemma add_toc_heading d :
  Docx.add_heading "Tabla de Contenidos" 1 d
  = Returned
      (mkDocument (core_properties d) (body d ++ [Layout.toc_heading]),
       length (body d)).
Proof. done. Qed.

Lemma set_title_returned t d :
  Docx.fits_property t = true ->
  Docx.set_title t d
  = Returned (mkDocument (mkCore t (author (core_properties d))) (body d)).
Proof.
  unfold Docx.fits_property, Docx.set_title.
  intros [Hlen%Z.leb_le ->]%andb_true_iff.
  destruct (Z.ltb_spec 255 (Str.chars t)); [lia | done].
Qed.

Lemma set_title_raised t d :
  Docx.fits_property t = false ->
  exists e, Docx.set_title t d = Raised e /\ exn_class e = "ValueError".
Proof.
  unfold Docx.fits_property, Docx.set_title. intros H.
  destruct (Z.ltb_spec 255 (Str.chars t)); [by eexists|].
  destruct (Docx.xml_compatible t); [|by eexists].
  apply andb_false_iff in H as [H%Z.leb_gt|H]; [lia | done].
Qed.

Lemma set_author_returned d :
  Docx.set_author "pdf_to_word_with_toc" d
  = Returned (mkDocument (mkCore (title (core_properties d)) "pdf_to_word_with_toc")
                         (body d)).
Proof. done. Qed.

(** ** The loop over the pages *)

Section PageLoop.

Context {PageImage : Type}.
Variable image_to_string : PageImage -> string -> Result string.

Local Abbreviation body_of_loop := (page_body PageImage image_to_string).
Local Abbreviation ocr_gives := (transcribed PageImage image_to_string).
Local Abbreviation storable := (Forall (fun t => Docx.xml_compatible t = true)).

Lemma extend_extend d ps qs : Layout.extend (Layout.extend d ps) qs = Layout.extend d (ps ++ qs).
Proof. unfold Layout.extend. simpl. by rewrite <- app_assoc. Qed.

Lemma extend_nil d : Layout.extend d [] = d.
Proof. destruct d. unfold Layout.extend. simpl. by rewrite app_nil_r. Qed.

(** The document of the loop once the heading of page [i] is added. *)
Lemma page_body_heading lang total i page t d w :
  image_to_string page lang = Returned t ->
  body_of_loop lang total (i, page) d w
  = (Logging.emit INFO (Layout.progress total i) w,
     match Docx.add_paragraph t None
             (Layout.extend d ((if 1 <? i then [Layout.page_break] else [])
                               ++ [Layout.page_heading i])) with
     | Returned dp => Returned (fst dp)
     | Raised e => Raised e
     end).
Proof.
  intros Hocr. unfold page_body, bind, Logging.info, Logging.log,
    pytesseract_image_to_string, ret, lift. rewrite Hocr.
  fold (Layout.page_label i).
  destruct (1 <? i).
  - rewrite add_page_break_body, add_page_heading. cbv beta iota.
    rewrite (add_page_heading_body i
      (mkDocument (core_properties d) (body d ++ [Layout.page_break]))).
    unfold Layout.extend. simpl. rewrite <- !app_assoc. simpl.
    by destruct (Docx.add_paragraph _ _ _).
  - rewrite add_page_heading. cbv beta iota.
    rewrite (add_page_heading_body i d).
    unfold Layout.extend. simpl.
    by destruct (Docx.add_paragraph _ _ _).
Qed.

Lemma page_body_returned lang total i page t d w :
  image_to_string page lang = Returned t ->
  Docx.xml_compatible t = true ->
  body_of_loop lang total (i, page) d w
  = (Logging.emit INFO (Layout.progress total i) w,
     Returned (Layout.extend d (Layout.page_section i t))).
Proof.
  intros Hocr Ht. rewrite (page_body_heading _ _ _ _ _ _ _ Hocr).
  rewrite add_paragraph_returned by done. f_equal. f_equal.
  unfold Layout.extend, Layout.page_section, Layout.text_paragraph. simpl.
  by rewrite <- !app_assoc.
Qed.

(** A text that lxml does not take stops the loop with a [ValueError]. *)
Lemma page_body_rejected lang total i page t d w :
  image_to_string page lang = Returned t ->
  Docx.xml_compatible t = false ->
  body_of_loop lang total (i, page) d w
  = (Logging.emit INFO (Layout.progress total i) w,
     Raised Docx.not_xml_compatible).
Proof.
  intros Hocr Ht. rewrite (page_body_heading _ _ _ _ _ _ _ Hocr).
  by rewrite add_paragraph_raised.
Qed.

Lemma page_body_raised lang total i page e d w :
  image_to_string page lang = Raised e ->
  body_of_loop lang total (i, page) d w
  = (Logging.emit INFO (Layout.progress total i) w, Raised e).
Proof.
  intros Hocr. unfold page_body, bind, Logging.info, Logging.log,
    pytesseract_image_to_string. by rewrite Hocr.
Qed.

Lemma enumerate_fst {A} (l : list A) s :
  (enumerate l s).*1 = (fun k => s + Z.of_nat k) <$> seq 0 (length l).
Proof.
  revert s. induction l as [|x l IH]; intros s; simpl; [done|].
  rewrite IH. f_equal; [f_equal; lia|].
  rewrite <- (fmap_S_seq 0), <- list_fmap_compose.
  apply list_fmap_ext. intros _ k _. simpl. lia.
Qed.


Lemma enumerate_length {A} (l : list A) s : length (enumerate l s) = length l.
Proof. revert s. induction l as [|x l IH]; intros s; simpl; [done | by rewrite IH]. Qed.

Lemma transcribed_length lang pages texts :
  ocr_gives lang pages texts -> length texts = length pages.
Proof. intros H. symmetry. by eapply Forall2_length. Qed.

(** When OCR returns on every page a text that lxml takes, the loop appends
    one section per page, in order, and writes one progress line per
    page. *)
Lemma page_loop_returned lang total pages texts s d w :
  ocr_gives lang pages texts ->
  storable texts ->
  for_fold (enumerate pages s) (body_of_loop lang total) d w
  = (Layout.progress_logged total (enumerate pages s).*1 w,
     Returned (Layout.extend d (Layout.page_sections (enumerate texts s)))).
Proof.
  intros H. revert s d w.
  induction H as [|page t pages texts Hocr _ IH]; intros s d w Hst; simpl.
  - by rewrite extend_nil.
  - apply Forall_cons in Hst as [Ht Hst].
    erewrite bind_returned by (by apply page_body_returned).
    rewrite IH by done. by rewrite extend_extend.
Qed.

(** The loop stops on the first page whose body raises. *)
Lemma page_loop_stopped lang total before bad after texts e s d w :
  ocr_gives lang before texts ->
  storable texts ->
  (forall i d' w',
     body_of_loop lang total (i, bad) d' w'
     = (Logging.emit INFO (Layout.progress total i) w', Raised e)) ->
  for_fold (enumerate (before ++ bad :: after) s) (body_of_loop lang total) d w
  = (Layout.progress_logged total
       ((enumerate before s).*1 ++ [s + Z.of_nat (length before)]) w,
     Raised e).
Proof.
  intros H Hst Hbad. revert s d w.
  induction H as [|page t pages texts Hocr _ IH]; intros s d w; simpl.
  - erewrite bind_raised by apply Hbad.
    by rewrite Z.add_0_r.
  - apply Forall_cons in Hst as [Ht Hst].
    erewrite bind_returned by (by apply page_body_returned).
    rewrite IH by done. do 4 f_equal. lia.
Qed.

(** When OCR raises on a page, the loop raises right there. *)
Lemma page_loop_raised lang total before bad after texts e s d w :
  ocr_gives lang before texts ->
  storable texts ->
  image_to_string bad lang = Raised e ->
  for_fold (enumerate (before ++ bad :: after) s) (body_of_loop lang total) d w
  = (Layout.progress_logged total
       ((enumerate before s).*1 ++ [s + Z.of_nat (length before)]) w,
     Raised e).
Proof.
  intros H Hst Hbad. apply page_loop_stopped with (texts := texts); [done..|].
  intros i d' w'. by apply page_body_raised.
Qed.

(** So it does when OCR returns a text that lxml does not take. *)
Lemma page_loop_rejected lang total before bad after texts t s d w :
  ocr_gives lang before texts ->
  storable texts ->
  image_to_string bad lang = Returned t ->
  Docx.xml_compatible t = false ->
  for_fold (enumerate (before ++ bad :: after) s) (body_of_loop lang total) d w
  = (Layout.progress_logged total
       ((enumerate before s).*1 ++ [s + Z.of_nat (length before)]) w,
     Raised Docx.not_xml_compatible).
Proof.
  intros H Hst Hbad Ht. apply page_loop_stopped with (texts := texts); [done..|].
  intros i d' w'. by apply page_body_rejected with (t := t).
Qed.

(** On any list of pages, either OCR returns on all of them or there is a
    first page on which it raises. *)
Lemma transcribed_or_raised lang (pages : list PageImage) :
  (exists texts, ocr_gives lang pages texts)
  \/ (exists before bad after texts e,
        pages = (before ++ bad :: after)%list
        /\ ocr_gives lang before texts
        /\ image_to_string bad lang = Raised e).
Proof.
  induction pages as [|page pages IH].
  - left. exists []. constructor.
  - destruct (image_to_string page lang) as [t|e] eqn:Hocr.
    + destruct IH as [[texts H]|(before & bad & after & texts & e & -> & H & Hbad)].
      * left. exists (t :: texts). by constructor.
      * right. exists (page :: before), bad, after, (t :: texts), e.
        split; [done|]. split; [by constructor | done].
    + right. exists (@nil PageImage), page, pages, (@nil string), e. split; [done|]. split; [constructor | done].
Qed.

(** On any list of pages, either every page gives a text that is stored, or
    there is a first page that stops the loop: OCR raises on it, or returns
    a text that lxml does not take. *)
Lemma stored_or_stopped lang (pages : list PageImage) :
  (exists texts, ocr_gives lang pages texts /\ storable texts)
  \/ (exists before bad after texts e,
        pages = (before ++ bad :: after)%list
        /\ ocr_gives lang before texts
        /\ storable texts
        /\ (image_to_string bad lang = Raised e
            \/ exists t, image_to_string bad lang = Returned t
                         /\ Docx.xml_compatible t = false
                         /\ e = Docx.not_xml_compatible)).
Proof.
  induction pages as [|page pages IH].
  - left. exists []. split; constructor.
  - destruct (image_to_string page lang) as [t|e] eqn:Hocr.
    + destruct (Docx.xml_compatible t) eqn:Ht.
      * destruct IH as [(texts & H & Hst)
                       |(before & bad & after & texts & e & -> & H & Hst & Hbad)].
        -- left. exists (t :: texts). split; by constructor.
        -- right. exists (page :: before), bad, after, (t :: texts), e.
           split; [done|]. split; [by constructor|]. split; [by constructor | done].
      * right. exists (@nil PageImage), page, pages, (@nil string), Docx.not_xml_compatible.
        split; [done|]. split; [constructor|]. split; [constructor|].
        right. by exists t.
    + right. exists (@nil PageImage), page, pages, (@nil string), e.
      split; [done|]. split; [constructor|]. split; [constructor|]. by left.
Qed.

End PageLoop.
(** ** logging *)

Lemma fs_configure l w : fs (Logging.configure l w) = fs w.
Proof. unfold Logging.configure. by destruct (root_logger w). Qed.

Lemma stderr_configure l w : stderr (Logging.configure l w) = stderr w.
Proof. unfold Logging.configure. by destruct (root_logger w). Qed.

Lemma fs_emit l msg w : fs (Logging.emit l msg w) = fs w.
Proof.
  unfold Logging.emit, Logging.configure. cbv zeta.
  destruct (root_logger w) as [th|] eqn:E; simpl; rewrite ?E;
    by destruct (_ <=? _)%Z.
Qed.

Lemma stderr_emit l msg w :
  stderr (Logging.emit l msg w)
  = stderr w ++ (if Logging.audible l w then [(l, msg)] else []).
Proof.
  unfold Logging.emit, Logging.configure, Logging.audible, Logging.threshold.
  cbv zeta. destruct (root_logger w) as [th|] eqn:E; simpl; rewrite ?E;
    destruct (_ <=? _)%Z; simpl; by rewrite ?app_nil_r.
Qed.

(** Once the root logger has a handler its level stays. *)
Lemma root_logger_emit l msg w th :
  root_logger w = Some th -> root_logger (Logging.emit l msg w) = Some th.
Proof.
  intros H. unfold Logging.emit, Logging.configure. cbv zeta.
  rewrite H. simpl. rewrite H. by destruct (_ <=? _)%Z.
Qed.

Lemma root_logger_configure l w th :
  root_logger w = Some th -> root_logger (Logging.configure l w) = Some th.
Proof. intros H. unfold Logging.configure. by rewrite H. Qed.

Lemma root_logger_configure_fresh l w :
  root_logger w = None -> root_logger (Logging.configure l w) = Some l.
Proof. intros H. unfold Logging.configure. by rewrite H. Qed.

Lemma fs_progress_logged total idx w :
  fs (Layout.progress_logged total idx w) = fs w.
Proof.
  unfold Layout.progress_logged. revert w.
  induction idx as [|i idx IH]; intros w; simpl; [done|].
  by rewrite IH, fs_emit.
Qed.

Lemma root_logger_progress_logged total idx w th :
  root_logger w = Some th ->
  root_logger (Layout.progress_logged total idx w) = Some th.
Proof.
  unfold Layout.progress_logged. revert w.
  induction idx as [|i idx IH]; intros w H; simpl; [done|].
  apply IH. by apply root_logger_emit.
Qed.

(** ** Building the document *)
(** ** Building the document *)

Section Build.

Context {PageImage : Type}.
Variable convert_from_path : FS -> string -> Z -> Result (list PageImage).
Variable image_to_string : PageImage -> string -> Result string.

Local Abbreviation build := (build_document PageImage convert_from_path image_to_string).
Local Abbreviation ocr_gives := (transcribed PageImage image_to_string).
Local Abbreviation storable := (Forall (fun t => Docx.xml_compatible t = true)).

(** Once the pages are there and the title is taken, what is left is the
    loop, started on the document that holds the table of contents. *)
Lemma build_document_loop pdf_file dpi lang pages w :
  convert_from_path (fs w) (Pathlib.str pdf_file) dpi = Returned pages ->
  Docx.fits_property (Layout.doc_title (Pathlib.name pdf_file)) = true ->
  build pdf_file dpi lang w
  = for_fold (enumerate pages 1)
      (page_body PageImage image_to_string lang (Z.of_nat (length pages)))
      (Layout.assembled (Pathlib.name pdf_file) [])
      (Logging.emit INFO (Layout.converting (Pathlib.name pdf_file) dpi) w).
Proof.
  intros Hconv Hfits.
  unfold build_document, bind, Logging.info, Logging.log,
    pdf2image_convert_from_path, lift.
  fold (Layout.converting (Pathlib.name pdf_file) dpi).
  fold (Layout.doc_title (Pathlib.name pdf_file)).
  rewrite fs_emit, Hconv.
  rewrite set_title_returned by done.
  rewrite set_author_returned, add_toc_heading. cbn [fst].
  by rewrite add_table_of_contents_body.
Qed.

Lemma extend_assembled name texts :
  Layout.extend (Layout.assembled name [])
                (Layout.page_sections (enumerate texts 1))
  = Layout.assembled name texts.
Proof. done. Qed.

Lemma build_document_returned pdf_file dpi lang pages texts w :
  convert_from_path (fs w) (Pathlib.str pdf_file) dpi = Returned pages ->
  Docx.fits_property (Layout.doc_title (Pathlib.name pdf_file)) = true ->
  ocr_gives lang pages texts ->
  storable texts ->
  build pdf_file dpi lang w
  = (Layout.built_world pdf_file dpi (length pages) w,
     Returned (Layout.assembled (Pathlib.name pdf_file) texts)).
Proof.
  intros Hconv Hfits Hocr Hst.
  rewrite (build_document_loop _ _ _ _ _ Hconv Hfits).
  erewrite page_loop_returned by done.
  rewrite enumerate_fst, extend_assembled. unfold Layout.built_world. f_equal.
Qed.

Lemma fs_built_world pdf_file dpi n w :
  fs (Layout.built_world pdf_file dpi n w) = fs w.
Proof. unfold Layout.built_world. by rewrite fs_progress_logged, fs_emit. Qed.

(** A failure of the rasteriser leaves [build_document] as it is. *)
Lemma build_document_raster_raised pdf_file dpi lang e w :
  convert_from_path (fs w) (Pathlib.str pdf_file) dpi = Raised e ->
  build pdf_file dpi lang w
  = (Logging.emit INFO (Layout.converting (Pathlib.name pdf_file) dpi) w,
     Raised e).
Proof.
  intros Hconv.
  unfold build_document, bind, Logging.info, Logging.log,
    pdf2image_convert_from_path.
  fold (Layout.converting (Pathlib.name pdf_file) dpi).
  by rewrite fs_emit, Hconv.
Qed.

(** A title that the core properties do not take raises [ValueError]
    before any page is read. *)
Lemma build_document_title_rejected pdf_file dpi lang pages w :
  convert_from_path (fs w) (Pathlib.str pdf_file) dpi = Returned pages ->
  Docx.fits_property (Layout.doc_title (Pathlib.name pdf_file)) = false ->
  exists e,
    build pdf_file dpi lang w
    = (Logging.emit INFO (Layout.converting (Pathlib.name pdf_file) dpi) w,
       Raised e)
    /\ exn_class e = "ValueError".
Proof.
  intros Hconv Hfits.
  destruct (set_title_raised _ Docx.new Hfits) as (e & He & Hclass).
  exists e. split; [|done].
  unfold build_document, bind, Logging.info, Logging.log,
    pdf2image_convert_from_path, lift.
  fold (Layout.converting (Pathlib.name pdf_file) dpi).
  fold (Layout.doc_title (Pathlib.name pdf_file)).
  by rewrite fs_emit, Hconv, He.
Qed.

(** The loop stops on the first page where OCR raises or returns a text
    that lxml does not take. *)
Lemma build_document_stopped pdf_file dpi lang before bad after texts e w :
  convert_from_path (fs w) (Pathlib.str pdf_file) dpi
    = Returned (before ++ bad :: after) ->
  Docx.fits_property (Layout.doc_title (Pathlib.name pdf_file)) = true ->
  ocr_gives lang before texts ->
  storable texts ->
  (image_to_string bad lang = Raised e
   \/ exists t, image_to_string bad lang = Returned t
                /\ Docx.xml_compatible t = false
                /\ e = Docx.not_xml_compatible) ->
  build pdf_file dpi lang w
  = (Layout.progress_logged (Z.of_nat (length (before ++ bad :: after)))
       ((enumerate before 1).*1 ++ [1 + Z.of_nat (length before)])
       (Logging.emit INFO (Layout.converting (Pathlib.name pdf_file) dpi) w),
     Raised e).
Proof.
  intros Hconv Hfits Hocr Hst Hbad.
  rewrite (build_document_loop _ _ _ _ _ Hconv Hfits).
  destruct Hbad as [Hbad|(t & Hbad & Ht & ->)].
  - by erewrite page_loop_raised.
  - by erewrite page_loop_rejected.
Qed.

(** So does a failure of OCR, on the first page where it happens. *)
Lemma build_document_ocr_raised pdf_file dpi lang before bad after texts e w :
  convert_from_path (fs w) (Pathlib.str pdf_file) dpi
    = Returned (before ++ bad :: after) ->
  Docx.fits_property (Layout.doc_title (Pathlib.name pdf_file)) = true ->
  ocr_gives lang before texts ->
  storable texts ->
  image_to_string bad lang = Raised e ->
  exists w', build pdf_file dpi lang w = (w', Raised e) /\ fs w' = fs w.
Proof.
  intros Hconv Hfits Hocr Hst Hbad.
  erewrite build_document_stopped by (done || by left).
  eexists. split; [done|]. by rewrite fs_progress_logged, fs_emit.
Qed.

(** Every document that [build_document] returns is an assembled one, made
    of a title and of texts that python-docx takes. *)
Lemma build_document_inv pdf_file dpi lang w w' doc :
  build pdf_file dpi lang w = (w', Returned doc) ->
  exists pages texts,
    convert_from_path (fs w) (Pathlib.str pdf_file) dpi = Returned pages
    /\ ocr_gives lang pages texts
    /\ storable texts
    /\ Docx.fits_property (Layout.doc_title (Pathlib.name pdf_file)) = true
    /\ doc = Layout.assembled (Pathlib.name pdf_file) texts
    /\ w' = Layout.built_world pdf_file dpi (length pages) w.
Proof.
  intros Hbuild.
  destruct (convert_from_path (fs w) (Pathlib.str pdf_file) dpi)
    as [pages|e] eqn:Hconv.
  - destruct (Docx.fits_property (Layout.doc_title (Pathlib.name pdf_file)))
      eqn:Hfits.
    + destruct (stored_or_stopped image_to_string lang pages)
        as [(texts & Hocr & Hst)
           |(before & bad & after & texts & e & -> & Hocr & Hst & Hbad)].
      * rewrite (build_document_returned _ _ _ _ _ _ Hconv Hfits Hocr Hst)
          in Hbuild.
        exists pages, texts. by simplify_eq.
      * rewrite (build_document_stopped _ _ lang _ _ _ _ _ _
                   Hconv Hfits Hocr Hst Hbad) in Hbuild.
        by simplify_eq.
    + destruct (build_document_title_rejected _ _ lang _ _ Hconv Hfits)
        as (e & He & _).
      rewrite He in Hbuild. by simplify_eq.
  - rewrite (build_document_raster_raised _ _ lang _ _ Hconv) in Hbuild.
    by simplify_eq.
Qed.

End Build.

(** ** Reading an assembled document *)

Section Reading.

Import Reader Layout.

Lemma text_page_heading i : Docx.text (page_heading i) = page_label i.
Proof.
  unfold Docx.text. simpl. unfold Docx.run_text. simpl.
  by rewrite !string_app_empty_r.
Qed.

(** The paragraph of a page reads as the text of the page, with a line
    feed for every carriage return. *)
Lemma text_text_paragraph t : Docx.text (text_paragraph t) = Str.cr_as_lf t.
Proof.
  unfold Docx.text, text_paragraph, Str.eqb. simpl.
  case_bool_decide as Ht; simpl; [by subst|].
  by rewrite string_app_empty_r, run_text_run_items.
Qed.

Lemma run_items_go_no_page_break bfr s :
  existsb is_page_break_item (Docx.run_items_go bfr s) = false.
Proof.
  assert (forall b, existsb is_page_break_item (Docx.flush b) = false) as Hflush
    by (by intros [|a b]).
  revert bfr. induction s as [|a s IH]; intros bfr; simpl; [apply Hflush|].
  destruct (Ascii.eqb a "009").
  { rewrite existsb_app, Hflush. simpl. apply IH. }
  destruct (Ascii.eqb a "010" || Ascii.eqb a "013").
  { rewrite existsb_app, Hflush. simpl. apply IH. }
  apply IH.
Qed.

Lemma text_paragraph_plain t :
  is_heading (text_paragraph t) = false
  /\ is_page_break (text_paragraph t) = false
  /\ fields (text_paragraph t) = [].
Proof.
  unfold text_paragraph, Str.eqb. case_bool_decide; [done|].
  split; [done|]. split; [|done].
  unfold is_page_break. simpl. unfold Docx.run_items.
  by rewrite run_items_go_no_page_break.
Qed.

Lemma sections_heading h b r :
  is_heading h = true ->
  sections (h :: b :: r) = (Docx.text h, Docx.text b) :: sections (b :: r).
Proof. intros H. simpl. by rewrite H. Qed.

Lemma sections_plain p r :
  is_heading p = false -> sections (p :: r) = sections r.
Proof. intros H. simpl. rewrite H. by destruct r. Qed.

Lemma sections_page_sections its :
  sections (page_sections its)
  = (fun it => (page_label it.1, Str.cr_as_lf it.2)) <$> its.
Proof.
  induction its as [|[i t] its IH]; [done|].
  destruct (text_paragraph_plain t) as (Hplain & _ & _).
  change (page_sections ((i, t) :: its))
    with (page_section i t ++ page_sections its).
  assert (sections (page_heading i :: text_paragraph t :: page_sections its)
          = (page_label i, Str.cr_as_lf t)
              :: ((fun it => (page_label it.1, Str.cr_as_lf it.2)) <$> its))
    as Hsec.
  { rewrite sections_heading by done.
    rewrite sections_plain by done.
    by rewrite text_page_heading, text_text_paragraph, IH. }
  unfold page_section. destruct (1 <? i); simpl app; [|exact Hsec].
  by rewrite sections_plain.
Qed.

(** The sections of an assembled document: the table of contents, then
    the pages. *)
Lemma sections_assembled name texts :
  sections (body (assembled name texts))
  = ("Tabla de Contenidos", "")
      :: ((fun it => (page_label it.1, Str.cr_as_lf it.2)) <$> enumerate texts 1).
Proof.
  unfold assembled. simpl body.
  change ([toc_heading; toc_paragraph] ++ ?r) with (toc_heading :: toc_paragraph :: r).
  rewrite sections_heading by done.
  rewrite sections_plain by done.
  by rewrite sections_page_sections.
Qed.


End Reading.

(** ** One conversion *)

Section Convert.

Import Layout.

Context {PageImage : Type}.
Variable convert_from_path : FS -> string -> Z -> Result (list PageImage).
Variable image_to_string : PageImage -> string -> Result string.
Variable stat_fault : FS -> string -> option Exn.
Variable save_fault : FS -> string -> option SaveFault.

Local Abbreviation build := (build_document PageImage convert_from_path image_to_string).
Local Abbreviation ocr_gives := (transcribed PageImage image_to_string).
Local Abbreviation save := (save_document save_fault).
Local Abbreviation convert :=
  (pdf_to_word_with_toc PageImage convert_from_path image_to_string
                        stat_fault save_fault).

(** When [stat] fails, its error leaves the function from line 39. *)
Lemma convert_unreachable pdf_path output_path dpi lang verbose w e :
  stat_fault (fs w) (Pathlib.str (Pathlib.of_string pdf_path)) = Some e ->
  convert pdf_path output_path dpi lang verbose w
  = (Logging.configure (if verbose then DEBUG else INFO) w, Raised e).
Proof.
  intros Hstat. unfold pdf_to_word_with_toc, bind, Logging.basicConfig, Path_exists.
  by rewrite fs_configure, Hstat.
Qed.

Lemma convert_missing pdf_path output_path dpi lang verbose w :
  stat_fault (fs w) (Pathlib.str (Pathlib.of_string pdf_path)) = None ->
  exists_in (fs w) (Pathlib.of_string pdf_path) = false ->
  convert pdf_path output_path dpi lang verbose w
  = (Logging.emit ERROR (missing (Pathlib.of_string pdf_path))
       (Logging.configure (if verbose then DEBUG else INFO) w),
     Returned tt).
Proof.
  intros Hstat Hmiss.
  unfold pdf_to_word_with_toc, bind, Logging.basicConfig, Path_exists.
  by rewrite fs_configure, Hstat, Hmiss.
Qed.

Lemma convert_found pdf_path output_path dpi lang verbose w :
  stat_fault (fs w) (Pathlib.str (Pathlib.of_string pdf_path)) = None ->
  exists_in (fs w) (Pathlib.of_string pdf_path) = true ->
  convert pdf_path output_path dpi lang verbose w
  = bind (build (Pathlib.of_string pdf_path) dpi lang)
         (fun doc => save doc output_path)
         (Logging.configure (if verbose then DEBUG else INFO) w).
Proof.
  intros Hstat Hfound.
  unfold pdf_to_word_with_toc, Logging.basicConfig, Path_exists.
  unfold bind at 1 2. by rewrite fs_configure, Hstat, Hfound.
Qed.

Lemma save_document_ok doc output_path w :
  save_fault (fs w) output_path = None ->
  save doc output_path w
  = (Logging.emit INFO (saved output_path) (written doc output_path w),
     Returned tt).
Proof.
  intros Hw. unfold save_document, try_except, bind, Document_save.
  by rewrite Hw.
Qed.

Lemma save_document_failed doc output_path f w :
  save_fault (fs w) output_path = Some f ->
  save doc output_path w
  = (Logging.emit ERROR (save_failed output_path (fault_exn f))
       (after_fault f output_path w),
     Returned tt).
Proof.
  intros Hw. unfold save_document, try_except, bind, Document_save.
  by rewrite Hw.
Qed.

(** The [try] around the save catches every exception. *)
Lemma save_document_returns doc output_path w :
  (save doc output_path w).2 = Returned tt.
Proof.
  destruct (save_fault (fs w) output_path) as [f|] eqn:Hw.
  - by rewrite (save_document_failed _ _ _ _ Hw).
  - by rewrite (save_document_ok _ _ _ Hw).
Qed.

Lemma document_at_written doc output_path l msg w :
  Reader.document_at (fs (Logging.emit l msg (written doc output_path w))) output_path
  = Some doc.
Proof.
  unfold Reader.document_at. rewrite fs_emit. simpl.
  by rewrite lookup_insert_eq.
Qed.


End Convert.



(** ** The table of contents and the page breaks of an assembled document *)

Section Assembled.

Import Reader Layout.

(** The paragraphs of page [it.1] when every page starts with a break. *)
Local Abbreviation broken_section :=
  (fun it : Z * string => [page_break; page_heading it.1; text_paragraph it.2]).

Lemma page_sections_cons i t its :
  page_sections ((i, t) :: its) = page_section i t ++ page_sections its.
Proof. done. Qed.

Lemma page_sections_from_two ts s :
  (2 <= s) -> page_sections (enumerate ts s) = (enumerate ts s ≫= broken_section).
Proof.
  revert s. induction ts as [|t ts IH]; intros s Hs; [done|].
  simpl enumerate. rewrite page_sections_cons, IH by lia.
  unfold page_section. simpl fst. simpl snd.
  assert ((1 <? s) = true) as Hlt by lia. by rewrite Hlt.
Qed.

Lemma broken_sections_lookup (ts : list string) s m t :
  ts !! m = Some t ->
  (enumerate ts s ≫= broken_section) !! (3 * m)%nat = Some page_break
  /\ (enumerate ts s ≫= broken_section) !! (3 * m + 1)%nat
     = Some (page_heading (s + Z.of_nat m))
  /\ (enumerate ts s ≫= broken_section) !! (3 * m + 2)%nat
     = Some (text_paragraph t).
Proof.
  revert ts s. induction m as [|m IH]; intros [|t0 ts] s Hm; try done.
  - simpl in Hm. simplify_eq. simpl. by rewrite Z.add_0_r.
  - simpl in Hm. destruct (IH ts (s + 1) Hm) as (H0 & H1 & H2).
    replace (3 * S m)%nat with (S (S (S (3 * m)))) by lia.
    replace (S (S (S (3 * m))) + 1)%nat with (S (S (S (3 * m + 1)))) by lia.
    replace (S (S (S (3 * m))) + 2)%nat with (S (S (S (3 * m + 2)))) by lia.
    simpl enumerate. rewrite bind_cons.
    rewrite !(lookup_app_r [_; _; _]) by (simpl; lia).
    simpl length.
    replace (S (S (S (3 * m))) - 3)%nat with (3 * m)%nat by lia.
    replace (S (S (S (3 * m + 1))) - 3)%nat with (3 * m + 1)%nat by lia.
    replace (S (S (S (3 * m + 2))) - 3)%nat with (3 * m + 2)%nat by lia.
    split; [exact H0|]. split.
    + rewrite H1. do 2 f_equal. lia.
    + exact H2.
Qed.

Lemma page_paragraphs_plain i t :
  Forall (fun p => fields p = []) (page_section i t).
Proof.
  destruct (text_paragraph_plain t) as (_ & _ & Hf).
  unfold page_section. destruct (1 <? i); simpl; repeat constructor; done.
Qed.

Lemma page_sections_plain its :
  Forall (fun p => fields p = []) (page_sections its).
Proof.
  induction its as [|[i t] its IH]; [constructor|].
  rewrite page_sections_cons. apply Forall_app. split; [apply page_paragraphs_plain | done].
Qed.

Lemma no_field_no_toc ps :
  Forall (fun p => fields p = []) ps -> List.filter has_toc_field ps = [].
Proof.
  induction 1 as [|p ps Hp _ IH]; [done|].
  simpl. unfold has_toc_field at 1. by rewrite Hp.
Qed.

Lemma page_breaks_count ts s :
  length (List.filter is_page_break (enumerate ts s ≫= broken_section)) = length ts.
Proof.
  revert s. induction ts as [|t ts IH]; intros s; [done|].
  destruct (text_paragraph_plain t) as (_ & Hb & _).
  simpl. rewrite Hb. simpl. by rewrite IH.
Qed.

Lemma headings_level_one its :
  Forall (fun p => is_heading p = true -> heading_level p = Some 1)
         (page_sections its).
Proof.
  induction its as [|[i t] its IH]; [constructor|].
  rewrite page_sections_cons. apply Forall_app. split; [|done].
  destruct (text_paragraph_plain t) as (Hh & _ & _).
  unfold page_section. destruct (1 <? i); simpl; repeat constructor; try done;
    by rewrite Hh.
Qed.

Lemma toc_entries_app ps qs :
  toc_entries (ps ++ qs) = toc_entries ps ++ toc_entries qs.
Proof. unfold toc_entries. by rewrite List.filter_app, fmap_app. Qed.

Lemma toc_entries_page_section i t :
  toc_entries (page_section i t) = [page_label i].
Proof.
  destruct (text_paragraph_plain t) as (Hh & _ & _).
  assert (toc_lists (text_paragraph t) = false) as Hl.
  { unfold toc_lists. unfold is_heading in Hh. by destruct (heading_level _). }
  assert (toc_entries [page_heading i; text_paragraph t] = [page_label i]) as He.
  { unfold toc_entries.
    change (List.filter toc_lists [page_heading i; text_paragraph t])
      with (page_heading i :: if toc_lists (text_paragraph t)
                              then [text_paragraph t] else []).
    rewrite Hl. simpl. by rewrite text_page_heading. }
  unfold page_section. destruct (1 <? i); [|exact He].
  by rewrite (toc_entries_app [page_break]), He.
Qed.

Lemma toc_entries_page_sections its :
  toc_entries (page_sections its) = (sections (page_sections its)).*1.
Proof.
  rewrite sections_page_sections.
  induction its as [|[i t] its IH]; [done|].
  by rewrite page_sections_cons, toc_entries_app, toc_entries_page_section, IH.
Qed.

Lemma toc_entries_page_sections_labels its :
  toc_entries (page_sections its) = page_label <$> its.*1.
Proof.
  induction its as [|[i t] its IH]; [done|].
  by rewrite page_sections_cons, toc_entries_app, toc_entries_page_section, IH.
Qed.

Lemma enumerate_from_one {A} (l : list A) :
  (enumerate l 1).*1 = Z.of_nat <$> seq 1 (length l).
Proof.
  rewrite enumerate_fst, <- (fmap_add_seq 1 0), <- list_fmap_compose.
  apply list_fmap_ext. intros _ k _. simpl. lia.
Qed.

(** The entries of the table of contents of an assembled document: the
    table itself, then the pages. *)
Lemma toc_entries_assembled name texts :
  toc_entries (body (assembled name texts))
  = "Tabla de Contenidos"
      :: ((fun k => page_label (Z.of_nat k)) <$> seq 1 (length texts)).
Proof.
  assert (toc_entries (body (assembled name texts))
          = "Tabla de Contenidos" :: toc_entries (page_sections (enumerate texts 1)))
    as -> by done.
  rewrite toc_entries_page_sections_labels, enumerate_from_one.
  by rewrite <- list_fmap_compose.
Qed.

(** The heading of page [k] stands at position [3k - 1]. *)
Lemma page_sections_heading (ts : list string) (k : nat) :
  (1 <= k <= length ts)%nat ->
  page_sections (enumerate ts 1) !! (3 * k - 3)%nat
  = Some (page_heading (Z.of_nat k)).
Proof.
  intros Hk. destruct ts as [|t0 ts]; [simpl in Hk; lia|].
  destruct (decide (k = 1%nat)) as [->|Hk1]; [done|].
  assert (exists m, k = S (S m)) as [m ->] by (exists (k - 2)%nat; lia).
  simpl in Hk.
  destruct (lookup_lt_is_Some_2 ts m ltac:(lia)) as [t Ht].
  destruct (broken_sections_lookup ts 2 m t Ht) as (_ & H1 & _).
  assert (page_sections (enumerate (t0 :: ts) 1)
          = page_heading 1 :: text_paragraph t0
              :: (enumerate ts 2 ≫= broken_section)) as ->.
  { simpl. by rewrite page_sections_from_two. }
  replace (3 * S (S m) - 3)%nat with (S (S (3 * m + 1))) by lia.
  change ((?a :: ?b :: ?r) !! S (S ?x)) with (r !! x).
  rewrite H1. do 2 f_equal. lia.
Qed.

Lemma assembled_page_heading name (ts : list string) (k : nat) :
  (1 <= k <= length ts)%nat ->
  body (assembled name ts) !! (3 * k - 1)%nat
  = Some (page_heading (Z.of_nat k)).
Proof.
  intros Hk. rewrite <- (page_sections_heading ts k Hk).
  replace (3 * k - 1)%nat with (S (S (3 * k - 3))) by lia. done.
Qed.

Lemma headings_count its :
  length (List.filter is_heading (page_sections its)) = length its.
Proof.
  induction its as [|[i t] its IH]; [done|].
  rewrite page_sections_cons, List.filter_app, length_app, IH.
  destruct (text_paragraph_plain t) as (Hh & _ & _).
  assert (List.filter is_heading [page_heading i; text_paragraph t]
          = [page_heading i]) as He.
  { change (List.filter is_heading [page_heading i; text_paragraph t])
      with (page_heading i :: if is_heading (text_paragraph t)
                              then [text_paragraph t] else []).
    by rewrite Hh. }
  unfold page_section.
  destruct (1 <? i).
  - rewrite (List.filter_app _ [page_break] [page_heading i; text_paragraph t]).
    by rewrite He.
  - change ([] ++ ?l) with l. by rewrite He.
Qed.

End Assembled.

(** ** The documents the script builds *)

Section Documents.

Import Reader Layout.

Context {PageImage : Type}.
Variable convert_from_path : FS -> string -> Z -> Result (list PageImage).
Variable image_to_string : PageImage -> string -> Result string.

Local Abbreviation build := (build_document PageImage convert_from_path image_to_string).

(** C2. In every document the script builds, the body starts with the
    level-1 heading of the table of contents ("Tabla de Contenidos" in the
    script), immediately followed by the paragraph that holds the field
    [TOC \h \z \u]; that paragraph holds nothing but the field, the field has
    no content of its own, no other paragraph holds a field, and every page
    section comes after it. *)
Theorem toc_field_once (pdf_file : Path) (dpi : Z) (lang : string)
    (w w1 : World) (doc : Document) :
  build pdf_file dpi lang w = (w1, Returned doc) ->
  exists rest,
    body doc = toc_heading :: toc_paragraph :: rest
    /\ heading_level toc_heading = Some 1
    /\ Docx.text toc_heading = "Tabla de Contenidos"
    /\ content toc_paragraph
       = [IElem (Elem "w:fldSimple" [("w:instr", "TOC \h \z \u")] [])]
    /\ fields toc_paragraph = ["TOC \h \z \u"]
    /\ Forall (fun p => fields p = []) rest
    /\ List.filter has_toc_field (body doc) = [toc_paragraph]
    /\ sections (body doc) = ("Tabla de Contenidos", "") :: sections rest.
Proof.
  intros Hbuild.
  destruct (build_document_inv _ _ _ _ _ _ _ _ Hbuild)
    as (pages & texts & _ & _ & _ & _ & -> & _).
  exists (page_sections (enumerate texts 1)).
  pose proof (page_sections_plain (enumerate texts 1)) as Hplain.
  do 6 (split; [done|]). split.
  - simpl body.
    change (List.filter has_toc_field (toc_heading :: toc_paragraph :: ?r))
      with (toc_paragraph :: List.filter has_toc_field r).
    by rewrite no_field_no_toc.
  - by rewrite sections_assembled, sections_page_sections.
Qed.

(** C3. In the document built for a PDF of [N] pages, the heading of page
    [k] stands at position [3k - 1] of the body.  For [k = 1] the paragraph
    before it is the paragraph of the table of contents, which is no page
    break; for [2 <= k <= N] the paragraph before it is a page break and the
    one before that is not.  The body holds [N - 1] page breaks in all. *)
Theorem page_breaks_between_sections (pdf_file : Path) (dpi : Z) (lang : string)
    (w w1 : World) (doc : Document) (pages : list PageImage) :
  build pdf_file dpi lang w = (w1, Returned doc) ->
  convert_from_path (fs w) (Pathlib.str pdf_file) dpi = Returned pages ->
  length (List.filter is_page_break (body doc)) = (length pages - 1)%nat
  /\ forall k : nat,
       (1 <= k <= length pages)%nat ->
       body doc !! (3 * k - 1)%nat = Some (page_heading (Z.of_nat k))
       /\ (k = 1%nat ->
           body doc !! (3 * k - 2)%nat = Some toc_paragraph
           /\ is_page_break toc_paragraph = false)
       /\ ((2 <= k)%nat ->
           body doc !! (3 * k - 2)%nat = Some page_break
           /\ is_page_break page_break = true
           /\ exists p, body doc !! (3 * k - 3)%nat = Some p
                        /\ is_page_break p = false).
Proof.
  intros Hbuild Hconv.
  destruct (build_document_inv _ _ _ _ _ _ _ _ Hbuild)
    as (pages' & texts & Hconv' & Hocr & _ & _ & -> & _).
  rewrite Hconv in Hconv'. simplify_eq.
  pose proof (transcribed_length _ _ _ _ Hocr) as Hlen. rewrite <- Hlen.
  destruct texts as [|t0 ts].
  { split; [done|]. simpl. lia. }
  assert (body (assembled (Pathlib.name pdf_file) (t0 :: ts))
          = toc_heading :: toc_paragraph :: page_heading 1 :: text_paragraph t0
              :: (enumerate ts 2 ≫= fun it =>
                    [page_break; page_heading it.1; text_paragraph it.2]))
    as Hbody.
  { simpl. by rewrite page_sections_from_two. }
  rewrite Hbody. clear Hbody.
  destruct (text_paragraph_plain t0) as (_ & Hb0 & _).
  split.
  { change (List.filter is_page_break
              (toc_heading :: toc_paragraph :: page_heading 1 :: ?p :: ?r))
      with (if is_page_break p then p :: List.filter is_page_break r
            else List.filter is_page_break r).
    rewrite Hb0, page_breaks_count. simpl. lia. }
  intros k Hk.
  destruct (decide (k = 1%nat)) as [->|Hk1].
  { split; [done|]. split; [done|]. lia. }
  assert (exists m, k = S (S m)) as [m ->] by (exists (k - 2)%nat; lia).
  simpl in Hk.
  destruct (lookup_lt_is_Some_2 ts m ltac:(lia)) as [t Ht].
  destruct (broken_sections_lookup ts 2 m t Ht) as (H0 & H1 & H2).
  replace (3 * S (S m) - 1)%nat with (S (S (S (S (3 * m + 1))))) by lia.
  replace (3 * S (S m) - 2)%nat with (S (S (S (S (3 * m))))) by lia.
  replace (3 * S (S m) - 3)%nat with (S (S (S (3 * m)))) by lia.
  assert (forall (a b c d : Paragraph) r x,
            (a :: b :: c :: d :: r) !! S (S (S (S x))) = r !! x) as Hskip by done.
  split; [|split; [lia|]].
  - rewrite Hskip, H1. do 2 f_equal. lia.
  - intros _. rewrite Hskip. split; [exact H0|]. split; [done|].
    destruct m as [|m].
    + exists (text_paragraph t0). split; done.
    + destruct (lookup_lt_is_Some_2 ts m ltac:(apply lookup_lt_Some in Ht; lia))
        as [t' Ht'].
      destruct (broken_sections_lookup ts 2 m t' Ht') as (_ & _ & H2').
      exists (text_paragraph t'). split.
      * replace (S (S (S (3 * S m)))) with (S (S (S (S (3 * m + 2))))) by lia.
        rewrite Hskip. exact H2'.
      * by destruct (text_paragraph_plain t') as (_ & ? & _).
Qed.

(** C8.  In the document built for a PDF of [N] pages, the heading of every
    page [k], at position [3k - 1] of the body, is labelled with the page
    number and has the style [Heading 1], outline level 1: the level of the
    heading of the table of contents, and a level that the field of the
    table of contents lists.  No heading has another level.  So the
    entries of the resolved table are the table of contents itself, then
    the [N] pages in order: the headings of all the sections. *)
Theorem headings_at_toc_level (pdf_file : Path) (dpi : Z) (lang : string)
    (w w1 : World) (doc : Document) (pages : list PageImage) :
  build pdf_file dpi lang w = (w1, Returned doc) ->
  convert_from_path (fs w) (Pathlib.str pdf_file) dpi = Returned pages ->
  (forall k : nat,
     (1 <= k <= length pages)%nat ->
     exists h,
       body doc !! (3 * k - 1)%nat = Some h
       /\ Docx.text h = page_label (Z.of_nat k)
       /\ style h = Some "Heading 1"
       /\ heading_level h = Some 1
       /\ toc_lists h = true)
  /\ (exists h, body doc !! 0%nat = Some h
                /\ Docx.text h = "Tabla de Contenidos"
                /\ style h = Some "Heading 1"
                /\ heading_level h = Some 1
                /\ toc_lists h = true)
  /\ Forall (fun p => is_heading p = true ->
                      heading_level p = Some 1 /\ toc_lists p = true) (body doc)
  /\ length (List.filter is_heading (body doc)) = S (length pages)
  /\ toc_entries (body doc)
     = "Tabla de Contenidos"
         :: ((fun k => page_label (Z.of_nat k)) <$> seq 1 (length pages))
  /\ toc_entries (body doc) = (sections (body doc)).*1
  /\ head (toc_entries (body doc)) = Some "Tabla de Contenidos".
Proof.
  intros Hbuild Hconv.
  destruct (build_document_inv _ _ _ _ _ _ _ _ Hbuild)
    as (pages' & texts & Hconv' & Hocr & _ & _ & -> & _).
  rewrite Hconv in Hconv'. simplify_eq.
  pose proof (transcribed_length _ _ _ _ Hocr) as Hlen. rewrite <- Hlen.
  assert (toc_entries (body (assembled (Pathlib.name pdf_file) texts))
          = "Tabla de Contenidos" :: toc_entries (page_sections (enumerate texts 1)))
    as Hentries by done.
  split; [|split; [|split; [|split; [|split; [|split]]]]].
  - intros k Hk. exists (page_heading (Z.of_nat k)).
    split; [by apply assembled_page_heading|].
    split; [apply text_page_heading | done].
  - by exists toc_heading.
  - simpl body. repeat constructor; try done.
    eapply Forall_impl; [apply headings_level_one|].
    intros p Hp Hh. specialize (Hp Hh). split; [done|].
    unfold toc_lists. by rewrite Hp.
  - simpl body.
    change (List.filter is_heading (toc_heading :: toc_paragraph :: ?r))
      with (toc_heading :: List.filter is_heading r).
    simpl length. by rewrite headings_count, enumerate_length.
  - apply toc_entries_assembled.
  - rewrite Hentries, toc_entries_page_sections, sections_assembled.
    by rewrite sections_page_sections.
  - by rewrite Hentries.
Qed.

End Documents.

(** The document built for [in/c.pdf]. *)
Lemma demo_build_c :
  Demo.build "in/c.pdf"
  = ((Demo.build "in/c.pdf").1,
     Returned (Layout.assembled "c.pdf" ["Delta"; ""; "Zeta"])).
Proof. vm_compute. reflexivity. Defined.

Lemma toc_field_once_witness :
  Demo.build "in/c.pdf"
  = ((Demo.build "in/c.pdf").1,
     Returned (Layout.assembled "c.pdf" ["Delta"; ""; "Zeta"]))
  /\ List.filter Reader.has_toc_field
       (body (Layout.assembled "c.pdf" ["Delta"; ""; "Zeta"]))
     = [Layout.toc_paragraph]
  /\ Reader.sections (body (Layout.assembled "c.pdf" ["Delta"; ""; "Zeta"]))
     = [("Tabla de Contenidos", ""); ("Página 1", "Delta");
        ("Página 2", ""); ("Página 3", "Zeta")].
Proof.
  split; [exact demo_build_c|].
  destruct (toc_field_once Demo.rasterise Demo.ocr (Pathlib.of_string "in/c.pdf")
              300 "spa" (Logging.configure DEBUG Demo.fresh) _ _ demo_build_c)
    as (rest & Hbody & _ & _ & _ & _ & _ & Honce & Hsec).
  split; [exact Honce|].
  injection Hbody as <-. exact Hsec.
Defined.

Lemma page_breaks_between_sections_witness :
  Demo.build "in/c.pdf"
  = ((Demo.build "in/c.pdf").1,
     Returned (Layout.assembled "c.pdf" ["Delta"; ""; "Zeta"]))
  /\ Demo.rasterise Demo.disk "in/c.pdf" 300 = Returned ["Delta"; ""; "Zeta"]
  /\ length (List.filter Reader.is_page_break
               (body (Layout.assembled "c.pdf" ["Delta"; ""; "Zeta"]))) = 2%nat
  /\ body (Layout.assembled "c.pdf" ["Delta"; ""; "Zeta"]) !! 8%nat
     = Some (Layout.page_heading 3)
  /\ body (Layout.assembled "c.pdf" ["Delta"; ""; "Zeta"]) !! 7%nat
     = Some Layout.page_break.
Proof.
  assert (Demo.rasterise Demo.disk "in/c.pdf" 300 = Returned ["Delta"; ""; "Zeta"])
    as Hconv by reflexivity.
  split; [exact demo_build_c|]. split; [exact Hconv|].
  destruct (page_breaks_between_sections Demo.rasterise Demo.ocr
              (Pathlib.of_string "in/c.pdf") 300 "spa"
              (Logging.configure DEBUG Demo.fresh) _ _ _ demo_build_c Hconv)
    as (Hcount & Hk).
  split; [exact Hcount|].
  destruct (Hk 3%nat ltac:(simpl; lia)) as (Hh & _ & Hb).
  split; [exact Hh | apply Hb; lia].
Defined.

Lemma headings_at_toc_level_witness :
  Demo.build "in/c.pdf"
  = ((Demo.build "in/c.pdf").1,
     Returned (Layout.assembled "c.pdf" ["Delta"; ""; "Zeta"]))
  /\ Demo.rasterise Demo.disk "in/c.pdf" 300 = Returned ["Delta"; ""; "Zeta"]
  /\ Reader.toc_entries (body (Layout.assembled "c.pdf" ["Delta"; ""; "Zeta"]))
     = ["Tabla de Contenidos"; "Página 1"; "Página 2"; "Página 3"]
  /\ exists h,
       body (Layout.assembled "c.pdf" ["Delta"; ""; "Zeta"]) !! 5%nat = Some h
       /\ Docx.text h = "Página 2"
       /\ style h = Some "Heading 1"
       /\ Reader.heading_level h = Some 1.
Proof.
  assert (Demo.rasterise Demo.disk "in/c.pdf" 300 = Returned ["Delta"; ""; "Zeta"])
    as Hconv by reflexivity.
  split; [exact demo_build_c|]. split; [exact Hconv|].
  destruct (headings_at_toc_level Demo.rasterise Demo.ocr
              (Pathlib.of_string "in/c.pdf") 300 "spa"
              (Logging.configure DEBUG Demo.fresh) _ _ _ demo_build_c Hconv)
    as (Hpages & _ & _ & _ & Hentries & _ & _).
  split; [exact Hentries|].
  destruct (Hpages 2%nat ltac:(simpl; lia)) as (h & Hat & Htext & Hstyle & Hlevel & _).
  exists h. split; [exact Hat|]. split; [exact Htext|]. split; [exact Hstyle | exact Hlevel].
Defined.

(** ** Title and author *)

Section Metadata.

Context {PageImage : Type}.
Variable convert_from_path : FS -> string -> Z -> Result (list PageImage).
Variable image_to_string : PageImage -> string -> Result string.

Local Abbreviation build := (build_document PageImage convert_from_path image_to_string).

(** C7, as the script has it.  In every document the script builds, the
    title is "Conversión de " followed by the name of the source file (its
    last path component), so "Conversión de <stem>.pdf" for a source named
    <stem>.pdf, and the author is "pdf_to_word_with_toc" whatever the
    input. *)
Theorem title_and_author (pdf_file : Path) (dpi : Z) (lang : string)
    (w w1 : World) (doc : Document) :
  build pdf_file dpi lang w = (w1, Returned doc) ->
  title (core_properties doc) = "Conversión de " +:+ Pathlib.name pdf_file
  /\ author (core_properties doc) = "pdf_to_word_with_toc"
  /\ forall stem : string,
       Pathlib.name pdf_file = stem +:+ ".pdf" ->
       title (core_properties doc) = "Conversión de " +:+ stem +:+ ".pdf".
Proof.
  intros Hbuild.
  destruct (build_document_inv _ _ _ _ _ _ _ _ Hbuild)
    as (pages & texts & _ & _ & _ & _ & -> & _).
  split; [done|]. split; [done|].
  intros stem Hname. simpl. by rewrite Hname.
Qed.

End Metadata.

Lemma demo_build_a :
  Demo.build "in/a.pdf"
  = ((Demo.build "in/a.pdf").1,
     Returned (Layout.assembled "a.pdf" ["Alpha"; "Beta"; "Gamma"])).
Proof. vm_compute. reflexivity. Defined.

Lemma title_and_author_witness :
  Demo.build "in/a.pdf"
  = ((Demo.build "in/a.pdf").1,
     Returned (Layout.assembled "a.pdf" ["Alpha"; "Beta"; "Gamma"]))
  /\ title (core_properties (Layout.assembled "a.pdf" ["Alpha"; "Beta"; "Gamma"]))
     = "Conversión de a.pdf"
  /\ author (core_properties (Layout.assembled "a.pdf" ["Alpha"; "Beta"; "Gamma"]))
     = "pdf_to_word_with_toc".
Proof.
  split; [exact demo_build_a|].
  destruct (title_and_author Demo.rasterise Demo.ocr (Pathlib.of_string "in/a.pdf")
              300 "spa" (Logging.configure DEBUG Demo.fresh) _ _ demo_build_a)
    as (Htitle & Hauthor & _).
  split; [exact Htitle | exact Hauthor].
Defined.

(** The title of the document built for [in/a.pdf] is not "Conversion of "
    followed by the name of the file. *)
Lemma title_not_conversion_of :
  (Demo.build "in/a.pdf").2
  = Returned (Layout.assembled "a.pdf" ["Alpha"; "Beta"; "Gamma"])
  /\ Pathlib.name (Pathlib.of_string "in/a.pdf") = "a.pdf"
  /\ title (core_properties (Layout.assembled "a.pdf" ["Alpha"; "Beta"; "Gamma"]))
     = "Conversión de a.pdf"
  /\ title (core_properties (Layout.assembled "a.pdf" ["Alpha"; "Beta"; "Gamma"]))
     <> "Conversion of " +:+ Pathlib.name (Pathlib.of_string "in/a.pdf").
Proof.
  split; [vm_compute; reflexivity|]. split; [reflexivity|].
  split; [reflexivity|]. vm_compute. discriminate.
Qed.


(** ** What is logged *)

Lemma stderr_emit_audible l msg w th :
  root_logger w = Some th ->
  levelno th <= levelno l ->
  stderr (Logging.emit l msg w) = stderr w ++ [(l, msg)].
Proof.
  intros Hth Hle. rewrite stderr_emit.
  unfold Logging.audible, Logging.threshold. rewrite Hth. simpl.
  by rewrite (proj2 (Z.leb_le _ _) Hle).
Qed.

(** After [basicConfig] with the level of either verbosity, errors are
    written unless the root logger had been set to [CRITICAL] before. *)
Lemma errors_audible (verbose : bool) w :
  root_logger w <> Some CRITICAL ->
  exists th,
    root_logger (Logging.configure (if verbose then DEBUG else INFO) w) = Some th
    /\ levelno th <= levelno ERROR.
Proof.
  intros Hcrit. unfold Logging.configure.
  destruct (root_logger w) as [th|] eqn:Hth.
  - exists th. split; [done|]. destruct th; simpl; try lia. done.
  - simpl. destruct verbose; eexists; (split; [done|]); simpl; lia.
Qed.

Lemma root_logger_built_world pdf_file dpi n w th :
  root_logger w = Some th ->
  root_logger (Layout.built_world pdf_file dpi n w) = Some th.
Proof.
  intros H. unfold Layout.built_world.
  by apply root_logger_progress_logged, root_logger_emit.
Qed.

(** ** Failures that stay inside one conversion *)

Section Contained.

Import Layout.

Context {PageImage : Type}.
Variable convert_from_path : FS -> string -> Z -> Result (list PageImage).
Variable image_to_string : PageImage -> string -> Result string.
Variable stat_fault : FS -> string -> option Exn.
Variable save_fault : FS -> string -> option SaveFault.

Local Abbreviation build := (build_document PageImage convert_from_path image_to_string).
Local Abbreviation save := (save_document save_fault).
Local Abbreviation convert :=
  (pdf_to_word_with_toc PageImage convert_from_path image_to_string
                        stat_fault save_fault).
Local Abbreviation convert_in_batch :=
  (convert_one PageImage convert_from_path image_to_string stat_fault save_fault).

(** C4, as amended.  When the existence check of line 39 returns [False]
    ([stat] does not fail and the path is not there),
    [pdf_to_word_with_toc] does nothing but configure logging and log the
    error "El PDF no existe: ...": it returns without raising, the file
    system is left as it was (nothing is rasterised, assembled or saved),
    the error is written unless the root logger had been set to [CRITICAL]
    before, and the batch driver goes on with the remaining inputs. *)
Theorem missing_input_is_skipped (pdf_path output_path : string) (dpi : Z)
    (lang : string) (verbose : bool) (w : World) :
  let pdf_file := Pathlib.of_string pdf_path in
  let out := convert pdf_path output_path dpi lang verbose w in
  stat_fault (fs w) (Pathlib.str pdf_file) = None ->
  exists_in (fs w) pdf_file = false ->
  out.2 = Returned tt
  /\ fs out.1 = fs w
  /\ out = bind (Logging.basicConfig (if verbose then DEBUG else INFO))
                (fun _ => Logging.error (missing pdf_file)) w
  /\ (root_logger w <> Some CRITICAL ->
      stderr out.1
      = stderr w ++ [(ERROR, "El PDF no existe: " +:+ Pathlib.str pdf_file)])
  /\ forall (args : Args) (out_dir : Path) (rest : list string),
       for_each (pdf_path :: rest) (convert_in_batch args out_dir) w
       = for_each rest (convert_in_batch args out_dir)
                  (convert_in_batch args out_dir pdf_path w).1.
Proof.
  intros pdf_file out Hstat Hmiss. unfold out.
  rewrite convert_missing by done. simpl.
  split; [done|]. split; [by rewrite fs_emit, fs_configure|].
  split; [done|]. split.
  - intros Hcrit. destruct (errors_audible verbose w Hcrit) as (th & Hth & Hle).
    by rewrite (stderr_emit_audible _ _ _ _ Hth Hle), stderr_configure.
  - intros args out_dir rest. simpl. unfold bind, convert_one.
    by rewrite convert_missing by done.
Qed.

(** C6.  When the save step is reached (the input is there and the
    document [doc] is built) and the save fails with the exception [e],
    [pdf_to_word_with_toc] returns [None] without raising; the last record
    written is the error "❌ Error al guardar <output path>: <e>", unless
    the root logger had been set to [CRITICAL] before; the file system is
    as it was when the path could not be opened, and holds what the save
    left at the output path when the writing stopped half-way.  The caller
    cannot tell: the same conversion to a path where the save goes through
    returns the same [None], and the save step returns [None] on every
    document, path and world. *)
Theorem save_failure_is_contained (pdf_path output_path : string) (dpi : Z)
    (lang : string) (verbose : bool) (w w1 : World) (doc : Document)
    (f : SaveFault) :
  let pdf_file := Pathlib.of_string pdf_path in
  let out := convert pdf_path output_path dpi lang verbose w in
  stat_fault (fs w) (Pathlib.str pdf_file) = None ->
  exists_in (fs w) pdf_file = true ->
  build pdf_file dpi lang (Logging.configure (if verbose then DEBUG else INFO) w)
    = (w1, Returned doc) ->
  save_fault (fs w) output_path = Some f ->
  out.2 = Returned tt
  /\ out.1 = Logging.emit ERROR (save_failed output_path (fault_exn f))
                          (after_fault f output_path w1)
  /\ fs out.1 = fs (after_fault f output_path w)
  /\ (forall e, f = Refused e -> fs out.1 = fs w)
  /\ (root_logger w <> Some CRITICAL ->
      last (stderr out.1)
      = Some (ERROR, "❌ Error al guardar " +:+ output_path +:+ ": "
                     +:+ exn_str (fault_exn f)))
  /\ (forall other_path : string,
        save_fault (fs w) other_path = None ->
        (convert pdf_path other_path dpi lang verbose w).2 = out.2)
  /\ forall (doc' : Document) (path : string) (w' : World),
       (save doc' path w').2 = Returned tt.
Proof.
  intros pdf_file out Hstat Hfound Hbuild Hfault. unfold out.
  set (w0 := Logging.configure (if verbose then DEBUG else INFO) w) in *.
  destruct (build_document_inv _ _ _ _ _ _ _ _ Hbuild)
    as (pages & texts & _ & _ & _ & _ & _ & Hw1).
  assert (fs w1 = fs w) as Hfs
    by (rewrite Hw1; unfold w0; by rewrite fs_built_world, fs_configure).
  rewrite convert_found by done. fold w0.
  erewrite bind_returned by exact Hbuild.
  rewrite (save_document_failed _ _ _ f) by (by rewrite Hfs). simpl.
  assert (fs (after_fault f output_path w1) = fs (after_fault f output_path w))
    as Hafter by (destruct f; simpl; by rewrite ?Hfs).
  split; [done|]. split; [done|]. split; [by rewrite fs_emit|].
  split; [intros e ->; by rewrite fs_emit|]. split; [|split].
  - intros Hcrit. destruct (errors_audible verbose w Hcrit) as (th & Hth & Hle).
    erewrite stderr_emit_audible; [by rewrite last_snoc| |exact Hle].
    assert (root_logger w1 = Some th) as Hth1
      by (rewrite Hw1; by apply root_logger_built_world).
    by destruct f.
  - intros other_path Hok. rewrite convert_found by done. fold w0.
    erewrite bind_returned by exact Hbuild.
    by rewrite save_document_ok by (by rewrite Hfs).
  - intros doc' path w'. apply save_document_returns.
Qed.

End Contained.

Lemma missing_input_is_skipped_witness :
  Demo.stat_fault Demo.disk "in/b.pdf" = None
  /\ exists_in Demo.disk (Pathlib.of_string "in/b.pdf") = false
  /\ (Demo.convert "in/b.pdf" "out/b.docx" true).2 = Returned tt
  /\ fs (Demo.convert "in/b.pdf" "out/b.docx" true).1 = Demo.disk
  /\ stderr (Demo.convert "in/b.pdf" "out/b.docx" true).1
     = [(ERROR, "El PDF no existe: in/b.pdf")].
Proof.
  assert (Demo.stat_fault Demo.disk "in/b.pdf" = None) as Hstat by reflexivity.
  assert (exists_in Demo.disk (Pathlib.of_string "in/b.pdf") = false) as Hmiss
    by reflexivity.
  split; [exact Hstat|]. split; [exact Hmiss|].
  destruct (missing_input_is_skipped Demo.rasterise Demo.ocr Demo.stat_fault
              Demo.save_fault "in/b.pdf" "out/b.docx" 300 "spa" true Demo.fresh
              Hstat Hmiss)
    as (Hret & Hfs & _ & Hlog & _).
  split; [exact Hret|]. split; [exact Hfs|].
  apply Hlog. discriminate.
Defined.

(** C4 as it is written fails on an input that is not there and whose name
    has 304 characters: the existence check raises the [OSError] of
    [stat], nothing is logged, and the exception leaves the function. *)
Lemma missing_input_not_always_skipped :
  exists_in Demo.disk (Pathlib.of_string ("in/" +:+ Demo.overlong_name)) = false
  /\ Demo.disk !! ("in/" +:+ Demo.overlong_name) = None
  /\ (Demo.convert ("in/" +:+ Demo.overlong_name) "out/z.docx" true).2
     = Raised (mkExn "OSError"
                 ("[Errno 36] File name too long: 'in/" +:+ Demo.overlong_name +:+ "'"))
  /\ stderr (Demo.convert ("in/" +:+ Demo.overlong_name) "out/z.docx" true).1 = [].
Proof. repeat split; vm_compute; reflexivity. Qed.

Lemma save_failure_is_contained_witness :
  Demo.stat_fault Demo.disk "in/a.pdf" = None
  /\ exists_in Demo.disk (Pathlib.of_string "in/a.pdf") = true
  /\ Demo.build "in/a.pdf"
     = ((Demo.build "in/a.pdf").1,
        Returned (Layout.assembled "a.pdf" ["Alpha"; "Beta"; "Gamma"]))
  /\ Demo.save_fault Demo.disk "/readonly/a.docx"
     = Some (Refused (mkExn "PermissionError"
                        "[Errno 13] Permission denied: '/readonly/a.docx'"))
  /\ (Demo.convert "in/a.pdf" "/readonly/a.docx" true).2 = Returned tt
  /\ fs (Demo.convert "in/a.pdf" "/readonly/a.docx" true).1 = Demo.disk
  /\ last (stderr (Demo.convert "in/a.pdf" "/readonly/a.docx" true).1)
     = Some (ERROR,
             "❌ Error al guardar /readonly/a.docx: [Errno 13] Permission denied: '/readonly/a.docx'").
Proof.
  assert (Demo.stat_fault Demo.disk "in/a.pdf" = None) as H0 by reflexivity.
  assert (exists_in Demo.disk (Pathlib.of_string "in/a.pdf") = true) as H1
    by reflexivity.
  assert (Demo.save_fault Demo.disk "/readonly/a.docx"
          = Some (Refused (mkExn "PermissionError"
                             "[Errno 13] Permission denied: '/readonly/a.docx'")))
    as H4 by reflexivity.
  split; [exact H0|]. split; [exact H1|]. split; [exact demo_build_a|].
  split; [exact H4|].
  destruct (save_failure_is_contained Demo.rasterise Demo.ocr Demo.stat_fault
              Demo.save_fault "in/a.pdf" "/readonly/a.docx" 300 "spa" true
              Demo.fresh _ _ _ H0 H1 demo_build_a H4)
    as (Hret & _ & _ & Hfs & Hlog & _).
  split; [exact Hret|]. split; [exact (Hfs _ eq_refl)|].
  apply Hlog. discriminate.
Defined.

(** ** The batch driver *)


(** A call that raises ends the loop there: what follows is not run. *)
Lemma for_each_raised {A} (f : A -> M unit) (before : list A) x after w w1 w2 e :
  for_each before f w = (w1, Returned tt) ->
  f x w1 = (w2, Raised e) ->
  for_each (before ++ x :: after) f w = (w2, Raised e).
Proof.
  intros Hbefore Hx. rewrite for_each_app.
  erewrite bind_returned by exact Hbefore.
  simpl. by erewrite bind_raised by exact Hx.
Qed.


Section Mkdir.

Variable mkdir_fault : FS -> string -> option Exn.

Local Abbreviation step := (mkdir_step mkdir_fault).
Local Abbreviation walk := (mkdir_walk mkdir_fault).

Lemma mkdir_step_returned asked last p w w' :
  step asked last p w = (w', Returned tt) ->
  fs w ⊆ fs w'
  /\ fs w' !! Pathlib.str p = Some Dir
  /\ root_logger w' = root_logger w
  /\ stderr w' = stderr w.
Proof.
  unfold mkdir_step. intros H.
  destruct (fs w !! Pathlib.str p) as [[| |]|] eqn:Hp; try done.
  - by simplify_eq.
  - destruct (mkdir_fault (fs w) (Pathlib.str p)); [done|]. simplify_eq. simpl.
    split; [by apply insert_subseteq|]. by rewrite lookup_insert_eq.
Qed.

Lemma mkdir_walk_cons asked p ps w :
  walk asked (p :: ps) w
  = match ps with
    | [] => step asked true p w
    | _ => bind (step asked false p) (fun _ => walk asked ps) w
    end.
Proof. by destruct ps. Qed.

(** A walk that returns has made a directory of every path on its way,
    removed nothing, and logged nothing. *)
Lemma mkdir_walk_returned asked ps w w' :
  walk asked ps w = (w', Returned tt) ->
  fs w ⊆ fs w'
  /\ Forall (fun p => fs w' !! Pathlib.str p = Some Dir) ps
  /\ root_logger w' = root_logger w
  /\ stderr w' = stderr w.
Proof.
  revert w. induction ps as [|p ps IH]; intros w H.
  - simpl in H. unfold ret in H. by simplify_eq.
  - rewrite mkdir_walk_cons in H. destruct ps as [|q ps].
    + destruct (mkdir_step_returned _ _ _ _ _ H) as (Hsub & Hp & Hl & He).
      repeat split; try done. by repeat constructor.
    + unfold bind in H.
      destruct (step asked false p w) as [w1 [[]|e]] eqn:Hstep; [|done].
      destruct (mkdir_step_returned _ _ _ _ _ Hstep) as (Hsub & Hp & Hl & He).
      destruct (IH _ H) as (Hsub' & Hall & Hl' & He').
      split; [by etrans|]. split; [|split; congruence].
      constructor; [|done]. by eapply lookup_weaken.
Qed.


End Mkdir.

(** ** Strings and paths *)

Section Paths.

Lemma contains_append c s t :
  Str.contains c (s +:+ t) = Str.contains c s || Str.contains c t.
Proof.
  induction s as [|a s IH]; [done|].
  rewrite append_cons. simpl. rewrite IH. by rewrite orb_assoc.
Qed.

Lemma contains_rev_app c s t :
  Str.contains c (String.rev_app s t) = Str.contains c s || Str.contains c t.
Proof.
  revert t. induction s as [|a s IH]; intros t; [done|].
  simpl. rewrite IH. simpl. by destruct (Ascii.eqb a c), (Str.contains c s).
Qed.

Lemma split_go_free c cur s :
  Str.contains c cur = false ->
  Forall (fun x => Str.contains c x = false) (Str.split_go c cur s).
Proof.
  revert cur. induction s as [|a s IH]; intros cur Hcur; simpl.
  - repeat constructor. unfold String.rev. rewrite contains_rev_app, Hcur. done.
  - destruct (Ascii.eqb a c) eqn:Ha.
    + constructor; [|by apply IH].
      unfold String.rev. by rewrite contains_rev_app, Hcur.
    + apply IH. simpl. by rewrite Ha, Hcur.
Qed.

Lemma split_go_single c cur s :
  Str.contains c s = false ->
  Str.split_go c cur s = [String.rev (String.rev_app s cur)].
Proof.
  revert cur. induction s as [|a s IH]; intros cur Hs; [done|].
  simpl in *. destruct (Ascii.eqb a c); [done|]. by apply IH.
Qed.

Lemma split_single c s : Str.contains c s = false -> Str.split c s = [s].
Proof.
  intros Hs. unfold Str.split. rewrite split_go_single by done.
  by rewrite <- (rev_rev s) at 2.
Qed.

Lemma substring_free c n s :
  Str.contains c s = false -> Str.contains c (String.substring 0 n s) = false.
Proof.
  revert n. induction s as [|a s IH]; intros [|n] Hs; try done.
  simpl in *. apply orb_false_iff in Hs as [Ha Hs].
  by rewrite Ha, IH.
Qed.

(** No component of a parsed path holds a slash. *)
Lemma tail_free s :
  Forall (fun x => Str.contains "/" x = false) (tail (Pathlib.of_string s)).
Proof.
  unfold Pathlib.of_string. destruct (Pathlib.splitroot s) as [r rel]. simpl.
  assert (Forall (fun x => Str.contains "/" x = false) (Str.split "/" rel)) as H
    by (by apply split_go_free).
  induction H as [|x l Hx _ IH]; [constructor|].
  simpl. destruct (Pathlib.keep_component x); [by constructor | done].
Qed.

Lemma name_free s : Str.contains "/" (Pathlib.name (Pathlib.of_string s)) = false.
Proof.
  unfold Pathlib.name. pose proof (tail_free s) as H.
  induction H as [|x [|y l] Hx _ IH]; try done.
Qed.

Lemma stem_free s : Str.contains "/" (Pathlib.stem (Pathlib.of_string s)) = false.
Proof.
  unfold Pathlib.stem. pose proof (name_free s) as H.
  destruct (_ && _); [|done]. by apply substring_free.
Qed.

Lemma splitroot_relative s :
  Str.contains "/" s = false -> Pathlib.splitroot s = ("", s).
Proof.
  destruct s as [|a s]; [done|]. simpl. intros H.
  apply orb_false_iff in H as [Ha _].
  destruct a as [[] [] [] [] [] [] [] []]; done.
Qed.

(** A file name parses to a path of one component. *)
Lemma of_string_file_name (stem suffix : string) :
  Str.contains "/" stem = false ->
  Str.contains "/" suffix = false ->
  (2 <= String.length suffix)%nat ->
  Pathlib.of_string (stem +:+ suffix) = mkPath "" [stem +:+ suffix].
Proof.
  intros Hstem Hsuffix Hlen.
  assert (Str.contains "/" (stem +:+ suffix) = false) as Hfree
    by (by rewrite contains_append, Hstem, Hsuffix).
  unfold Pathlib.of_string. rewrite splitroot_relative, split_single by done.
  simpl. unfold Pathlib.keep_component, Str.eqb.
  assert (stem +:+ suffix <> "" /\ stem +:+ suffix <> ".") as [H1 H2].
  { destruct stem as [|a [|b stem]]; rewrite ?append_cons;
      destruct suffix as [|c [|d suffix]]; simpl in Hlen; try lia; done. }
  by rewrite !bool_decide_false.
Qed.

Lemma join_snoc sep (l : list string) x :
  Str.join sep (l ++ [x])
  = match l with [] => x | _ => Str.join sep l +:+ sep +:+ x end.
Proof.
  induction l as [|y l IH]; [done|].
  change ((y :: l) ++ [x]) with (y :: (l ++ [x])).
  destruct l as [|z l]; [done|].
  change (Str.join sep (y :: (z :: l) ++ [x]))
    with (y +:+ sep +:+ Str.join sep ((z :: l) ++ [x])).
  rewrite IH.
  change (Str.join sep (y :: z :: l)) with (y +:+ sep +:+ Str.join sep (z :: l)).
  by rewrite !append_assoc.
Qed.

Lemma str_with_tail r (l : list string) :
  l <> [] -> Pathlib.str (mkPath r l) = r +:+ Str.join "/" l.
Proof. intros Hl. unfold Pathlib.str. simpl. by destruct r, l. Qed.

(** The output path of an input: the child of the output directory named
    after the stem of the input, with the suffix [.docx]. *)
Lemma output_path_child (out_dir : Path) (pdf_path : string) :
  let file_name := Pathlib.stem (Pathlib.of_string pdf_path) +:+ ".docx" in
  let output := Pathlib.joinpath out_dir file_name in
  output = mkPath (root out_dir) (tail out_dir ++ [file_name])
  /\ Pathlib.name output = file_name
  /\ Pathlib.parent output = out_dir
  /\ output_path_for out_dir pdf_path
     = match tail out_dir with
       | [] => root out_dir +:+ file_name
       | _ => Pathlib.str out_dir +:+ "/" +:+ file_name
       end.
Proof.
  intros file_name output.
  assert (output = mkPath (root out_dir) (tail out_dir ++ [file_name])) as Hout.
  { unfold output, Pathlib.joinpath, file_name.
    rewrite of_string_file_name; [done|apply stem_free|done|simpl; lia]. }
  split; [exact Hout|].
  split; [rewrite Hout; unfold Pathlib.name; simpl; by rewrite last_last|].
  split; [rewrite Hout; unfold Pathlib.parent; simpl; rewrite removelast_last;
          by destruct out_dir|].
  unfold output_path_for. fold file_name. fold output. rewrite Hout.
  rewrite str_with_tail by (by destruct (tail out_dir)).
  rewrite join_snoc. destruct out_dir as [r [|x t]]; [done|].
  rewrite (str_with_tail r (x :: t)) by done.
  by rewrite append_assoc.
Qed.

End Paths.

(** ** Stems *)

Section Stems.

Lemma length_append (s t : string) :
  String.length (s +:+ t) = (String.length s + String.length t)%nat.
Proof.
  induction s as [|a s IH]; [done|]. rewrite append_cons. simpl. by rewrite IH.
Qed.

Lemma rfind_absent c s : Str.contains c s = false -> Str.rfind c s = -1.
Proof.
  induction s as [|a s IH]; [done|]. simpl. intros H.
  apply orb_false_iff in H as [Ha Hs]. by rewrite IH, Ha.
Qed.

Lemma rfind_bound c s : -1 <= Str.rfind c s.
Proof.
  induction s as [|a s IH]; simpl; [lia|].
  destruct (0 <=? Str.rfind c s) eqn:H; [lia|]. destruct (Ascii.eqb a c); lia.
Qed.

(** The last [c] of a string that ends with [c] and a [c]-free rest. *)
Lemma rfind_last c s rest :
  Str.contains c rest = false ->
  Str.rfind c (s +:+ String c rest) = Str.len s.
Proof.
  intros Hrest. unfold Str.len. induction s as [|a s IH].
  - change ("" +:+ String c rest) with (String c rest). simpl.
    by rewrite (rfind_absent _ _ Hrest), Ascii.eqb_refl.
  - rewrite append_cons. simpl Str.rfind. rewrite IH.
    assert ((0 <=? Z.of_nat (String.length s)) = true) as Hle by lia.
    rewrite Hle. simpl String.length. lia.
Qed.

Lemma substring_append (s t : string) :
  String.substring 0 (String.length s) (s +:+ t) = s.
Proof.
  induction s as [|a s IH].
  - change ("" +:+ t) with t. simpl. by destruct t.
  - rewrite append_cons. simpl. by rewrite IH.
Qed.

(** The stem of a name of the form <s>.<ext>. *)
Lemma stem_of_suffixed (p : Path) (s ext : string) :
  Pathlib.name p = s +:+ "." +:+ ext ->
  s <> "" -> ext <> "" -> Str.contains "." ext = false ->
  Pathlib.stem p = s.
Proof.
  intros Hname Hs Hext Hfree. unfold Pathlib.stem. rewrite Hname.
  change (s +:+ "." +:+ ext) with (s +:+ String "." ext).
  rewrite rfind_last by done. unfold Str.len, Str.prefix.
  rewrite length_append. simpl String.length.
  assert (0 < String.length s)%nat by (destruct s; [done | simpl; lia]).
  assert (0 < String.length ext)%nat by (destruct ext; [done | simpl; lia]).
  assert (((0 <? Z.of_nat (String.length s))
           && (Z.of_nat (String.length s)
               <? Z.of_nat (String.length s + S (String.length ext)) - 1)) = true)
    as Hcond.
  { apply andb_true_iff. split; apply Z.ltb_lt; lia. }
  rewrite Hcond, Nat2Z.id. apply substring_append.
Qed.

(** The stem of a name without a dot. *)
Lemma stem_of_plain (p : Path) :
  Str.contains "." (Pathlib.name p) = false -> Pathlib.stem p = Pathlib.name p.
Proof.
  intros Hfree. unfold Pathlib.stem. rewrite (rfind_absent _ _ Hfree). done.
Qed.

End Stems.


(** ** The batch *)

Section Batch.

Import Layout.

Context {PageImage : Type}.
Variable convert_from_path : FS -> string -> Z -> Result (list PageImage).
Variable image_to_string : PageImage -> string -> Result string.
Variable stat_fault : FS -> string -> option Exn.
Variable save_fault : FS -> string -> option SaveFault.
Variable mkdir_fault : FS -> string -> option Exn.

Local Abbreviation build := (build_document PageImage convert_from_path image_to_string).
Local Abbreviation ocr_gives := (transcribed PageImage image_to_string).
Local Abbreviation save := (save_document save_fault).
Local Abbreviation convert :=
  (pdf_to_word_with_toc PageImage convert_from_path image_to_string
                        stat_fault save_fault).
Local Abbreviation convert_in_batch :=
  (convert_one PageImage convert_from_path image_to_string stat_fault save_fault).
Local Abbreviation mkdir := (Path_mkdir mkdir_fault).
Local Abbreviation run :=
  (main PageImage convert_from_path image_to_string stat_fault save_fault
        mkdir_fault).

(** A conversion whose rasterisation raises, or that reaches a page on
    which OCR raises, raises. *)
Lemma convert_raised pdf_path output_path dpi lang verbose w e :
  stat_fault (fs w) (Pathlib.str (Pathlib.of_string pdf_path)) = None ->
  exists_in (fs w) (Pathlib.of_string pdf_path) = true ->
  (convert_from_path (fs w) (Pathlib.str (Pathlib.of_string pdf_path)) dpi = Raised e
   \/ exists before bad after texts,
        convert_from_path (fs w) (Pathlib.str (Pathlib.of_string pdf_path)) dpi
          = Returned (before ++ bad :: after)
        /\ Docx.fits_property
             ("Conversión de " +:+ Pathlib.name (Pathlib.of_string pdf_path)) = true
        /\ ocr_gives lang before texts
        /\ Forall (fun t => Docx.xml_compatible t = true) texts
        /\ image_to_string bad lang = Raised e) ->
  exists w', convert pdf_path output_path dpi lang verbose w = (w', Raised e)
             /\ fs w' = fs w.
Proof.
  intros Hstat Hfound Hfail. rewrite convert_found by done.
  set (w0 := Logging.configure (if verbose then DEBUG else INFO) w).
  assert (fs w0 = fs w) as Hfs by apply fs_configure.
  destruct Hfail
    as [Hconv|(before & bad & after & texts & Hconv & Hfits & Hocr & Hst & Hbad)];
    rewrite <- Hfs in Hconv.
  - eexists. split.
    + eapply bind_raised. by apply build_document_raster_raised.
    + by rewrite fs_emit.
  - destruct (build_document_ocr_raised _ _ _ _ lang _ _ _ _ _ _
                Hconv Hfits Hocr Hst Hbad)
      as (w' & Hbuild & Hfs').
    exists w'. split; [by eapply bind_raised | congruence].
Qed.

(** C5, as amended.  In a batch whose directory was made and whose first
    inputs were converted, let the next input be there and let its
    rasterisation raise [e], or let the conversion reach a page (the title
    is taken, the texts of the pages before are stored) on which OCR
    raises [e].  Then the conversion of that input raises [e], nothing
    inside [pdf_to_word_with_toc] catching it, no file is written for it,
    and the whole batch ends there with [e], whatever the inputs that
    remain.  More generally, whatever exception the lines 43 to 63 raise
    leaves [pdf_to_word_with_toc] and ends the batch.  An input that the
    existence check reports as absent, and a save that fails, by contrast,
    never make a conversion raise. *)
Theorem raster_and_ocr_failures_escape (args : Args)
    (before : list string) (pdf_path : string) (after : list string)
    (w w0 w1 : World) (e : Exn) :
  let out_dir := Pathlib.of_string (output_dir args) in
  let pdf_file := Pathlib.of_string pdf_path in
  pdfs args = before ++ pdf_path :: after ->
  mkdir out_dir w = (w0, Returned tt) ->
  for_each before (convert_in_batch args out_dir) w0 = (w1, Returned tt) ->
  stat_fault (fs w1) (Pathlib.str pdf_file) = None ->
  exists_in (fs w1) pdf_file = true ->
  (convert_from_path (fs w1) (Pathlib.str pdf_file) (arg_dpi args) = Raised e
   \/ exists pages_before bad pages_after texts,
        convert_from_path (fs w1) (Pathlib.str pdf_file) (arg_dpi args)
          = Returned (pages_before ++ bad :: pages_after)
        /\ Docx.fits_property ("Conversión de " +:+ Pathlib.name pdf_file) = true
        /\ ocr_gives (arg_lang args) pages_before texts
        /\ Forall (fun t => Docx.xml_compatible t = true) texts
        /\ image_to_string bad (arg_lang args) = Raised e) ->
  (exists w2,
     convert pdf_path (output_path_for out_dir pdf_path)
             (arg_dpi args) (arg_lang args) (negb (quiet args)) w1
       = (w2, Raised e)
     /\ fs w2 = fs w1
     /\ run args w = (w2, Raised e))
  /\ (forall (w2 : World) (e' : Exn),
        build pdf_file (arg_dpi args) (arg_lang args)
              (Logging.configure (if negb (quiet args) then DEBUG else INFO) w1)
          = (w2, Raised e') ->
        convert pdf_path (output_path_for out_dir pdf_path)
                (arg_dpi args) (arg_lang args) (negb (quiet args)) w1
          = (w2, Raised e')
        /\ run args w = (w2, Raised e'))
  /\ (forall (p o : string) (dpi : Z) (lang : string) (verbose : bool) (w' : World),
        stat_fault (fs w') (Pathlib.str (Pathlib.of_string p)) = None ->
        exists_in (fs w') (Pathlib.of_string p) = false ->
        (convert p o dpi lang verbose w').2 = Returned tt)
  /\ (forall (doc : Document) (o : string) (w' : World),
        (save doc o w').2 = Returned tt).
Proof.
  intros out_dir pdf_file Hpdfs Hmkdir Hbefore Hstat Hfound Hfail.
  split; [|split; [|split]].
  - destruct (convert_raised pdf_path (output_path_for out_dir pdf_path)
                (arg_dpi args) (arg_lang args) (negb (quiet args)) w1 e
                Hstat Hfound Hfail) as (w2 & Hconv & Hfs).
    exists w2. split; [exact Hconv|]. split; [exact Hfs|].
    unfold main. fold out_dir. rewrite Hpdfs.
    erewrite bind_returned by exact Hmkdir.
    eapply bind_raised. eapply for_each_raised; [exact Hbefore | exact Hconv].
  - intros w2 e' Hbuild.
    assert (convert pdf_path (output_path_for out_dir pdf_path)
                    (arg_dpi args) (arg_lang args) (negb (quiet args)) w1
            = (w2, Raised e')) as Hconv.
    { rewrite convert_found by done. by eapply bind_raised. }
    split; [exact Hconv|].
    unfold main. fold out_dir. rewrite Hpdfs.
    erewrite bind_returned by exact Hmkdir.
    eapply bind_raised. eapply for_each_raised; [exact Hbefore | exact Hconv].
  - intros p o dpi lang verbose w' Hst Hmiss. by rewrite convert_missing.
  - intros doc o w'. apply save_document_returns.
Qed.




Lemma lineage_self (p : Path) : tail p <> [] -> p ∈ Pathlib.lineage p.
Proof.
  intros Hp. unfold Pathlib.lineage. apply list_elem_of_fmap.
  exists (length (tail p)). split.
  - rewrite firstn_all. by destruct p.
  - apply elem_of_seq. destruct (tail p); [done | simpl; lia].
Qed.



End Batch.

Lemma raster_and_ocr_failures_escape_witness :
  pdfs Demo.batch_blurred = ["in/a.pdf"] ++ "in/blur.pdf" :: ["in/c.pdf"]
  /\ exists_in (fs (Demo.converted Demo.batch_blurred ["in/a.pdf"]))
               (Pathlib.of_string "in/blur.pdf") = true
  /\ Demo.rasterise (fs (Demo.converted Demo.batch_blurred ["in/a.pdf"]))
                    "in/blur.pdf" 300
     = Returned (["Eta"] ++ "<smudge>" :: ["Iota"])
  /\ Demo.ocr "<smudge>" "spa"
     = Raised (mkExn "TesseractError" "(1, 'Error during processing.')")
  /\ (Demo.run Demo.batch_blurred).2
     = Raised (mkExn "TesseractError" "(1, 'Error during processing.')")
  /\ fs (Demo.run Demo.batch_blurred).1
     = fs (Demo.converted Demo.batch_blurred ["in/a.pdf"]).
Proof.
  assert (pdfs Demo.batch_blurred = ["in/a.pdf"] ++ "in/blur.pdf" :: ["in/c.pdf"])
    as H1 by reflexivity.
  assert (Path_mkdir Demo.no_fault (Pathlib.of_string (output_dir Demo.batch_blurred))
            Demo.fresh
          = (Demo.made Demo.batch_blurred, Returned tt)) as H2
    by (vm_compute; reflexivity).
  assert (for_each ["in/a.pdf"]
            (convert_one string Demo.rasterise Demo.ocr Demo.stat_fault
               Demo.save_fault Demo.batch_blurred
               (Pathlib.of_string (output_dir Demo.batch_blurred)))
            (Demo.made Demo.batch_blurred)
          = (Demo.converted Demo.batch_blurred ["in/a.pdf"], Returned tt)) as H3
    by (vm_compute; reflexivity).
  assert (Demo.stat_fault (fs (Demo.converted Demo.batch_blurred ["in/a.pdf"]))
            (Pathlib.str (Pathlib.of_string "in/blur.pdf")) = None) as H0
    by (vm_compute; reflexivity).
  assert (exists_in (fs (Demo.converted Demo.batch_blurred ["in/a.pdf"]))
            (Pathlib.of_string "in/blur.pdf") = true) as H4
    by (vm_compute; reflexivity).
  assert (Demo.rasterise (fs (Demo.converted Demo.batch_blurred ["in/a.pdf"]))
            "in/blur.pdf" 300
          = Returned (["Eta"] ++ "<smudge>" :: ["Iota"])) as H5
    by (vm_compute; reflexivity).
  assert (Docx.fits_property
            ("Conversión de " +:+ Pathlib.name (Pathlib.of_string "in/blur.pdf"))
          = true) as H6 by reflexivity.
  assert (transcribed string Demo.ocr "spa" ["Eta"] ["Eta"]) as H7
    by (repeat constructor).
  assert (Forall (fun t => Docx.xml_compatible t = true) ["Eta"]) as H8
    by (repeat constructor).
  assert (Demo.ocr "<smudge>" "spa"
          = Raised (mkExn "TesseractError" "(1, 'Error during processing.')"))
    as H9 by reflexivity.
  split; [exact H1|]. split; [exact H4|]. split; [exact H5|]. split; [exact H9|].
  destruct (raster_and_ocr_failures_escape Demo.rasterise Demo.ocr
              Demo.stat_fault Demo.save_fault Demo.no_fault Demo.batch_blurred
              ["in/a.pdf"] "in/blur.pdf" ["in/c.pdf"] Demo.fresh _ _ _
              H1 H2 H3 H0 H4
              (or_intror
                 (ex_intro _ ["Eta"]
                    (ex_intro _ "<smudge>"
                       (ex_intro _ ["Iota"]
                          (ex_intro _ ["Eta"]
                             (conj H5 (conj H6 (conj H7 (conj H8 H9))))
                          )))))
           )
    as ((w2 & _ & Hfs & Hrun) & _ & _ & _).
  unfold Demo.run. rewrite Hrun. split; [reflexivity | exact Hfs].
Defined.

(** C5 as it is written fails on a batch whose first input is not there
    under a name of 304 characters: the failure to resolve that input is
    not contained, the [OSError] of [stat] ends the batch, nothing is
    logged, and the input that follows, which is there, is not
    converted. *)
Lemma input_failure_not_always_contained :
  pdfs Demo.batch_overlong = ["in/" +:+ Demo.overlong_name; "in/a.pdf"]
  /\ Demo.disk !! ("in/" +:+ Demo.overlong_name) = None
  /\ (Demo.run Demo.batch_overlong).2
     = Raised (mkExn "OSError"
                 ("[Errno 36] File name too long: 'in/" +:+ Demo.overlong_name +:+ "'"))
  /\ stderr (Demo.run Demo.batch_overlong).1 = []
  /\ fs (Demo.run Demo.batch_overlong).1 = Demo.disk
  /\ Demo.disk !! "in/a.pdf" = Some (DataFile "Alpha|Beta|Gamma")
  /\ fs (Demo.run Demo.batch_overlong).1 !! "out/a.docx" = None.
Proof. repeat split; vm_compute; reflexivity. Qed.


(** ** The verbosity flag *)

Section Verbosity.

Import Logging.

Lemma alike_refl w : alike w w.
Proof. unfold alike. auto. Qed.

Lemma alike_configure w : alike (configure DEBUG w) (configure INFO w).
Proof.
  unfold alike, configure. destruct (root_logger w); simpl; auto.
Qed.

Lemma level_blind_ret {A} (a : A) : level_blind (ret a).
Proof. intros w1 w2 H. done. Qed.

Lemma level_blind_bind {A B} (m : M A) (k : A -> M B) :
  level_blind m -> (forall a, level_blind (k a)) -> level_blind (bind m k).
Proof.
  intros Hm Hk w1 w2 H. unfold bind.
  destruct (Hm w1 w2 H) as [Hw Hr].
  destruct (m w1) as [w1' r1], (m w2) as [w2' r2]. simpl in *. subst r2.
  destruct r1 as [a|e]; [by apply Hk | done].
Qed.

Lemma level_blind_try_except {A} (m : M A) (h : Exn -> M A) :
  level_blind m -> (forall e, level_blind (h e)) -> level_blind (try_except m h).
Proof.
  intros Hm Hh w1 w2 H. unfold try_except.
  destruct (Hm w1 w2 H) as [Hw Hr].
  destruct (m w1) as [w1' r1], (m w2) as [w2' r2]. simpl in *. subst r2.
  destruct r1 as [a|e]; [done | by apply Hh].
Qed.

Lemma level_blind_for_fold {A S} (l : list A) (f : A -> S -> M S) (s : S) :
  (forall x s, level_blind (f x s)) -> level_blind (for_fold l f s).
Proof.
  intros Hf. revert s. induction l as [|x l IH]; intros s; simpl.
  - apply level_blind_ret.
  - apply level_blind_bind; [apply Hf | apply IH].
Qed.

Lemma root_logger_after_emit l msg w :
  root_logger (emit l msg w) = Some (threshold w).
Proof.
  unfold emit, configure, threshold. cbv zeta.
  destruct (root_logger w) as [th|] eqn:E; simpl; rewrite ?E;
    by destruct (_ <=? _)%Z.
Qed.

(** Records of level [INFO] and above are written or dropped alike. *)
Lemma level_blind_log l msg : levelno INFO <= levelno l -> level_blind (log l msg).
Proof.
  intros Hl w1 w2 (Hfs & Herr & Hlog). unfold log. simpl. split; [|done].
  unfold alike. rewrite !fs_emit, !stderr_emit.
  destruct Hlog as [Heq|[H1 H2]].
  - split; [done|]. split.
    + unfold audible, threshold. by rewrite Herr, Heq.
    + left. rewrite !root_logger_after_emit. unfold threshold. by rewrite Heq.
  - split; [done|]. split.
    + unfold audible, threshold. rewrite Herr, H1, H2. simpl in *.
      by rewrite !(proj2 (Z.leb_le _ _)) by lia.
    + right. split; by apply root_logger_emit.
Qed.

Lemma keeps_level_ret {A} (a : A) : keeps_level (ret a).
Proof. by intros w th H. Qed.

Lemma keeps_level_bind {A B} (m : M A) (k : A -> M B) :
  keeps_level m -> (forall a, keeps_level (k a)) -> keeps_level (bind m k).
Proof.
  intros Hm Hk w th H. unfold bind. specialize (Hm w th H).
  destruct (m w) as [w' [a|e]]; [by apply Hk | done].
Qed.

Lemma keeps_level_try_except {A} (m : M A) (h : Exn -> M A) :
  keeps_level m -> (forall e, keeps_level (h e)) -> keeps_level (try_except m h).
Proof.
  intros Hm Hh w th H. unfold try_except. specialize (Hm w th H).
  destruct (m w) as [w' [a|e]]; [done | by apply Hh].
Qed.

Lemma keeps_level_for_fold {A S} (l : list A) (f : A -> S -> M S) (s : S) :
  (forall x s, keeps_level (f x s)) -> keeps_level (for_fold l f s).
Proof.
  intros Hf. revert s. induction l as [|x l IH]; intros s; simpl.
  - apply keeps_level_ret.
  - apply keeps_level_bind; [apply Hf | apply IH].
Qed.

Lemma keeps_level_log l msg : keeps_level (log l msg).
Proof. intros w th H. by apply root_logger_emit. Qed.

Lemma level_blind_lift {A} (r : Result A) : level_blind (lift r).
Proof. by intros w1 w2 H. Qed.

Lemma keeps_level_lift {A} (r : Result A) : keeps_level (lift r).
Proof. by intros w th H. Qed.

Context {PageImage : Type}.
Variable convert_from_path : FS -> string -> Z -> Result (list PageImage).
Variable image_to_string : PageImage -> string -> Result string.
Variable stat_fault : FS -> string -> option Exn.
Variable save_fault : FS -> string -> option SaveFault.

Local Abbreviation build := (build_document PageImage convert_from_path image_to_string).
Local Abbreviation save := (save_document save_fault).
Local Abbreviation exists_ := (Path_exists stat_fault).
Local Abbreviation convert :=
  (pdf_to_word_with_toc PageImage convert_from_path image_to_string
                        stat_fault save_fault).

Lemma level_blind_build pdf_file dpi lang : level_blind (build pdf_file dpi lang).
Proof.
  unfold build_document.
  apply level_blind_bind; [by apply level_blind_log|]. intros _.
  apply level_blind_bind.
  { intros w1 w2 H. unfold pdf2image_convert_from_path. simpl.
    split; [done|]. destruct H as (-> & _). done. }
  intros pages.
  do 3 (apply level_blind_bind; [apply level_blind_lift|]; intros ?).
  apply level_blind_for_fold. intros [i page] d.
  unfold page_body.
  apply level_blind_bind; [by apply level_blind_log|]. intros _.
  apply level_blind_bind; [by intros w1 w2 H|]. intros text.
  apply level_blind_bind; [apply level_blind_lift|]. intros [d' hdr].
  apply level_blind_bind; [apply level_blind_lift|]. intros dp.
  apply level_blind_ret.
Qed.

Lemma level_blind_save doc output_path : level_blind (save doc output_path).
Proof.
  unfold save_document. apply level_blind_try_except.
  - apply level_blind_bind; [|intros _; by apply level_blind_log].
    intros w1 w2 H. unfold Document_save.
    destruct H as (Hfs & Herr & Hlog). rewrite Hfs.
    destruct (save_fault (fs w2) output_path) as [[e|e left_over]|]; simpl;
      [done|..]; (split; [|done]); unfold alike; simpl; by rewrite Hfs.
  - intros e. by apply level_blind_log.
Qed.

Lemma keeps_level_convert pdf_path output_path dpi lang :
  keeps_level
    (bind (exists_ (Pathlib.of_string pdf_path)) (fun found =>
       if negb found
       then Logging.error (Layout.missing (Pathlib.of_string pdf_path))
       else bind (build (Pathlib.of_string pdf_path) dpi lang)
                 (fun doc => save doc output_path))).
Proof.
  apply keeps_level_bind.
  { intros w th H. unfold Path_exists. by destruct (stat_fault _ _). }
  intros found. destruct found; simpl; [|apply keeps_level_log].
  apply keeps_level_bind.
  - unfold build_document.
    apply keeps_level_bind; [apply keeps_level_log|]. intros _.
    apply keeps_level_bind; [by intros w th H|].
    intros pages.
    do 3 (apply keeps_level_bind; [apply keeps_level_lift|]; intros ?).
    apply keeps_level_for_fold. intros [i page] d.
    unfold page_body.
    apply keeps_level_bind; [apply keeps_level_log|]. intros _.
    apply keeps_level_bind; [by intros w th H|]. intros text.
    apply keeps_level_bind; [apply keeps_level_lift|]. intros [d' hdr].
    apply keeps_level_bind; [apply keeps_level_lift|]. intros dp.
    apply keeps_level_ret.
  - intros doc. unfold save_document. apply keeps_level_try_except.
    + apply keeps_level_bind; [|intros _; apply keeps_level_log].
      intros w th H. unfold Document_save.
      by destruct (save_fault (fs w) output_path) as [[e|e left_over]|].
    + intros e. apply keeps_level_log.
Qed.

(** What [pdf_to_word_with_toc] does once logging is configured. *)
Lemma level_blind_convert pdf_path output_path dpi lang :
  level_blind
    (bind (exists_ (Pathlib.of_string pdf_path)) (fun found =>
       if negb found
       then Logging.error (Layout.missing (Pathlib.of_string pdf_path))
       else bind (build (Pathlib.of_string pdf_path) dpi lang)
                 (fun doc => save doc output_path))).
Proof.
  apply level_blind_bind.
  { intros w1 w2 H. unfold Path_exists.
    destruct H as (Hfs & Herr & Hlog). rewrite Hfs.
    by destruct (stat_fault _ _). }
  intros found. destruct found; simpl.
  - apply level_blind_bind; [apply level_blind_build|].
    intros doc. apply level_blind_save.
  - by apply level_blind_log.
Qed.

(** C10. With the rasteriser, OCR and the faults of the operating system
    fixed, a run of [pdf_to_word_with_toc] with [verbose=True] and a run
    with [verbose=False] from the same world end the same way (both return,
    or both raise the same exception), build the same document, leave the
    same file system, so the same document at the output path, and even
    have written the same records.  The worlds they leave differ in the
    level of the root logger alone, and not even there when logging had
    been configured before. *)
Theorem verbose_does_not_change_output (pdf_path output_path : string)
    (dpi : Z) (lang : string) (w : World) :
  let loud := convert pdf_path output_path dpi lang true w in
  let hushed := convert pdf_path output_path dpi lang false w in
  loud.2 = hushed.2
  /\ (build (Pathlib.of_string pdf_path) dpi lang (configure DEBUG w)).2
     = (build (Pathlib.of_string pdf_path) dpi lang (configure INFO w)).2
  /\ fs loud.1 = fs hushed.1
  /\ Reader.document_at (fs loud.1) output_path
     = Reader.document_at (fs hushed.1) output_path
  /\ stderr loud.1 = stderr hushed.1
  /\ (root_logger w = None ->
      root_logger loud.1 = Some DEBUG /\ root_logger hushed.1 = Some INFO)
  /\ (root_logger w <> None -> loud = hushed).
Proof.
  intros loud hushed.
  pose proof (level_blind_convert pdf_path output_path dpi lang _ _
                (alike_configure w)) as [(Hfs & Herr & Hlog) Hres].
  pose proof (level_blind_build (Pathlib.of_string pdf_path) dpi lang _ _
                (alike_configure w)) as [_ Hdoc].
  assert (forall verbose,
            convert pdf_path output_path dpi lang verbose w
            = bind (exists_ (Pathlib.of_string pdf_path)) (fun found =>
                if negb found
                then Logging.error (Layout.missing (Pathlib.of_string pdf_path))
                else bind (build (Pathlib.of_string pdf_path) dpi lang)
                          (fun doc => save doc output_path))
                (configure (if verbose then DEBUG else INFO) w)) as Hrun by done.
  unfold loud, hushed. rewrite !Hrun. simpl negb.
  split; [exact Hres|]. split; [exact Hdoc|]. split; [exact Hfs|].
  split; [by rewrite Hfs|]. split; [exact Herr|]. split.
  - intros Hnone.
    split; apply keeps_level_convert; by apply root_logger_configure_fresh.
  - intros Hsome. unfold configure.
    destruct (root_logger w); [done | by destruct Hsome].
Qed.

End Verbosity.

(** ** Runs of the script *)

(** The batch [A.pdf] (three pages), [B.pdf] (missing), [C.pdf] (three pages,
    the second one blank): the missing input is reported, the other two are
    converted. *)
Example batch_with_missing_input :
  (Demo.run Demo.batch_missing).2 = Returned tt
  /\ stderr (Demo.run Demo.batch_missing).1
     = [(INFO, "📄 Convirtiendo a.pdf a imágenes (DPI=300)...");
        (INFO, "🔍 Procesando página 1/3...");
        (INFO, "🔍 Procesando página 2/3...");
        (INFO, "🔍 Procesando página 3/3...");
        (INFO, "✅ Guardado: out/x/a.docx");
        (ERROR, "El PDF no existe: in/b.pdf");
        (INFO, "📄 Convirtiendo c.pdf a imágenes (DPI=300)...");
        (INFO, "🔍 Procesando página 1/3...");
        (INFO, "🔍 Procesando página 2/3...");
        (INFO, "🔍 Procesando página 3/3...");
        (INFO, "✅ Guardado: out/x/c.docx");
        (INFO, "Proceso completado para todos los PDFs.")]
  /\ Reader.document_at (fs (Demo.run Demo.batch_missing).1) "out/x/a.docx"
     = Some (Layout.assembled "a.pdf" ["Alpha"; "Beta"; "Gamma"])
  /\ Reader.document_at (fs (Demo.run Demo.batch_missing).1) "out/x/b.docx" = None
  /\ Reader.document_at (fs (Demo.run Demo.batch_missing).1) "out/x/c.docx"
     = Some (Layout.assembled "c.pdf" ["Delta"; ""; "Zeta"]).
Proof. repeat split; vm_compute; reflexivity. Qed.

(** The batch [A.pdf], [bad.pdf] (corrupt), [C.pdf]: the run ends with the
    exception of the rasteriser, [C.pdf] is never looked at and the closing
    line is not logged. *)
Example batch_with_corrupt_input :
  (Demo.run Demo.batch_corrupt).2
  = Raised (mkExn "PDFPageCountError" "Unable to get page count.")
  /\ last (stderr (Demo.run Demo.batch_corrupt).1)
     = Some (INFO, "📄 Convirtiendo bad.pdf a imágenes (DPI=300)...")
  /\ Reader.document_at (fs (Demo.run Demo.batch_corrupt).1) "out/a.docx"
     = Some (Layout.assembled "a.pdf" ["Alpha"; "Beta"; "Gamma"])
  /\ Reader.document_at (fs (Demo.run Demo.batch_corrupt).1) "out/c.docx" = None.
Proof. repeat split; vm_compute; reflexivity. Qed.

(** A page on which OCR raises ends the conversion, and nothing is saved. *)
Example conversion_with_unreadable_page :
  (Demo.convert "in/blur.pdf" "out/blur.docx" true).2
  = Raised (mkExn "TesseractError" "(1, 'Error during processing.')")
  /\ fs (Demo.convert "in/blur.pdf" "out/blur.docx" true).1 = Demo.disk
  /\ stderr (Demo.convert "in/blur.pdf" "out/blur.docx" true).1
     = [(INFO, "📄 Convirtiendo blur.pdf a imágenes (DPI=300)...");
        (INFO, "🔍 Procesando página 1/3...");
        (INFO, "🔍 Procesando página 2/3...")].
Proof. repeat split; vm_compute; reflexivity. Qed.

(** [pathlib] on a few paths. *)
Example pathlib_examples :
  Pathlib.str (Pathlib.of_string "a/./b//c.pdf") = "a/b/c.pdf"
  /\ Pathlib.str (Pathlib.of_string "") = "."
  /\ Pathlib.name (Pathlib.of_string "/") = ""
  /\ Pathlib.stem (Pathlib.of_string "dir/report.final.pdf") = "report.final"
  /\ Pathlib.stem (Pathlib.of_string "dir/.bashrc") = ".bashrc"
  /\ output_path_for (Pathlib.of_string ".") "in/a.pdf" = "a.docx"
  /\ output_path_for (Pathlib.of_string "out/x/") "in/a.pdf" = "out/x/a.docx"
  /\ output_path_for (Pathlib.of_string "/") "a.b.pdf" = "/a.b.docx".
Proof. repeat split; vm_compute; reflexivity. Qed.


(** * More of the script *)

(** ** The records of a conversion *)

Lemma info_written_configure (verbose : bool) w :
  Trace.info_written w ->
  exists th,
    root_logger (Logging.configure (if verbose then DEBUG else INFO) w) = Some th
    /\ levelno th <= levelno INFO.
Proof.
  intros Hw. unfold Logging.configure.
  destruct (root_logger w) as [th|] eqn:Hth.
  - exists th. split; [done | by apply Hw].
  - destruct verbose; eexists; (split; [done|]); simpl; lia.
Qed.

Lemma stderr_progress_logged total idx w th :
  root_logger w = Some th ->
  levelno th <= levelno INFO ->
  stderr (Layout.progress_logged total idx w)
  = stderr w ++ ((fun i => (INFO, Layout.progress total i)) <$> idx).
Proof.
  unfold Layout.progress_logged. revert w.
  induction idx as [|i idx IH]; intros w Hth Hle; simpl.
  - by rewrite app_nil_r.
  - rewrite IH by (by try apply root_logger_emit).
    rewrite (stderr_emit_audible _ _ _ _ Hth Hle). by rewrite <- app_assoc.
Qed.

Lemma stderr_built_world pdf_file dpi n w th :
  root_logger w = Some th ->
  levelno th <= levelno INFO ->
  stderr (Layout.built_world pdf_file dpi n w)
  = stderr w
    ++ (INFO, Layout.converting (Pathlib.name pdf_file) dpi)
       :: Trace.progress_records (Z.of_nat n) n.
Proof.
  intros Hth Hle. unfold Layout.built_world.
  rewrite (stderr_progress_logged _ _ _ th) by (by try apply root_logger_emit).
  rewrite (stderr_emit_audible _ _ _ _ Hth Hle), <- app_assoc. simpl.
  do 2 f_equal. unfold Trace.progress_records.
  rewrite <- (fmap_add_seq 1 0), <- !list_fmap_compose.
  apply list_fmap_ext. intros _ k _. simpl. do 2 f_equal. lia.
Qed.

Section Records.

Import Layout.

Context {PageImage : Type}.
Variable convert_from_path : FS -> string -> Z -> Result (list PageImage).
Variable image_to_string : PageImage -> string -> Result string.
Variable stat_fault : FS -> string -> option Exn.
Variable save_fault : FS -> string -> option SaveFault.

Local Abbreviation build := (build_document PageImage convert_from_path image_to_string).
Local Abbreviation ocr_gives := (transcribed PageImage image_to_string).
Local Abbreviation save := (save_document save_fault).
Local Abbreviation convert :=
  (pdf_to_word_with_toc PageImage convert_from_path image_to_string
                        stat_fault save_fault).

(** The indexes of the pages that were announced when the loop stopped. *)
Lemma announced_pages {A} (before : list A) :
  (enumerate before 1).*1 ++ [1 + Z.of_nat (length before)]
  = Z.of_nat <$> seq 1 (S (length before)).
Proof.
  rewrite enumerate_fst.
  replace (S (length before)) with (length before + 1)%nat by lia.
  rewrite seq_app, fmap_app. simpl. f_equal.
  - rewrite <- (fmap_add_seq 1 0), <- list_fmap_compose.
    apply list_fmap_ext. intros _ k _. simpl. lia.
  - do 2 f_equal. lia.
Qed.

(** X1. A conversion that goes through (the input is there, the title
    fits, OCR returns texts that python-docx takes, the save does not
    fail), in a world where records of level [INFO] get written, writes
    exactly these records, in this order: the announcement with the name of
    the file and the DPI, one progress record "i/N" for each page
    i = 1..N, and the record of the save with the output path. *)
Theorem records_of_a_conversion (pdf_path output_path : string) (dpi : Z)
    (lang : string) (verbose : bool) (w : World)
    (pages : list PageImage) (texts : list string) :
  let pdf_file := Pathlib.of_string pdf_path in
  let out := convert pdf_path output_path dpi lang verbose w in
  stat_fault (fs w) (Pathlib.str pdf_file) = None ->
  exists_in (fs w) pdf_file = true ->
  convert_from_path (fs w) (Pathlib.str pdf_file) dpi = Returned pages ->
  Docx.fits_property ("Conversión de " +:+ Pathlib.name pdf_file) = true ->
  ocr_gives lang pages texts ->
  Forall (fun t => Docx.xml_compatible t = true) texts ->
  save_fault (fs w) output_path = None ->
  Trace.info_written w ->
  out.2 = Returned tt
  /\ stderr out.1
     = stderr w
       ++ [(INFO, "📄 Convirtiendo " +:+ Pathlib.name pdf_file
                  +:+ " a imágenes (DPI=" +:+ pretty dpi +:+ ")...")]
       ++ Trace.progress_records (Z.of_nat (length pages)) (length pages)
       ++ [(INFO, "✅ Guardado: " +:+ output_path)].
Proof.
  intros pdf_file out Hstat Hfound Hconv Hfits Hocr Hst Hok Hinfo. unfold out.
  set (w0 := Logging.configure (if verbose then DEBUG else INFO) w).
  destruct (info_written_configure verbose w Hinfo) as (th & Hth & Hle).
  fold w0 in Hth.
  assert (convert_from_path (fs w0) (Pathlib.str pdf_file) dpi = Returned pages)
    as Hconv0 by (unfold w0; by rewrite fs_configure).
  pose proof (build_document_returned _ _ _ _ lang _ _ _ Hconv0 Hfits Hocr Hst)
    as Hbuild.
  assert (fs (built_world pdf_file dpi (length pages) w0) = fs w) as Hfs
    by (unfold w0; by rewrite fs_built_world, fs_configure).
  rewrite convert_found by done. fold w0.
  erewrite bind_returned by exact Hbuild.
  rewrite save_document_ok by (by rewrite Hfs). simpl. split; [done|].
  erewrite stderr_emit_audible; [|by apply root_logger_built_world|exact Hle].
  simpl.
  rewrite (stderr_built_world _ _ _ _ th) by done.
  unfold w0. rewrite stderr_configure. by rewrite <- !app_assoc.
Qed.

(** X2. When the conversion reaches page k of N (the input is there, the
    title fits, the texts of the pages before k are stored) and stops on
    it, because OCR raises on that page or returns a text that python-docx
    does not take, it has written the announcement and the progress
    records of the pages 1 to k, and nothing after them: no page after k is
    announced and no save is recorded.  The exception of OCR, or the
    [ValueError] of python-docx, leaves the function, and the file system
    is as it was. *)
Theorem records_of_a_failed_transcription (pdf_path output_path : string)
    (dpi : Z) (lang : string) (verbose : bool) (w : World)
    (before : list PageImage) (bad : PageImage) (after : list PageImage)
    (texts : list string) (e : Exn) :
  let pdf_file := Pathlib.of_string pdf_path in
  let out := convert pdf_path output_path dpi lang verbose w in
  let total := length (before ++ bad :: after) in
  stat_fault (fs w) (Pathlib.str pdf_file) = None ->
  exists_in (fs w) pdf_file = true ->
  convert_from_path (fs w) (Pathlib.str pdf_file) dpi
    = Returned (before ++ bad :: after) ->
  Docx.fits_property ("Conversión de " +:+ Pathlib.name pdf_file) = true ->
  ocr_gives lang before texts ->
  Forall (fun t => Docx.xml_compatible t = true) texts ->
  (image_to_string bad lang = Raised e
   \/ exists t, image_to_string bad lang = Returned t
                /\ Docx.xml_compatible t = false
                /\ e = ValueError "All strings must be XML compatible: Unicode or ASCII, no NULL bytes or control characters") ->
  Trace.info_written w ->
  out.2 = Raised e
  /\ fs out.1 = fs w
  /\ stderr out.1
     = stderr w
       ++ [(INFO, converting (Pathlib.name pdf_file) dpi)]
       ++ Trace.progress_records (Z.of_nat total) (S (length before)).
Proof.
  intros pdf_file out total Hstat Hfound Hconv Hfits Hocr Hst Hbad Hinfo.
  unfold out.
  set (w0 := Logging.configure (if verbose then DEBUG else INFO) w).
  destruct (info_written_configure verbose w Hinfo) as (th & Hth & Hle).
  fold w0 in Hth.
  assert (convert_from_path (fs w0) (Pathlib.str pdf_file) dpi
          = Returned (before ++ bad :: after))
    as Hconv0 by (unfold w0; by rewrite fs_configure).
  pose proof (build_document_stopped _ _ _ _ lang _ _ _ _ _ _
                Hconv0 Hfits Hocr Hst Hbad) as Hbuild.
  rewrite announced_pages in Hbuild.
  rewrite convert_found by done. fold w0.
  erewrite bind_raised by exact Hbuild. cbn [fst snd].
  split; [done|].
  split; [unfold w0; by rewrite fs_progress_logged, fs_emit, fs_configure|].
  rewrite (stderr_progress_logged _ _ _ th) by (by try apply root_logger_emit).
  rewrite (stderr_emit_audible _ _ _ _ Hth Hle).
  unfold w0. rewrite stderr_configure, <- !app_assoc. cbn [app]. do 2 f_equal.
  unfold Trace.progress_records, total. by rewrite <- list_fmap_compose.
Qed.

(** X3. A PDF that is there, whose title fits and that rasterises to no
    page at all is converted all the same: the document saved at the output
    path holds the heading of the table of contents and the paragraph of
    its field, and nothing else (no section, no page break); the only
    records are the announcement and the save. *)
Theorem conversion_of_an_empty_pdf (pdf_path output_path : string) (dpi : Z)
    (lang : string) (verbose : bool) (w : World) :
  let pdf_file := Pathlib.of_string pdf_path in
  let out := convert pdf_path output_path dpi lang verbose w in
  stat_fault (fs w) (Pathlib.str pdf_file) = None ->
  exists_in (fs w) pdf_file = true ->
  convert_from_path (fs w) (Pathlib.str pdf_file) dpi = Returned [] ->
  Docx.fits_property ("Conversión de " +:+ Pathlib.name pdf_file) = true ->
  save_fault (fs w) output_path = None ->
  out.2 = Returned tt
  /\ (exists doc,
        Reader.document_at (fs out.1) output_path = Some doc
        /\ body doc = [toc_heading; toc_paragraph]
        /\ Reader.sections (body doc) = [("Tabla de Contenidos", "")]
        /\ List.filter Reader.is_page_break (body doc) = []
        /\ title (core_properties doc) = "Conversión de " +:+ Pathlib.name pdf_file)
  /\ (Trace.info_written w ->
      stderr out.1
      = stderr w ++ [(INFO, converting (Pathlib.name pdf_file) dpi);
                     (INFO, saved output_path)]).
Proof.
  intros pdf_file out Hstat Hfound Hconv Hfits Hok. unfold out.
  set (w0 := Logging.configure (if verbose then DEBUG else INFO) w).
  assert (convert_from_path (fs w0) (Pathlib.str pdf_file) dpi = Returned [])
    as Hconv0 by (unfold w0; by rewrite fs_configure).
  assert (ocr_gives lang [] []) as Hocr by constructor.
  pose proof (build_document_returned _ _ _ _ lang _ _ _ Hconv0 Hfits Hocr
                (Forall_nil_2 _)) as Hbuild.
  assert (fs (built_world pdf_file dpi (length (@nil PageImage)) w0) = fs w)
    as Hfs by (unfold w0; by rewrite fs_built_world, fs_configure).
  rewrite convert_found by done. fold w0.
  erewrite bind_returned by exact Hbuild.
  rewrite save_document_ok by (by rewrite Hfs). cbn [fst snd].
  split; [done|]. split.
  - exists (assembled (Pathlib.name pdf_file) []).
    split; [apply document_at_written | done].
  - intros Hinfo.
    destruct (info_written_configure verbose w Hinfo) as (th & Hth & Hle).
    fold w0 in Hth.
    erewrite stderr_emit_audible; [|by apply root_logger_built_world|exact Hle].
    change (stderr (written ?d ?p ?v)) with (stderr v).
    rewrite (stderr_built_world _ _ _ _ th) by done.
    unfold w0. rewrite stderr_configure. by rewrite <- !app_assoc.
Qed.

End Records.

Lemma records_of_a_conversion_witness :
  Demo.stat_fault Demo.disk "in/c.pdf" = None
  /\ exists_in Demo.disk (Pathlib.of_string "in/c.pdf") = true
  /\ Demo.rasterise Demo.disk "in/c.pdf" 300 = Returned ["Delta"; ""; "Zeta"]
  /\ transcribed string Demo.ocr "spa" ["Delta"; ""; "Zeta"] ["Delta"; ""; "Zeta"]
  /\ Demo.save_fault Demo.disk "out/c.docx" = None
  /\ Trace.info_written Demo.fresh
  /\ stderr (Demo.convert "in/c.pdf" "out/c.docx" true).1
     = [(INFO, "📄 Convirtiendo c.pdf a imágenes (DPI=300)...");
        (INFO, "🔍 Procesando página 1/3...");
        (INFO, "🔍 Procesando página 2/3...");
        (INFO, "🔍 Procesando página 3/3...");
        (INFO, "✅ Guardado: out/c.docx")].
Proof.
  assert (Demo.stat_fault Demo.disk "in/c.pdf" = None) as H0 by reflexivity.
  assert (exists_in Demo.disk (Pathlib.of_string "in/c.pdf") = true) as H1
    by reflexivity.
  assert (Demo.rasterise Demo.disk "in/c.pdf" 300 = Returned ["Delta"; ""; "Zeta"])
    as H2 by reflexivity.
  assert (transcribed string Demo.ocr "spa" ["Delta"; ""; "Zeta"] ["Delta"; ""; "Zeta"])
    as H3 by (repeat constructor).
  assert (Demo.save_fault Demo.disk "out/c.docx" = None) as H4 by reflexivity.
  assert (Trace.info_written Demo.fresh) as H5 by (intros th Hth; discriminate).
  assert (Docx.fits_property
            ("Conversión de " +:+ Pathlib.name (Pathlib.of_string "in/c.pdf"))
          = true) as H6 by reflexivity.
  assert (Forall (fun t => Docx.xml_compatible t = true) ["Delta"; ""; "Zeta"])
    as H7 by (repeat constructor).
  do 6 (split; [assumption|]).
  destruct (records_of_a_conversion Demo.rasterise Demo.ocr Demo.stat_fault
              Demo.save_fault "in/c.pdf" "out/c.docx" 300 "spa" true Demo.fresh
              _ _ H0 H1 H2 H6 H3 H7 H4 H5)
    as [_ Hlog].
  exact Hlog.
Defined.

(** The first page of [in/ff.pdf] ends with a form feed. *)
Lemma records_of_a_failed_transcription_witness :
  Demo.stat_fault Demo.disk "in/ff.pdf" = None
  /\ exists_in Demo.disk (Pathlib.of_string "in/ff.pdf") = true
  /\ Demo.rasterise Demo.disk "in/ff.pdf" 300
     = Returned ([] ++ Demo.form_feed_page :: ["Beta"])
  /\ Demo.ocr Demo.form_feed_page "spa" = Returned Demo.form_feed_page
  /\ Docx.xml_compatible Demo.form_feed_page = false
  /\ Trace.info_written Demo.fresh
  /\ (Demo.convert "in/ff.pdf" "out/ff.docx" true).2
     = Raised (ValueError "All strings must be XML compatible: Unicode or ASCII, no NULL bytes or control characters")
  /\ stderr (Demo.convert "in/ff.pdf" "out/ff.docx" true).1
     = [(INFO, "📄 Convirtiendo ff.pdf a imágenes (DPI=300)...");
        (INFO, "🔍 Procesando página 1/2...")].
Proof.
  assert (Demo.stat_fault Demo.disk "in/ff.pdf" = None) as H0 by reflexivity.
  assert (exists_in Demo.disk (Pathlib.of_string "in/ff.pdf") = true) as H1
    by reflexivity.
  assert (Demo.rasterise Demo.disk "in/ff.pdf" 300
          = Returned ([] ++ Demo.form_feed_page :: ["Beta"])) as H2 by reflexivity.
  assert (transcribed string Demo.ocr "spa" [] []) as H3 by constructor.
  assert (Demo.ocr Demo.form_feed_page "spa" = Returned Demo.form_feed_page) as H4
    by reflexivity.
  assert (Docx.xml_compatible Demo.form_feed_page = false) as H4' by reflexivity.
  assert (Trace.info_written Demo.fresh) as H5 by (intros th Hth; discriminate).
  assert (Docx.fits_property
            ("Conversión de " +:+ Pathlib.name (Pathlib.of_string "in/ff.pdf"))
          = true) as H6 by reflexivity.
  split; [exact H0|]. split; [exact H1|]. split; [exact H2|]. split; [exact H4|].
  split; [exact H4'|]. split; [exact H5|].
  destruct (records_of_a_failed_transcription Demo.rasterise Demo.ocr
              Demo.stat_fault Demo.save_fault "in/ff.pdf" "out/ff.docx" 300 "spa"
              true Demo.fresh [] Demo.form_feed_page ["Beta"] [] _
              H0 H1 H2 H6 H3 (Forall_nil_2 _)
              (or_intror (ex_intro _ Demo.form_feed_page
                            (conj H4 (conj H4' eq_refl)))) H5)
    as (Hres & _ & Hlog).
  split; [exact Hres | exact Hlog].
Defined.

Lemma conversion_of_an_empty_pdf_witness :
  Demo.stat_fault Demo.shelf "in/empty.pdf" = None
  /\ exists_in Demo.shelf (Pathlib.of_string "in/empty.pdf") = true
  /\ Demo.rasterise Demo.shelf "in/empty.pdf" 300 = Returned []
  /\ Demo.save_fault Demo.shelf "out/empty.docx" = None
  /\ exists doc,
       Reader.document_at (fs (Demo.convert_on_shelf "in/empty.pdf" "out/empty.docx").1)
                          "out/empty.docx" = Some doc
       /\ body doc = [Layout.toc_heading; Layout.toc_paragraph].
Proof.
  assert (Demo.stat_fault Demo.shelf "in/empty.pdf" = None) as H0 by reflexivity.
  assert (exists_in Demo.shelf (Pathlib.of_string "in/empty.pdf") = true) as H1
    by reflexivity.
  assert (Demo.rasterise Demo.shelf "in/empty.pdf" 300 = Returned []) as H2
    by reflexivity.
  assert (Demo.save_fault Demo.shelf "out/empty.docx" = None) as H3
    by reflexivity.
  assert (Docx.fits_property
            ("Conversión de " +:+ Pathlib.name (Pathlib.of_string "in/empty.pdf"))
          = true) as H4 by reflexivity.
  do 4 (split; [assumption|]).
  destruct (conversion_of_an_empty_pdf Demo.rasterise Demo.ocr Demo.stat_fault
              Demo.save_fault "in/empty.pdf" "out/empty.docx" 300 "spa" true
              Demo.fresh_shelf H0 H1 H2 H4 H3)
    as (_ & (doc & Hat & Hbody & _) & _).
  exists doc. split; [exact Hat | exact Hbody].
Defined.

(** ** What a run takes away: nothing *)

Section Additive.

Import Trace.

Lemma additive_ret {A} (a : A) : additive (ret a).
Proof. intros w. split; [done | by exists []; rewrite app_nil_r]. Qed.

Lemma additive_bind {A B} (m : M A) (k : A -> M B) :
  additive m -> (forall a, additive (k a)) -> additive (bind m k).
Proof.
  intros Hm Hk w. unfold bind. destruct (Hm w) as [Hm1 Hm2].
  destruct (m w) as [w1 [a|e]]; [|by split].
  destruct (Hk a w1) as [Hk1 Hk2]. simpl in *. split.
  - intros path Hp. by apply Hk1, Hm1.
  - by etrans.
Qed.

Lemma additive_try_except {A} (m : M A) (h : Exn -> M A) :
  additive m -> (forall e, additive (h e)) -> additive (try_except m h).
Proof.
  intros Hm Hh w. unfold try_except. destruct (Hm w) as [Hm1 Hm2].
  destruct (m w) as [w1 [a|e]]; [by split|].
  destruct (Hh e w1) as [Hh1 Hh2]. simpl in *. split.
  - intros path Hp. by apply Hh1, Hm1.
  - by etrans.
Qed.

Lemma additive_for_each {A} (l : list A) (f : A -> M unit) :
  (forall x, additive (f x)) -> additive (for_each l f).
Proof.
  intros Hf. induction l as [|x l IH]; simpl.
  - apply additive_ret.
  - apply additive_bind; [apply Hf | by intros _].
Qed.

Lemma additive_for_fold {A S} (l : list A) (f : A -> S -> M S) (s : S) :
  (forall x s, additive (f x s)) -> additive (for_fold l f s).
Proof.
  intros Hf. revert s. induction l as [|x l IH]; intros s; simpl.
  - apply additive_ret.
  - apply additive_bind; [apply Hf | apply IH].
Qed.

(** What only reads the world takes nothing away. *)
Lemma additive_reader {A} (m : M A) :
  (forall w, (m w).1 = w) -> additive m.
Proof.
  intros H w. rewrite H. split; [done | by exists []; rewrite app_nil_r].
Qed.

Lemma additive_log l msg : additive (Logging.log l msg).
Proof.
  intros w. unfold Logging.log. cbn [fst]. rewrite fs_emit, stderr_emit.
  split; [done | by eexists].
Qed.

Lemma additive_configure l : additive (Logging.basicConfig l).
Proof.
  intros w. unfold Logging.basicConfig. cbn [fst].
  rewrite fs_configure, stderr_configure.
  split; [done | by exists []; rewrite app_nil_r].
Qed.

(** Writing a file at a path takes no path away. *)
Lemma insert_keeps_paths (f : FS) k node path :
  is_Some (f !! path) -> is_Some (<[k := node]> f !! path).
Proof.
  intros H. destruct (decide (k = path)) as [->|Hne].
  - by rewrite lookup_insert_eq.
  - by rewrite lookup_insert_ne.
Qed.

Context {PageImage : Type}.
Variable convert_from_path : FS -> string -> Z -> Result (list PageImage).
Variable image_to_string : PageImage -> string -> Result string.
Variable stat_fault : FS -> string -> option Exn.
Variable save_fault : FS -> string -> option SaveFault.
Variable mkdir_fault : FS -> string -> option Exn.

Local Abbreviation build := (build_document PageImage convert_from_path image_to_string).
Local Abbreviation save := (save_document save_fault).
Local Abbreviation convert :=
  (pdf_to_word_with_toc PageImage convert_from_path image_to_string
                        stat_fault save_fault).
Local Abbreviation run :=
  (main PageImage convert_from_path image_to_string stat_fault save_fault
        mkdir_fault).

Lemma additive_build pdf_file dpi lang : additive (build pdf_file dpi lang).
Proof.
  unfold build_document.
  apply additive_bind; [apply additive_log|]. intros _.
  apply additive_bind; [by apply additive_reader|]. intros pages.
  do 3 (apply additive_bind; [by apply additive_reader|]; intros ?).
  apply additive_for_fold. intros [i page] d.
  unfold page_body.
  apply additive_bind; [apply additive_log|]. intros _.
  apply additive_bind; [by apply additive_reader|]. intros text.
  apply additive_bind; [by apply additive_reader|]. intros [d' hdr].
  apply additive_bind; [by apply additive_reader|]. intros dp.
  apply additive_ret.
Qed.

Lemma additive_save doc output_path : additive (save doc output_path).
Proof.
  unfold save_document. apply additive_try_except; [|intros e; apply additive_log].
  apply additive_bind; [|intros _; apply additive_log].
  intros w. unfold Document_save.
  destruct (save_fault (fs w) output_path) as [[e|e left_over]|]; cbn [fst].
  - split; [done | by exists []; rewrite app_nil_r].
  - split; [|by exists []; rewrite app_nil_r].
    intros path Hp. by apply insert_keeps_paths.
  - split; [|by exists []; rewrite app_nil_r].
    intros path Hp. by apply insert_keeps_paths.
Qed.

Lemma additive_convert pdf_path output_path dpi lang verbose :
  additive (convert pdf_path output_path dpi lang verbose).
Proof.
  unfold pdf_to_word_with_toc.
  apply additive_bind; [apply additive_configure|]. intros _.
  apply additive_bind.
  { apply additive_reader. intros w. unfold Path_exists.
    by destruct (stat_fault _ _). }
  intros found. destruct found; simpl; [|apply additive_log].
  apply additive_bind; [apply additive_build|].
  intros doc. apply additive_save.
Qed.

Lemma additive_mkdir_step asked last p :
  additive (mkdir_step mkdir_fault asked last p).
Proof.
  intros w. unfold mkdir_step.
  destruct (fs w !! Pathlib.str p) as [[| |]|] eqn:Hp;
    try (split; [done | by exists []; rewrite app_nil_r]).
  destruct (mkdir_fault (fs w) (Pathlib.str p));
    [split; [done | by exists []; rewrite app_nil_r]|].
  cbn [fst fs stderr]. split; [|by exists []; rewrite app_nil_r].
  intros path Hpath. by apply insert_keeps_paths.
Qed.

Lemma additive_mkdir_walk asked ps :
  additive (mkdir_walk mkdir_fault asked ps).
Proof.
  induction ps as [|p ps IH]; [apply additive_ret|].
  destruct ps as [|q ps]; [apply additive_mkdir_step|].
  change (mkdir_walk mkdir_fault asked (p :: q :: ps))
    with (bind (mkdir_step mkdir_fault asked false p)
               (fun _ => mkdir_walk mkdir_fault asked (q :: ps))).
  apply additive_bind; [apply additive_mkdir_step | by intros _].
Qed.

(** X4. Whatever its arguments and the world, and however it ends (it
    returns, or an exception leaves it), [pdf_to_word_with_toc] takes
    nothing away: every path that was there is still there, the records
    written before are still written, the new ones after them, and a root
    logger that had a handler keeps its level. *)
Theorem conversion_removes_nothing (pdf_path output_path : string)
    (dpi : Z) (lang : string) (verbose : bool) (w : World) :
  let out := convert pdf_path output_path dpi lang verbose w in
  (forall path : string,
     is_Some (fs w !! path) -> is_Some (fs out.1 !! path))
  /\ (exists more, stderr out.1 = stderr w ++ more)
  /\ (forall th, root_logger w = Some th -> root_logger out.1 = Some th).
Proof.
  intros out.
  destruct (additive_convert pdf_path output_path dpi lang verbose w) as [H1 H2].
  split; [exact H1|]. split; [exact H2|].
  intros th Hth. unfold out, pdf_to_word_with_toc.
  unfold bind at 1. unfold Logging.basicConfig at 1.
  apply (keeps_level_convert convert_from_path image_to_string stat_fault
           save_fault pdf_path output_path dpi lang).
  by apply root_logger_configure.
Qed.

(** X5. Whatever the arguments and the world, and whether it returns or
    raises, the batch driver takes nothing away: every path that was there
    is still there, and the records written before are still written, the
    new ones after them. *)
Theorem batch_removes_nothing (args : Args) (w : World) :
  let out := run args w in
  (forall path : string,
     is_Some (fs w !! path) -> is_Some (fs out.1 !! path))
  /\ (exists more, stderr out.1 = stderr w ++ more).
Proof.
  intros out.
  assert (additive (run args)) as Hrun.
  { unfold main. apply additive_bind; [apply additive_mkdir_walk|].
    intros _. apply additive_bind; [|intros _; apply additive_log].
    apply additive_for_each. intros pdf_path. apply additive_convert. }
  exact (Hrun w).
Qed.

End Additive.

(** ** Writing over what is there *)

Section Overwriting.

Import Layout.

Context {PageImage : Type}.
Variable convert_from_path : FS -> string -> Z -> Result (list PageImage).
Variable image_to_string : PageImage -> string -> Result string.
Variable stat_fault : FS -> string -> option Exn.
Variable save_fault : FS -> string -> option SaveFault.

Local Abbreviation ocr_gives := (transcribed PageImage image_to_string).
Local Abbreviation convert :=
  (pdf_to_word_with_toc PageImage convert_from_path image_to_string
                        stat_fault save_fault).
Local Abbreviation convert_in_batch :=
  (convert_one PageImage convert_from_path image_to_string stat_fault save_fault).

(** The file system after a conversion that goes through. *)
Lemma conversion_stores_document pdf_path output_path dpi lang verbose w pages texts :
  let pdf_file := Pathlib.of_string pdf_path in
  stat_fault (fs w) (Pathlib.str pdf_file) = None ->
  exists_in (fs w) pdf_file = true ->
  convert_from_path (fs w) (Pathlib.str pdf_file) dpi = Returned pages ->
  Docx.fits_property ("Conversión de " +:+ Pathlib.name pdf_file) = true ->
  ocr_gives lang pages texts ->
  Forall (fun t => Docx.xml_compatible t = true) texts ->
  save_fault (fs w) output_path = None ->
  (convert pdf_path output_path dpi lang verbose w).2 = Returned tt
  /\ fs (convert pdf_path output_path dpi lang verbose w).1
     = <[Trace.key output_path := DocxFile (assembled (Pathlib.name pdf_file) texts)]>
         (fs w).
Proof.
  intros pdf_file Hstat Hfound Hconv Hfits Hocr Hst Hok.
  set (w0 := Logging.configure (if verbose then DEBUG else INFO) w).
  assert (convert_from_path (fs w0) (Pathlib.str pdf_file) dpi = Returned pages)
    as Hconv0 by (unfold w0; by rewrite fs_configure).
  pose proof (build_document_returned _ _ _ _ lang _ _ _ Hconv0 Hfits Hocr Hst)
    as Hbuild.
  assert (fs (built_world pdf_file dpi (length pages) w0) = fs w) as Hfs
    by (unfold w0; by rewrite fs_built_world, fs_configure).
  rewrite convert_found by done. fold w0.
  erewrite bind_returned by exact Hbuild.
  rewrite save_document_ok by (by rewrite Hfs). cbn [fst snd].
  split; [done|]. rewrite fs_emit. unfold written. cbn [fs]. by rewrite Hfs.
Qed.

Lemma exists_in_insert (f : FS) k node p :
  exists_in f p = true -> exists_in (<[k := node]> f) p = true.
Proof.
  unfold exists_in. destruct (tail p); [done|].
  intros H. apply bool_decide_eq_true in H. apply bool_decide_eq_true.
  destruct (decide (k = Pathlib.str p)) as [->|Hne].
  - by rewrite lookup_insert_eq.
  - by rewrite lookup_insert_ne.
Qed.

(** X6. Converting the same input to the same output path a second time,
    both conversions going through (the input is there, the title fits,
    the rasteriser gives the same pages, whose texts python-docx takes, and
    the save does not fail), writes over the document of the first run
    with an equal document: the file system after the second run is the
    file system after the first. *)
Theorem second_run_changes_nothing (pdf_path output_path : string) (dpi : Z)
    (lang : string) (verbose : bool) (w : World)
    (pages : list PageImage) (texts : list string) :
  let pdf_file := Pathlib.of_string pdf_path in
  let first := convert pdf_path output_path dpi lang verbose w in
  let second := convert pdf_path output_path dpi lang verbose first.1 in
  stat_fault (fs w) (Pathlib.str pdf_file) = None ->
  exists_in (fs w) pdf_file = true ->
  convert_from_path (fs w) (Pathlib.str pdf_file) dpi = Returned pages ->
  Docx.fits_property ("Conversión de " +:+ Pathlib.name pdf_file) = true ->
  ocr_gives lang pages texts ->
  Forall (fun t => Docx.xml_compatible t = true) texts ->
  save_fault (fs w) output_path = None ->
  stat_fault (fs first.1) (Pathlib.str pdf_file) = None ->
  convert_from_path (fs first.1) (Pathlib.str pdf_file) dpi = Returned pages ->
  save_fault (fs first.1) output_path = None ->
  second.2 = Returned tt
  /\ fs second.1 = fs first.1
  /\ Reader.document_at (fs second.1) output_path
     = Some (assembled (Pathlib.name pdf_file) texts).
Proof.
  intros pdf_file first second Hstat Hfound Hconv Hfits Hocr Hst Hok
    Hstat' Hconv' Hok'.
  destruct (conversion_stores_document pdf_path output_path dpi lang verbose w
              pages texts Hstat Hfound Hconv Hfits Hocr Hst Hok) as [_ Hfs1].
  fold first in Hfs1.
  assert (exists_in (fs first.1) pdf_file = true) as Hfound'
    by (rewrite Hfs1; by apply exists_in_insert).
  destruct (conversion_stores_document pdf_path output_path dpi lang verbose
              first.1 pages texts Hstat' Hfound' Hconv' Hfits Hocr Hst Hok')
    as [Hres Hfs2].
  fold second in Hres, Hfs2.
  split; [exact Hres|]. split.
  - rewrite Hfs2, Hfs1. apply insert_insert_eq.
  - unfold Reader.document_at. rewrite Hfs2. fold (Trace.key output_path).
    by rewrite lookup_insert_eq.
Qed.

(** X7. The output path of an input depends on the input through its stem
    alone: two inputs named <s>.<ext1> and <s>.<ext2>, in whatever
    directories, have the same output path.  So when a batch holds two
    such inputs (the same file name in two directories, say), the second
    one, once its conversion has gone through, has taken the place of
    whatever the first one left at their common output path. *)
Theorem same_stem_same_output (args : Args) (out_dir : Path)
    (first_path second_path s ext1 ext2 : string) (w : World)
    (pages : list PageImage) (texts : list string) :
  let after_first := (convert_in_batch args out_dir first_path w).1 in
  let after_second := (convert_in_batch args out_dir second_path after_first).1 in
  Pathlib.name (Pathlib.of_string first_path) = s +:+ "." +:+ ext1 ->
  Pathlib.name (Pathlib.of_string second_path) = s +:+ "." +:+ ext2 ->
  s <> "" -> ext1 <> "" -> ext2 <> "" ->
  Str.contains "." ext1 = false -> Str.contains "." ext2 = false ->
  stat_fault (fs after_first) (Pathlib.str (Pathlib.of_string second_path)) = None ->
  exists_in (fs after_first) (Pathlib.of_string second_path) = true ->
  convert_from_path (fs after_first)
                    (Pathlib.str (Pathlib.of_string second_path)) (arg_dpi args)
    = Returned pages ->
  Docx.fits_property
    ("Conversión de " +:+ Pathlib.name (Pathlib.of_string second_path)) = true ->
  ocr_gives (arg_lang args) pages texts ->
  Forall (fun t => Docx.xml_compatible t = true) texts ->
  save_fault (fs after_first) (output_path_for out_dir second_path) = None ->
  output_path_for out_dir first_path = output_path_for out_dir second_path
  /\ Reader.document_at (fs after_second) (output_path_for out_dir first_path)
     = Some (assembled (Pathlib.name (Pathlib.of_string second_path)) texts).
Proof.
  intros after_first after_second Hn1 Hn2 Hs He1 He2 Hf1 Hf2
    Hstat Hfound Hconv Hfits Hocr Hst Hok.
  assert (output_path_for out_dir first_path = output_path_for out_dir second_path)
    as Hsame.
  { unfold output_path_for.
    rewrite (stem_of_suffixed _ s ext1 Hn1 Hs He1 Hf1).
    by rewrite (stem_of_suffixed _ s ext2 Hn2 Hs He2 Hf2). }
  split; [exact Hsame|].
  destruct (conversion_stores_document second_path
              (output_path_for out_dir second_path) (arg_dpi args) (arg_lang args)
              (negb (quiet args)) after_first pages texts
              Hstat Hfound Hconv Hfits Hocr Hst Hok)
    as [_ Hfs].
  unfold after_second, convert_one. rewrite Hfs, Hsame.
  unfold Reader.document_at. fold (Trace.key (output_path_for out_dir second_path)).
  by rewrite lookup_insert_eq.
Qed.

(** X8. Nothing keeps the output path of an input from being the input
    itself (an input named <stem>.docx that lies in the output directory):
    a conversion that goes through then writes the document over its own
    input. *)
Theorem input_overwritten_when_it_is_the_output (args : Args) (out_dir : Path)
    (pdf_path : string) (w : World)
    (pages : list PageImage) (texts : list string) :
  let pdf_file := Pathlib.of_string pdf_path in
  let out := convert_in_batch args out_dir pdf_path w in
  Trace.key (output_path_for out_dir pdf_path) = Pathlib.str pdf_file ->
  stat_fault (fs w) (Pathlib.str pdf_file) = None ->
  exists_in (fs w) pdf_file = true ->
  convert_from_path (fs w) (Pathlib.str pdf_file) (arg_dpi args) = Returned pages ->
  Docx.fits_property ("Conversión de " +:+ Pathlib.name pdf_file) = true ->
  ocr_gives (arg_lang args) pages texts ->
  Forall (fun t => Docx.xml_compatible t = true) texts ->
  save_fault (fs w) (output_path_for out_dir pdf_path) = None ->
  out.2 = Returned tt
  /\ fs out.1 !! Pathlib.str pdf_file
     = Some (DocxFile (assembled (Pathlib.name pdf_file) texts)).
Proof.
  intros pdf_file out Hkey Hstat Hfound Hconv Hfits Hocr Hst Hok.
  destruct (conversion_stores_document pdf_path
              (output_path_for out_dir pdf_path) (arg_dpi args) (arg_lang args)
              (negb (quiet args)) w pages texts
              Hstat Hfound Hconv Hfits Hocr Hst Hok)
    as [Hres Hfs].
  unfold out, convert_one. split; [exact Hres|].
  rewrite Hfs, Hkey. by rewrite lookup_insert_eq.
Qed.

End Overwriting.

Lemma second_run_changes_nothing_witness :
  exists_in Demo.disk (Pathlib.of_string "in/a.pdf") = true
  /\ Demo.rasterise Demo.disk "in/a.pdf" 300 = Returned ["Alpha"; "Beta"; "Gamma"]
  /\ transcribed string Demo.ocr "spa" ["Alpha"; "Beta"; "Gamma"] ["Alpha"; "Beta"; "Gamma"]
  /\ Demo.save_fault Demo.disk "out/a.docx" = None
  /\ Demo.rasterise (fs (Demo.convert "in/a.pdf" "out/a.docx" true).1) "in/a.pdf" 300
     = Returned ["Alpha"; "Beta"; "Gamma"]
  /\ Demo.save_fault (fs (Demo.convert "in/a.pdf" "out/a.docx" true).1) "out/a.docx"
     = None
  /\ fs (pdf_to_word_with_toc string Demo.rasterise Demo.ocr Demo.stat_fault
           Demo.save_fault "in/a.pdf" "out/a.docx" 300 "spa" true
           (Demo.convert "in/a.pdf" "out/a.docx" true).1).1
     = fs (Demo.convert "in/a.pdf" "out/a.docx" true).1.
Proof.
  assert (exists_in Demo.disk (Pathlib.of_string "in/a.pdf") = true) as H1
    by reflexivity.
  assert (Demo.rasterise Demo.disk "in/a.pdf" 300 = Returned ["Alpha"; "Beta"; "Gamma"])
    as H2 by reflexivity.
  assert (transcribed string Demo.ocr "spa" ["Alpha"; "Beta"; "Gamma"]
            ["Alpha"; "Beta"; "Gamma"]) as H3 by (repeat constructor).
  assert (Demo.save_fault Demo.disk "out/a.docx" = None) as H4 by reflexivity.
  assert (Demo.rasterise (fs (Demo.convert "in/a.pdf" "out/a.docx" true).1)
            "in/a.pdf" 300 = Returned ["Alpha"; "Beta"; "Gamma"]) as H5
    by (vm_compute; reflexivity).
  assert (Demo.save_fault (fs (Demo.convert "in/a.pdf" "out/a.docx" true).1)
            "out/a.docx" = None) as H6 by (vm_compute; reflexivity).
  assert (Docx.fits_property
            ("Conversión de " +:+ Pathlib.name (Pathlib.of_string "in/a.pdf"))
          = true) as H7 by reflexivity.
  assert (Forall (fun t => Docx.xml_compatible t = true) ["Alpha"; "Beta"; "Gamma"])
    as H8 by (repeat constructor).
  do 6 (split; [assumption|]).
  destruct (second_run_changes_nothing Demo.rasterise Demo.ocr Demo.stat_fault
              Demo.save_fault "in/a.pdf" "out/a.docx" 300 "spa" true Demo.fresh
              _ _ eq_refl H1 H2 H7 H3 H8 H4 eq_refl H5 H6) as (_ & Hfs & _).
  exact Hfs.
Defined.

Lemma same_stem_same_output_witness :
  Pathlib.name (Pathlib.of_string "in/a.pdf") = "a" +:+ "." +:+ "pdf"
  /\ Pathlib.name (Pathlib.of_string "old/a.pdf") = "a" +:+ "." +:+ "pdf"
  /\ exists_in (fs Demo.after_first_namesake) (Pathlib.of_string "old/a.pdf") = true
  /\ Demo.rasterise (fs Demo.after_first_namesake) "old/a.pdf" 300 = Returned ["Omega"]
  /\ transcribed string Demo.ocr "spa" ["Omega"] ["Omega"]
  /\ Demo.save_fault (fs Demo.after_first_namesake) "out/a.docx" = None
  /\ Reader.document_at (fs Demo.after_first_namesake) "out/a.docx"
     = Some (Layout.assembled "a.pdf" ["Alpha"; "Beta"; "Gamma"])
  /\ output_path_for (Pathlib.of_string "out") "in/a.pdf" = "out/a.docx"
  /\ output_path_for (Pathlib.of_string "out") "old/a.pdf" = "out/a.docx"
  /\ Reader.document_at
       (fs (convert_one string Demo.rasterise Demo.ocr Demo.stat_fault
              Demo.save_fault Demo.batch_of_namesakes (Pathlib.of_string "out")
              "old/a.pdf" Demo.after_first_namesake).1)
       "out/a.docx"
     = Some (Layout.assembled "a.pdf" ["Omega"]).
Proof.
  assert (exists_in (fs Demo.after_first_namesake) (Pathlib.of_string "old/a.pdf")
          = true) as H2 by (vm_compute; reflexivity).
  assert (Demo.rasterise (fs Demo.after_first_namesake) "old/a.pdf" 300
          = Returned ["Omega"]) as H3 by (vm_compute; reflexivity).
  assert (transcribed string Demo.ocr "spa" ["Omega"] ["Omega"]) as H4
    by (repeat constructor).
  assert (Demo.save_fault (fs Demo.after_first_namesake) "out/a.docx" = None)
    as H5 by (vm_compute; reflexivity).
  assert (Demo.stat_fault (fs Demo.after_first_namesake)
            (Pathlib.str (Pathlib.of_string "old/a.pdf")) = None) as H6
    by reflexivity.
  assert (Docx.fits_property
            ("Conversión de " +:+ Pathlib.name (Pathlib.of_string "old/a.pdf"))
          = true) as H7 by reflexivity.
  assert (Forall (fun t => Docx.xml_compatible t = true) ["Omega"]) as H8
    by (repeat constructor).
  split; [reflexivity|]. split; [reflexivity|].
  split; [exact H2|]. split; [exact H3|]. split; [exact H4|]. split; [exact H5|].
  split; [vm_compute; reflexivity|].
  split; [reflexivity|]. split; [reflexivity|].
  destruct (same_stem_same_output Demo.rasterise Demo.ocr Demo.stat_fault
              Demo.save_fault Demo.batch_of_namesakes (Pathlib.of_string "out")
              "in/a.pdf" "old/a.pdf" "a" "pdf" "pdf" Demo.fresh_shelf _ _
              eq_refl eq_refl ltac:(discriminate) ltac:(discriminate)
              ltac:(discriminate) eq_refl eq_refl H6 H2 H3 H7 H4 H8 H5)
    as [_ Hat].
  exact Hat.
Defined.

Lemma input_overwritten_when_it_is_the_output_witness :
  Trace.key (output_path_for (Pathlib.of_string "in") "in/scan.docx")
  = Pathlib.str (Pathlib.of_string "in/scan.docx")
  /\ exists_in Demo.shelf (Pathlib.of_string "in/scan.docx") = true
  /\ Demo.rasterise Demo.shelf "in/scan.docx" 300 = Returned ["One"; "Two"]
  /\ transcribed string Demo.ocr "spa" ["One"; "Two"] ["One"; "Two"]
  /\ Demo.save_fault Demo.shelf "in/scan.docx" = None
  /\ Demo.shelf !! "in/scan.docx" = Some (DataFile "One|Two")
  /\ fs (convert_one string Demo.rasterise Demo.ocr Demo.stat_fault
           Demo.save_fault Demo.batch_in_place (Pathlib.of_string "in")
           "in/scan.docx" Demo.fresh_shelf).1 !! "in/scan.docx"
     = Some (DocxFile (Layout.assembled "scan.docx" ["One"; "Two"])).
Proof.
  assert (Trace.key (output_path_for (Pathlib.of_string "in") "in/scan.docx")
          = Pathlib.str (Pathlib.of_string "in/scan.docx")) as H1 by reflexivity.
  assert (exists_in Demo.shelf (Pathlib.of_string "in/scan.docx") = true) as H2
    by reflexivity.
  assert (Demo.rasterise Demo.shelf "in/scan.docx" 300 = Returned ["One"; "Two"])
    as H3 by reflexivity.
  assert (transcribed string Demo.ocr "spa" ["One"; "Two"] ["One"; "Two"]) as H4
    by (repeat constructor).
  assert (Demo.save_fault Demo.shelf "in/scan.docx" = None) as H5
    by reflexivity.
  assert (Docx.fits_property
            ("Conversión de " +:+ Pathlib.name (Pathlib.of_string "in/scan.docx"))
          = true) as H7 by reflexivity.
  assert (Forall (fun t => Docx.xml_compatible t = true) ["One"; "Two"]) as H8
    by (repeat constructor).
  do 5 (split; [assumption|]). split; [reflexivity|].
  destruct (input_overwritten_when_it_is_the_output Demo.rasterise Demo.ocr
              Demo.stat_fault Demo.save_fault Demo.batch_in_place
              (Pathlib.of_string "in") "in/scan.docx" Demo.fresh_shelf _ _
              H1 eq_refl H2 H3 H7 H4 H8 H5) as [_ Hat].
  exact Hat.
Defined.

(** ** The name of the output *)

Section Stem.

(** X9. The batch driver swaps the last suffix of the name of an input for
    [.docx], whatever that suffix is: an input named <s>.<ext> (<s> not
    empty, <ext> not empty and without a dot) is written to the child
    <s>.docx of the output directory, be <ext> "pdf" or not.  An input whose
    name has no dot at all gets [.docx] added to its name. *)
Theorem last_suffix_becomes_docx (out_dir : Path) (pdf_path : string) :
  let pdf_file := Pathlib.of_string pdf_path in
  let output :=
    Pathlib.joinpath out_dir (Pathlib.stem pdf_file +:+ ".docx") in
  (forall s ext : string,
     Pathlib.name pdf_file = s +:+ "." +:+ ext ->
     s <> "" -> ext <> "" -> Str.contains "." ext = false ->
     Pathlib.name output = s +:+ ".docx"
     /\ Pathlib.parent output = out_dir
     /\ output_path_for out_dir pdf_path
        = Pathlib.str (mkPath (root out_dir) (tail out_dir ++ [s +:+ ".docx"])))
  /\ (Str.contains "." (Pathlib.name pdf_file) = false ->
      Pathlib.name output = Pathlib.name pdf_file +:+ ".docx"
      /\ Pathlib.parent output = out_dir).
Proof.
  intros pdf_file output.
  destruct (output_path_child out_dir pdf_path) as (Hout & Hname & Hparent & _).
  fold pdf_file in Hout, Hname, Hparent. fold output in Hout, Hname, Hparent.
  split.
  - intros s ext Hn Hs Hext Hfree.
    pose proof (stem_of_suffixed pdf_file s ext Hn Hs Hext Hfree) as Hstem.
    split; [by rewrite Hname, Hstem|]. split; [exact Hparent|].
    unfold output_path_for. fold pdf_file. fold output.
    by rewrite Hout, Hstem.
  - intros Hfree. split; [|exact Hparent].
    by rewrite Hname, (stem_of_plain _ Hfree).
Qed.

End Stem.

Lemma last_suffix_becomes_docx_witness :
  Pathlib.name (Pathlib.of_string "scans/report.final.PDF") = "report.final" +:+ "." +:+ "PDF"
  /\ output_path_for (Pathlib.of_string "out") "scans/report.final.PDF"
     = "out/report.final.docx"
  /\ Str.contains "." (Pathlib.name (Pathlib.of_string "scans/README")) = false
  /\ Pathlib.name
       (Pathlib.joinpath (Pathlib.of_string "out")
          (Pathlib.stem (Pathlib.of_string "scans/README") +:+ ".docx"))
     = "README.docx".
Proof.
  assert (Pathlib.name (Pathlib.of_string "scans/report.final.PDF")
          = "report.final" +:+ "." +:+ "PDF") as Hname by reflexivity.
  assert (Str.contains "." (Pathlib.name (Pathlib.of_string "scans/README")) = false)
    as Hplain by reflexivity.
  split; [exact Hname|].
  destruct (proj1 (last_suffix_becomes_docx (Pathlib.of_string "out")
                     "scans/report.final.PDF")
              "report.final" "PDF" Hname ltac:(discriminate) ltac:(discriminate)
              ltac:(reflexivity)) as (_ & _ & Hpath).
  split; [exact Hpath|]. split; [exact Hplain|].
  destruct (proj2 (last_suffix_becomes_docx (Pathlib.of_string "out")
                     "scans/README") Hplain) as [Hn _].
  exact Hn.
Defined.

(** ** Batches that convert nothing *)

Section Barren.

Import Layout.

Context {PageImage : Type}.
Variable convert_from_path : FS -> string -> Z -> Result (list PageImage).
Variable image_to_string : PageImage -> string -> Result string.
Variable stat_fault : FS -> string -> option Exn.
Variable save_fault : FS -> string -> option SaveFault.
Variable mkdir_fault : FS -> string -> option Exn.

Local Abbreviation convert_in_batch :=
  (convert_one PageImage convert_from_path image_to_string stat_fault save_fault).
Local Abbreviation mkdir := (Path_mkdir mkdir_fault).
Local Abbreviation run :=
  (main PageImage convert_from_path image_to_string stat_fault save_fault
        mkdir_fault).

Lemma lineage_snoc (p : Path) :
  tail p <> [] ->
  Pathlib.lineage p = removelast (Pathlib.lineage p) ++ [p].
Proof.
  intros Hp.
  assert (Pathlib.lineage p <> []) as Hne.
  { intros Hnil. pose proof (lineage_self p Hp) as Hin.
    rewrite Hnil in Hin. by apply elem_of_nil in Hin. }
  rewrite (app_removelast_last p Hne) at 1. do 2 f_equal.
  unfold Pathlib.lineage.
  destruct (tail p) as [|x t] eqn:Ht; [done|].
  replace (length (x :: t)) with (length t + 1)%nat by (simpl; lia).
  rewrite seq_app, map_app. simpl map at 2. rewrite last_last.
  replace (1 + length t)%nat with (length (x :: t)) by (simpl; lia).
  rewrite firstn_all. destruct p. simpl in Ht. by subst.
Qed.

(** A walk stopped by a file at its last path. *)
Lemma mkdir_walk_blocked asked ps p node w :
  Forall (fun q => fs w !! Pathlib.str q = Some Dir) ps ->
  fs w !! Pathlib.str p = Some node -> node <> Dir ->
  mkdir_walk mkdir_fault asked (ps ++ [p]) w
  = (w, Raised (mkExn "FileExistsError"
                  ("[Errno 17] File exists: '" +:+ asked +:+ "'"))).
Proof.
  intros Hps Hp Hnode.
  assert (mkdir_step mkdir_fault asked true p w
          = (w, Raised (mkExn "FileExistsError"
                          ("[Errno 17] File exists: '" +:+ asked +:+ "'"))))
    as Hlast.
  { unfold mkdir_step. rewrite Hp. by destruct node. }
  induction Hps as [|q ps Hq _ IH]; [exact Hlast|].
  change ((q :: ps) ++ [p]) with (q :: (ps ++ [p])).
  rewrite mkdir_walk_cons.
  destruct (ps ++ [p]) as [|x l] eqn:Hl; [by destruct ps|].
  erewrite bind_returned; [exact IH|].
  unfold mkdir_step. by rewrite Hq.
Qed.

(** X10. When the path given as output directory is a file (its ancestors
    being directories), the batch driver raises [FileExistsError] at once:
    no input is looked at, nothing is logged, the world is as it was. *)
Theorem output_directory_is_a_file (args : Args) (w : World) (node : Node) :
  let out_dir := Pathlib.of_string (output_dir args) in
  tail out_dir <> [] ->
  Forall (fun q => fs w !! Pathlib.str q = Some Dir)
         (removelast (Pathlib.lineage out_dir)) ->
  fs w !! Pathlib.str out_dir = Some node ->
  node <> Dir ->
  run args w
  = (w, Raised (mkExn "FileExistsError"
                  ("[Errno 17] File exists: '" +:+ Pathlib.str out_dir +:+ "'"))).
Proof.
  intros out_dir Htail Hdirs Hfile Hnode.
  unfold main. fold out_dir. eapply bind_raised.
  unfold Path_mkdir. rewrite (lineage_snoc _ Htail).
  by eapply mkdir_walk_blocked.
Qed.

(** The loop over inputs that the existence check reports as absent. *)
Lemma for_each_missing (args : Args) (out_dir : Path) (inputs : list string) w :
  Trace.info_written w ->
  Forall (fun pdf_path =>
            stat_fault (fs w) (Pathlib.str (Pathlib.of_string pdf_path)) = None
            /\ exists_in (fs w) (Pathlib.of_string pdf_path) = false)
         inputs ->
  exists w',
    for_each inputs (convert_in_batch args out_dir) w = (w', Returned tt)
    /\ fs w' = fs w
    /\ stderr w' = stderr w ++ Trace.missing_records inputs
    /\ Trace.info_written w'
    /\ (inputs <> [] -> root_logger w' <> None).
Proof.
  intros Hw Hall. revert w Hw Hall.
  induction inputs as [|p inputs IH]; intros w Hw Hall.
  - exists w. simpl. by rewrite app_nil_r.
  - apply Forall_cons in Hall as [[Hstat Hp] Hall].
    destruct (info_written_configure (negb (quiet args)) w Hw) as (th & Hth & Hle).
    set (w1 := Logging.emit ERROR (missing (Pathlib.of_string p))
                 (Logging.configure (if negb (quiet args) then DEBUG else INFO) w)).
    assert (convert_in_batch args out_dir p w = (w1, Returned tt)) as Hstep
      by (unfold convert_one; by rewrite convert_missing).
    assert (fs w1 = fs w) as Hfs by (unfold w1; by rewrite fs_emit, fs_configure).
    assert (root_logger w1 = Some th) as Hth1
      by (unfold w1; by apply root_logger_emit).
    assert (Trace.info_written w1) as Hw1
      by (intros th' Heq; rewrite Hth1 in Heq; by simplify_eq).
    assert (stderr w1 = stderr w ++ [(ERROR, missing (Pathlib.of_string p))])
      as Herr.
    { unfold w1. rewrite (stderr_emit_audible _ _ _ th) by (simpl in *; done || lia).
      by rewrite stderr_configure. }
    destruct (IH w1 Hw1) as (w' & Hloop & Hfs' & Herr' & Hw' & _).
    { by rewrite Hfs. }
    exists w'. simpl. erewrite bind_returned by exact Hstep.
    split; [exact Hloop|]. split; [congruence|]. split.
    { rewrite Herr', Herr, <- app_assoc. done. }
    split; [exact Hw'|]. intros _.
    assert (Logging.keeps_level (for_each inputs (convert_in_batch args out_dir)))
      as Hkeep.
    { clear. induction inputs as [|x l IHl]; simpl.
      - apply keeps_level_ret.
      - apply keeps_level_bind; [|intros _; apply IHl].
        unfold convert_one, pdf_to_word_with_toc.
        apply keeps_level_bind.
        { intros v t Ht. by apply root_logger_configure. }
        intros _. apply keeps_level_convert. }
    specialize (Hkeep w1 th Hth1). rewrite Hloop in Hkeep. simpl in Hkeep.
    by rewrite Hkeep.
Qed.

(** X11. A batch none of whose inputs is there, the existence check
    reporting each of them as absent ([stat] not failing otherwise), returns
    normally all the same: apart from the output directory that it made,
    the file system is as it was, and the records written are one error
    "El PDF no existe: ..." for each input, in the order of the inputs,
    then the closing line. *)
Theorem batch_of_missing_inputs (args : Args) (w w0 : World) :
  let out_dir := Pathlib.of_string (output_dir args) in
  mkdir out_dir w = (w0, Returned tt) ->
  pdfs args <> [] ->
  Forall (fun pdf_path =>
            stat_fault (fs w0) (Pathlib.str (Pathlib.of_string pdf_path)) = None
            /\ exists_in (fs w0) (Pathlib.of_string pdf_path) = false)
         (pdfs args) ->
  Trace.info_written w ->
  (run args w).2 = Returned tt
  /\ fs (run args w).1 = fs w0
  /\ stderr (run args w).1
     = stderr w
       ++ Trace.missing_records (pdfs args)
       ++ [(INFO, "Proceso completado para todos los PDFs.")].
Proof.
  intros out_dir Hmkdir Hne Hall Hw.
  destruct (mkdir_walk_returned _ _ _ _ _ Hmkdir) as (_ & _ & Hlog & Herr).
  assert (Trace.info_written w0) as Hw0
    by (intros th Hth; apply Hw; congruence).
  destruct (for_each_missing args out_dir (pdfs args) w0 Hw0 Hall)
    as (wn & Hloop & Hfs & Herr' & Hwn & Hsome).
  unfold main. fold out_dir.
  erewrite bind_returned by exact Hmkdir.
  erewrite bind_returned by exact Hloop.
  unfold Logging.info, Logging.log. cbn [fst snd].
  split; [done|]. split; [by rewrite fs_emit|].
  destruct (root_logger wn) as [th|] eqn:Hth; [|by destruct (Hsome Hne)].
  rewrite (stderr_emit_audible _ _ _ th Hth (Hwn th Hth)).
  rewrite Herr', Herr, <- app_assoc. done.
Qed.

End Barren.

(** ** The quiet flag, and the first call to [basicConfig] *)

Section Quiet.

Import Logging.

Context {PageImage : Type}.
Variable convert_from_path : FS -> string -> Z -> Result (list PageImage).
Variable image_to_string : PageImage -> string -> Result string.
Variable stat_fault : FS -> string -> option Exn.
Variable save_fault : FS -> string -> option SaveFault.
Variable mkdir_fault : FS -> string -> option Exn.

Local Abbreviation build := (build_document PageImage convert_from_path image_to_string).
Local Abbreviation save := (save_document save_fault).
Local Abbreviation exists_ := (Path_exists stat_fault).
Local Abbreviation convert :=
  (pdf_to_word_with_toc PageImage convert_from_path image_to_string
                        stat_fault save_fault).
Local Abbreviation run :=
  (main PageImage convert_from_path image_to_string stat_fault save_fault
        mkdir_fault).

Lemma alike_configure_both w1 w2 :
  alike w1 w2 -> alike (configure DEBUG w1) (configure INFO w2).
Proof.
  intros (Hfs & Herr & Hlog). unfold alike.
  rewrite !fs_configure, !stderr_configure. split; [done|]. split; [done|].
  unfold configure. destruct Hlog as [Heq|[H1 H2]].
  - rewrite <- Heq. destruct (root_logger w1) eqn:E; simpl; auto.
    rewrite <- Heq. auto.
  - rewrite H1, H2. auto.
Qed.

(** A verbose conversion and a quiet one, from worlds that are alike. *)
Lemma convert_alike pdf_path output_path dpi lang w1 w2 :
  alike w1 w2 ->
  alike (convert pdf_path output_path dpi lang true w1).1
        (convert pdf_path output_path dpi lang false w2).1
  /\ (convert pdf_path output_path dpi lang true w1).2
     = (convert pdf_path output_path dpi lang false w2).2.
Proof.
  intros H.
  exact (level_blind_convert convert_from_path image_to_string stat_fault
           save_fault pdf_path output_path dpi lang _ _
           (alike_configure_both _ _ H)).
Qed.

Lemma level_blind_mkdir_walk asked ps :
  level_blind (mkdir_walk mkdir_fault asked ps).
Proof.
  assert (forall last p, level_blind (mkdir_step mkdir_fault asked last p)) as Hstep.
  { intros last p w1 w2 (Hfs & Herr & Hlog). unfold mkdir_step. rewrite Hfs.
    destruct (fs w2 !! Pathlib.str p) as [[| |]|]; simpl; try done.
    destruct (mkdir_fault (fs w2) (Pathlib.str p)); simpl; try done.
    all: try (split; [|done]; unfold alike; simpl; by rewrite ?Hfs). }
  induction ps as [|p ps IH]; [apply level_blind_ret|].
  destruct ps as [|q ps]; [apply Hstep|].
  change (mkdir_walk mkdir_fault asked (p :: q :: ps))
    with (bind (mkdir_step mkdir_fault asked false p)
               (fun _ => mkdir_walk mkdir_fault asked (q :: ps))).
  apply level_blind_bind; [apply Hstep | intros _; apply IH].
Qed.

Lemma in_step_bind {A B} (m1 m2 : M A) (k1 k2 : A -> M B) :
  Trace.in_step m1 m2 -> (forall a, Trace.in_step (k1 a) (k2 a)) ->
  Trace.in_step (bind m1 k1) (bind m2 k2).
Proof.
  intros Hm Hk w1 w2 H. unfold bind. destruct (Hm w1 w2 H) as [Hw Hr].
  destruct (m1 w1) as [v1 r1], (m2 w2) as [v2 r2]. simpl in *. subst r2.
  destruct r1 as [a|e]; [by apply Hk | done].
Qed.

Lemma in_step_for_each {A} (f g : A -> M unit) (l : list A) :
  (forall x, Trace.in_step (f x) (g x)) ->
  Trace.in_step (for_each l f) (for_each l g).
Proof.
  intros Hfg. induction l as [|x l IH]; simpl.
  - by intros w1 w2 H.
  - apply in_step_bind; [apply Hfg | intros _; apply IH].
Qed.

(** X12. The flag [-q] changes nothing that can be seen: a batch run with
    it and the same batch run without it, from the same world, end the same
    way, leave the same file system and have written the very same records
    (every record of the script has level [INFO] or [ERROR], and both levels
    pass [DEBUG] as well as [INFO]). *)
Theorem quiet_flag_changes_nothing (inputs : list string) (out : string)
    (dpi : Z) (lang : string) (w : World) :
  let loud := run (mkArgs inputs out dpi lang false) w in
  let hushed := run (mkArgs inputs out dpi lang true) w in
  loud.2 = hushed.2
  /\ fs loud.1 = fs hushed.1
  /\ stderr loud.1 = stderr hushed.1.
Proof.
  intros loud hushed.
  assert (Trace.in_step (run (mkArgs inputs out dpi lang false))
                        (run (mkArgs inputs out dpi lang true))) as Hsim.
  { unfold main. simpl. apply in_step_bind.
    - apply level_blind_mkdir_walk.
    - intros _. apply in_step_bind.
      + apply in_step_for_each. intros x w1 w2 H.
        unfold convert_one. simpl. by apply convert_alike.
      + intros _. by apply level_blind_log. }
  destruct (Hsim w w (alike_refl w)) as [(Hfs & Herr & _) Hres].
  done.
Qed.

(** X13. In a process whose root logger has no handler yet, the first call
    of [pdf_to_word_with_toc] sets the level of the root logger from its own
    [verbose], however that call ends; from then on [verbose] is a dead
    argument: any later call behaves the same with [verbose=True] and with
    [verbose=False], and leaves the level where the first call put it. *)
Theorem first_verbosity_wins (pdf_path output_path : string) (dpi : Z)
    (lang : string) (verbose : bool) (w : World) :
  let w1 := (convert pdf_path output_path dpi lang verbose w).1 in
  root_logger w = None ->
  root_logger w1 = Some (if verbose then DEBUG else INFO)
  /\ forall (pdf_path' output_path' : string) (dpi' : Z) (lang' : string)
            (verbose' : bool),
       convert pdf_path' output_path' dpi' lang' verbose' w1
       = convert pdf_path' output_path' dpi' lang' (negb verbose') w1
       /\ root_logger (convert pdf_path' output_path' dpi' lang' verbose' w1).1
          = Some (if verbose then DEBUG else INFO).
Proof.
  intros w1 Hnone.
  assert (forall p o d l v u th,
            root_logger u = Some th ->
            root_logger (convert p o d l v u).1 = Some th) as Hkeep.
  { intros p o d l v u th Hth.
    change (convert p o d l v u)
      with (bind (exists_ (Pathlib.of_string p)) (fun found =>
              if negb found
              then Logging.error (Layout.missing (Pathlib.of_string p))
              else bind (build (Pathlib.of_string p) d l)
                        (fun doc => save doc o))
              (configure (if v then DEBUG else INFO) u)).
    apply keeps_level_convert. by apply root_logger_configure. }
  assert (root_logger w1 = Some (if verbose then DEBUG else INFO)) as Hw1.
  { unfold w1.
    change (convert pdf_path output_path dpi lang verbose w)
      with (bind (exists_ (Pathlib.of_string pdf_path)) (fun found =>
              if negb found
              then Logging.error (Layout.missing (Pathlib.of_string pdf_path))
              else bind (build (Pathlib.of_string pdf_path) dpi lang)
                        (fun doc => save doc output_path))
              (configure (if verbose then DEBUG else INFO) w)).
    apply keeps_level_convert. by apply root_logger_configure_fresh. }
  split; [exact Hw1|].
  intros p o d l v. split; [|by apply Hkeep].
  assert (forall b : bool, configure (if b then DEBUG else INFO) w1 = w1) as Hid
    by (intros b; unfold configure; by rewrite Hw1).
  assert (forall b : bool,
            convert p o d l b w1
            = bind (exists_ (Pathlib.of_string p)) (fun found =>
                if negb found
                then Logging.error (Layout.missing (Pathlib.of_string p))
                else bind (build (Pathlib.of_string p) d l)
                          (fun doc => save doc o))
                (configure (if b then DEBUG else INFO) w1)) as Hrun by done.
  by rewrite !Hrun, !Hid.
Qed.

End Quiet.

(** ** Alignment, and [add_table_of_contents] on any document *)

Section Paragraphs.

Import Reader Layout.

Context {PageImage : Type}.
Variable convert_from_path : FS -> string -> Z -> Result (list PageImage).
Variable image_to_string : PageImage -> string -> Result string.

Local Abbreviation build := (build_document PageImage convert_from_path image_to_string).

Lemma page_sections_alignment its :
  Forall (fun p => alignment p = if is_heading p then Some WD_ALIGN_CENTER else None)
         (page_sections its).
Proof.
  induction its as [|[i t] its IH]; [constructor|].
  rewrite page_sections_cons. apply Forall_app. split; [|done].
  destruct (text_paragraph_plain t) as (Hplain & _ & _).
  assert (alignment (text_paragraph t) = None) as Ha by done.
  unfold page_section. destruct (1 <? i); simpl; repeat constructor; try done;
    by rewrite Hplain.
Qed.

(** X14. In every document the script builds, the headings of the pages
    are centred (alignment 1, [WD_ALIGN_PARAGRAPH.CENTER]) and they alone:
    the heading of the table of contents, which comes first, and every
    paragraph that is no heading keep the alignment they inherit. *)
Theorem page_headings_are_centred (pdf_file : Path) (dpi : Z) (lang : string)
    (w w1 : World) (doc : Document) :
  build pdf_file dpi lang w = (w1, Returned doc) ->
  exists h rest,
    body doc = h :: rest
    /\ is_heading h = true
    /\ Docx.text h = "Tabla de Contenidos"
    /\ alignment h = None
    /\ Forall (fun p => alignment p = if is_heading p then Some 1 else None) rest.
Proof.
  intros Hbuild.
  destruct (build_document_inv _ _ _ _ _ _ _ _ Hbuild)
    as (pages & texts & _ & _ & _ & _ & -> & _).
  exists toc_heading, (toc_paragraph :: page_sections (enumerate texts 1)).
  do 4 (split; [done|]). constructor; [done|]. apply page_sections_alignment.
Qed.

(** X15. On any document, [add_table_of_contents] appends one paragraph,
    which holds the field [TOC \h \z \u] and nothing else; the properties of
    the document and the paragraphs it had are left as they were.  It does
    not look for a table of contents already there: every call adds one more
    field. *)
Theorem add_table_of_contents_appends (d : Document) :
  core_properties (add_table_of_contents d) = core_properties d
  /\ body (add_table_of_contents d)
     = body d ++ [mkParagraph None None
                    [IElem (Elem "w:fldSimple" [("w:instr", "TOC \h \z \u")] [])]]
  /\ (forall (i : nat) (p : Paragraph),
        body d !! i = Some p -> body (add_table_of_contents d) !! i = Some p)
  /\ length (List.filter has_toc_field (body (add_table_of_contents d)))
     = S (length (List.filter has_toc_field (body d)))
  /\ length (List.filter has_toc_field
               (body (add_table_of_contents (add_table_of_contents d))))
     = S (S (length (List.filter has_toc_field (body d)))).
Proof.
  assert (forall d', length (List.filter has_toc_field (body (add_table_of_contents d')))
                     = S (length (List.filter has_toc_field (body d')))) as Hone.
  { intros d'. rewrite add_table_of_contents_body. simpl body.
    rewrite List.filter_app, length_app. simpl. lia. }
  split; [by rewrite add_table_of_contents_body|].
  split; [by rewrite add_table_of_contents_body|]. split.
  - intros i p Hp. rewrite add_table_of_contents_body. simpl body.
    by apply lookup_app_l_Some.
  - split; [apply Hone|]. by rewrite !Hone.
Qed.

End Paragraphs.

(** ** The properties above, on the demo world *)

Lemma output_directory_is_a_file_witness :
  tail (Pathlib.of_string (output_dir Demo.batch_into_a_file)) <> []
  /\ Forall (fun q => Demo.disk !! Pathlib.str q = Some Dir)
            (removelast (Pathlib.lineage
                           (Pathlib.of_string (output_dir Demo.batch_into_a_file))))
  /\ Demo.disk !! "in/c.pdf" = Some (DataFile "Delta||Zeta")
  /\ Demo.run Demo.batch_into_a_file
     = (Demo.fresh,
        Raised (mkExn "FileExistsError" "[Errno 17] File exists: 'in/c.pdf'")).
Proof.
  assert (tail (Pathlib.of_string (output_dir Demo.batch_into_a_file)) <> []) as H1
    by discriminate.
  assert (Forall (fun q => Demo.disk !! Pathlib.str q = Some Dir)
            (removelast (Pathlib.lineage
                           (Pathlib.of_string (output_dir Demo.batch_into_a_file)))))
    as H2 by (repeat constructor).
  assert (Demo.disk !! "in/c.pdf" = Some (DataFile "Delta||Zeta")) as H3
    by reflexivity.
  do 3 (split; [assumption|]).
  apply (output_directory_is_a_file Demo.rasterise Demo.ocr Demo.stat_fault Demo.save_fault
           Demo.no_fault Demo.batch_into_a_file Demo.fresh (DataFile "Delta||Zeta")
           H1 H2 H3).
  discriminate.
Defined.

Lemma batch_of_missing_inputs_witness :
  Path_mkdir Demo.no_fault (Pathlib.of_string "out") Demo.fresh
  = (Demo.made Demo.batch_of_ghosts, Returned tt)
  /\ Forall (fun pdf_path =>
               Demo.stat_fault (fs (Demo.made Demo.batch_of_ghosts))
                               (Pathlib.str (Pathlib.of_string pdf_path)) = None
               /\ exists_in (fs (Demo.made Demo.batch_of_ghosts))
                            (Pathlib.of_string pdf_path) = false)
            ["in/b.pdf"; "nowhere/z.pdf"]
  /\ Trace.info_written Demo.fresh
  /\ (Demo.run Demo.batch_of_ghosts).2 = Returned tt
  /\ stderr (Demo.run Demo.batch_of_ghosts).1
     = [(ERROR, "El PDF no existe: in/b.pdf");
        (ERROR, "El PDF no existe: nowhere/z.pdf");
        (INFO, "Proceso completado para todos los PDFs.")].
Proof.
  assert (Path_mkdir Demo.no_fault (Pathlib.of_string "out") Demo.fresh
          = (Demo.made Demo.batch_of_ghosts, Returned tt)) as H1
    by (vm_compute; reflexivity).
  assert (Forall (fun pdf_path =>
                    Demo.stat_fault (fs (Demo.made Demo.batch_of_ghosts))
                                    (Pathlib.str (Pathlib.of_string pdf_path)) = None
                    /\ exists_in (fs (Demo.made Demo.batch_of_ghosts))
                                 (Pathlib.of_string pdf_path) = false)
            ["in/b.pdf"; "nowhere/z.pdf"]) as H2
    by (repeat constructor).
  assert (Trace.info_written Demo.fresh) as H3 by (intros th Hth; discriminate).
  do 3 (split; [assumption|]).
  destruct (batch_of_missing_inputs Demo.rasterise Demo.ocr Demo.stat_fault Demo.save_fault
              Demo.no_fault Demo.batch_of_ghosts Demo.fresh _ H1
              ltac:(discriminate) H2 H3) as (Hres & _ & Hlog).
  split; [exact Hres | exact Hlog].
Defined.

Lemma first_verbosity_wins_witness :
  root_logger Demo.fresh = None
  /\ root_logger (Demo.convert "in/b.pdf" "out/b.docx" false).1 = Some INFO
  /\ root_logger
       (pdf_to_word_with_toc string Demo.rasterise Demo.ocr Demo.stat_fault Demo.save_fault
          "in/a.pdf" "out/a.docx" 300 "spa" true
          (Demo.convert "in/b.pdf" "out/b.docx" false).1).1
     = Some INFO.
Proof.
  assert (root_logger Demo.fresh = None) as H1 by reflexivity.
  split; [exact H1|].
  destruct (first_verbosity_wins Demo.rasterise Demo.ocr Demo.stat_fault Demo.save_fault
              "in/b.pdf" "out/b.docx" 300 "spa" false Demo.fresh H1)
    as [Hfirst Hlater].
  split; [exact Hfirst|].
  exact (proj2 (Hlater "in/a.pdf" "out/a.docx" 300 "spa" true)).
Defined.

Lemma page_headings_are_centred_witness :
  Demo.build "in/c.pdf"
  = ((Demo.build "in/c.pdf").1,
     Returned (Layout.assembled "c.pdf" ["Delta"; ""; "Zeta"]))
  /\ exists h rest,
       body (Layout.assembled "c.pdf" ["Delta"; ""; "Zeta"]) = h :: rest
       /\ alignment h = None
       /\ Forall (fun p => alignment p = if Reader.is_heading p then Some 1 else None)
                 rest.
Proof.
  split; [exact demo_build_c|].
  destruct (page_headings_are_centred Demo.rasterise Demo.ocr
              (Pathlib.of_string "in/c.pdf") 300 "spa"
              (Logging.configure DEBUG Demo.fresh) _ _ demo_build_c)
    as (h & rest & Hbody & _ & _ & Hh & Hrest).
  exists h, rest. split; [exact Hbody|]. split; [exact Hh | exact Hrest].
Defined.

(** ** Exceptions that no [try] of the script expects *)

Section Unexpected.

Import Layout.

Context {PageImage : Type}.
Variable convert_from_path : FS -> string -> Z -> Result (list PageImage).
Variable image_to_string : PageImage -> string -> Result string.
Variable stat_fault : FS -> string -> option Exn.
Variable save_fault : FS -> string -> option SaveFault.
Variable mkdir_fault : FS -> string -> option Exn.

Local Abbreviation build := (build_document PageImage convert_from_path image_to_string).
Local Abbreviation convert :=
  (pdf_to_word_with_toc PageImage convert_from_path image_to_string
                        stat_fault save_fault).
Local Abbreviation convert_in_batch :=
  (convert_one PageImage convert_from_path image_to_string stat_fault save_fault).
Local Abbreviation mkdir := (Path_mkdir mkdir_fault).
Local Abbreviation run :=
  (main PageImage convert_from_path image_to_string stat_fault save_fault
        mkdir_fault).

Lemma chars_append (s t : string) :
  Str.chars (s +:+ t) = Str.chars s + Str.chars t.
Proof.
  induction s as [|a s IH]; [done|].
  rewrite append_cons. simpl. rewrite IH. lia.
Qed.

(** X16. The title "Conversión de <name>" has 14 characters more than the
    name of the input.  For an input that is there and rasterises, whose
    name has more than 241 characters, line 47 raises the [ValueError] of
    python-docx for a property of more than 255 characters: the exception
    leaves [pdf_to_word_with_toc], no page is read, nothing is saved, and
    the only record is the announcement. *)
Theorem long_name_stops_conversion (pdf_path output_path : string) (dpi : Z)
    (lang : string) (verbose : bool) (w : World) (pages : list PageImage) :
  let pdf_file := Pathlib.of_string pdf_path in
  let out := convert pdf_path output_path dpi lang verbose w in
  stat_fault (fs w) (Pathlib.str pdf_file) = None ->
  exists_in (fs w) pdf_file = true ->
  convert_from_path (fs w) (Pathlib.str pdf_file) dpi = Returned pages ->
  241 < Str.chars (Pathlib.name pdf_file) ->
  out.2 = Raised (ValueError ("exceeded 255 char limit for property, got:"
                              +:+ String "010" (String "010" "'")
                              +:+ "Conversión de " +:+ Pathlib.name pdf_file
                              +:+ "'"))
  /\ fs out.1 = fs w
  /\ (Trace.info_written w ->
      stderr out.1
      = stderr w ++ [(INFO, converting (Pathlib.name pdf_file) dpi)]).
Proof.
  intros pdf_file out Hstat Hfound Hconv Hlong. unfold out.
  set (w0 := Logging.configure (if verbose then DEBUG else INFO) w).
  assert (build pdf_file dpi lang w0
          = (Logging.emit INFO (converting (Pathlib.name pdf_file) dpi) w0,
             Raised (Docx.too_long ("Conversión de " +:+ Pathlib.name pdf_file))))
    as Hbuild.
  { unfold build_document, bind, Logging.info, Logging.log,
      pdf2image_convert_from_path, lift.
    fold (converting (Pathlib.name pdf_file) dpi).
    rewrite fs_emit. unfold w0. rewrite fs_configure, Hconv.
    unfold Docx.set_title. rewrite chars_append.
    change (Str.chars "Conversión de ") with 14.
    destruct (Z.ltb_spec 255 (14 + Str.chars (Pathlib.name pdf_file))); [done | lia]. }
  rewrite convert_found by done. fold w0.
  erewrite bind_raised by exact Hbuild. cbn [fst snd].
  split; [done|]. split; [unfold w0; by rewrite fs_emit, fs_configure|].
  intros Hinfo.
  destruct (info_written_configure verbose w Hinfo) as (th & Hth & Hle).
  fold w0 in Hth.
  rewrite (stderr_emit_audible _ _ _ _ Hth Hle).
  unfold w0. by rewrite stderr_configure.
Qed.

(** X17. When the existence check of line 39 fails ([stat] raises an
    [OSError] other than those that mean an absent path), the exception
    leaves [pdf_to_word_with_toc] before anything is logged or written, and
    ends the batch: the inputs that follow are not looked at and the
    closing line is not logged. *)
Theorem failed_existence_check_ends_batch (args : Args)
    (before : list string) (pdf_path : string) (after : list string)
    (w w0 w1 : World) (e : Exn) :
  let out_dir := Pathlib.of_string (output_dir args) in
  let pdf_file := Pathlib.of_string pdf_path in
  let out := convert pdf_path (output_path_for out_dir pdf_path)
                     (arg_dpi args) (arg_lang args) (negb (quiet args)) w1 in
  pdfs args = before ++ pdf_path :: after ->
  mkdir out_dir w = (w0, Returned tt) ->
  for_each before (convert_in_batch args out_dir) w0 = (w1, Returned tt) ->
  stat_fault (fs w1) (Pathlib.str pdf_file) = Some e ->
  out.2 = Raised e
  /\ fs out.1 = fs w1
  /\ stderr out.1 = stderr w1
  /\ run args w = (out.1, Raised e).
Proof.
  intros out_dir pdf_file out Hpdfs Hmkdir Hbefore Hstat. unfold out.
  rewrite (convert_unreachable _ _ _ _ _ _ _ _ _ _ _ Hstat). cbn [fst snd].
  split; [done|]. split; [apply fs_configure|]. split; [apply stderr_configure|].
  unfold main. fold out_dir. rewrite Hpdfs.
  erewrite bind_returned by exact Hmkdir.
  eapply bind_raised. eapply for_each_raised; [exact Hbefore|].
  unfold convert_one. by apply convert_unreachable.
Qed.

End Unexpected.

Lemma long_name_stops_conversion_witness :
  Demo.stat_fault Demo.attic ("in/" +:+ Demo.long_name) = None
  /\ exists_in Demo.attic (Pathlib.of_string ("in/" +:+ Demo.long_name)) = true
  /\ Demo.rasterise Demo.attic ("in/" +:+ Demo.long_name) 300 = Returned ["Alpha"]
  /\ Str.chars Demo.long_name = 254
  /\ fs (Demo.convert_in_attic ("in/" +:+ Demo.long_name) "out/long.docx").1
     = Demo.attic
  /\ stderr (Demo.convert_in_attic ("in/" +:+ Demo.long_name) "out/long.docx").1
     = [(INFO, Layout.converting Demo.long_name 300)].
Proof.
  assert (Demo.stat_fault Demo.attic
            (Pathlib.str (Pathlib.of_string ("in/" +:+ Demo.long_name))) = None)
    as H0 by (vm_compute; reflexivity).
  assert (exists_in Demo.attic (Pathlib.of_string ("in/" +:+ Demo.long_name)) = true)
    as H1 by (vm_compute; reflexivity).
  assert (Demo.rasterise Demo.attic
            (Pathlib.str (Pathlib.of_string ("in/" +:+ Demo.long_name))) 300
          = Returned ["Alpha"]) as H2 by (vm_compute; reflexivity).
  assert (241 < Str.chars (Pathlib.name (Pathlib.of_string ("in/" +:+ Demo.long_name))))
    as H3 by (vm_compute; reflexivity).
  assert (Trace.info_written (mkWorld Demo.attic None [])) as H4
    by (intros th Hth; discriminate).
  split; [vm_compute; reflexivity|]. split; [exact H1|].
  split; [vm_compute; reflexivity|]. split; [vm_compute; reflexivity|].
  destruct (long_name_stops_conversion Demo.rasterise Demo.ocr Demo.stat_fault
              Demo.save_fault ("in/" +:+ Demo.long_name) "out/long.docx" 300 "spa"
              true (mkWorld Demo.attic None []) ["Alpha"] H0 H1 H2 H3)
    as (_ & Hfs & Hlog).
  split; [exact Hfs|].
  unfold Demo.convert_in_attic. rewrite (Hlog H4). vm_compute. reflexivity.
Defined.

Lemma failed_existence_check_ends_batch_witness :
  pdfs Demo.batch_overlong = [] ++ ("in/" +:+ Demo.overlong_name) :: ["in/a.pdf"]
  /\ (Demo.run Demo.batch_overlong).2
     = Raised (mkExn "OSError"
                 ("[Errno 36] File name too long: 'in/" +:+ Demo.overlong_name +:+ "'"))
  /\ stderr (Demo.run Demo.batch_overlong).1 = [].
Proof.
  assert (pdfs Demo.batch_overlong
          = [] ++ ("in/" +:+ Demo.overlong_name) :: ["in/a.pdf"]) as H1
    by reflexivity.
  assert (Path_mkdir Demo.no_fault (Pathlib.of_string (output_dir Demo.batch_overlong))
            Demo.fresh
          = (Demo.made Demo.batch_overlong, Returned tt)) as H2
    by (vm_compute; reflexivity).
  assert (for_each []
            (convert_one string Demo.rasterise Demo.ocr Demo.stat_fault
               Demo.save_fault Demo.batch_overlong
               (Pathlib.of_string (output_dir Demo.batch_overlong)))
            (Demo.made Demo.batch_overlong)
          = (Demo.made Demo.batch_overlong, Returned tt)) as H3 by reflexivity.
  assert (Demo.stat_fault (fs (Demo.made Demo.batch_overlong))
            (Pathlib.str (Pathlib.of_string ("in/" +:+ Demo.overlong_name)))
          = Some (mkExn "OSError"
                    ("[Errno 36] File name too long: 'in/" +:+ Demo.overlong_name
                     +:+ "'"))) as H4
    by (vm_compute; reflexivity).
  split; [exact H1|].
  destruct (failed_existence_check_ends_batch Demo.rasterise Demo.ocr
              Demo.stat_fault Demo.save_fault Demo.no_fault Demo.batch_overlong
              [] ("in/" +:+ Demo.overlong_name) ["in/a.pdf"] Demo.fresh _ _ _
              H1 H2 H3 H4)
    as (_ & _ & Herr & Hrun).
  unfold Demo.run. rewrite Hrun. cbn [fst snd].
  split; [reflexivity|]. rewrite Herr. vm_compute. reflexivity.
Defined.
